(** * podcast-to-text: job tracking, reconciliation and rendering

    A shallow embedding of the Python sources [db.py], [submit.py],
    [query.py], [utils.py] and [transcriber.py], with the properties of the
    job life cycle proved about it.

    Conventions of the embedding:
    - a Python [str] is a [string], one [ascii] per code point below 256;
    - a Python [int] is a [Z]; a [float] that holds seconds is the rational
      number it denotes, a [Q] (the values the development computes with,
      0.0, 2.5 and 5.0, are exact in binary64); where only equality of two
      float computations matters the float type is kept abstract;
    - the SQLite file is a record of two row lists in rowid order;
    - HTTP exchanges, feed retrieval, file writes and the clock are answered
      by an environment [Env], a function of the calls made so far; every
      call is recorded in the world so that "no call was made" is a
      statement about that record;
    - a Python exception is the [Raise] result of the monad [M]; state
      written before the exception stays written, as in Python. *)

From Stdlib Require Import String Ascii List ZArith QArith Qround Lia Bool.
From Stdlib Require Import DecimalString.
Import ListNotations.

Local Open Scope list_scope.
Local Open Scope string_scope.

(** ** Exceptions and results *)

(** The exceptions the modelled code can meet; all are subclasses of
    Python's [Exception], so [except Exception] catches each of them. *)
Inductive Exn : Type :=
| ValueError
| KeyError (key : string)
| TypeError
| AttributeError
| RequestException (msg : string)
| OSError (msg : string).

Inductive Result (A : Type) : Type :=
| Ok (a : A)
| Raise (e : Exn).
Arguments Ok {A} a.
Arguments Raise {A} e.

Definition bindR {A B : Type} (r : Result A) (k : A -> Result B) : Result B :=
  match r with
  | Ok a => k a
  | Raise e => Raise e
  end.

Declare Scope result_scope.
Delimit Scope result_scope with result.
Notation "x <- c ;; k" := (bindR c (fun x => k))
  (at level 61, c at next level, right associativity) : result_scope.
Notation "' pat <- c ;; k" := (bindR c (fun x => match x with pat => k end))
  (at level 61, pat pattern, c at next level, right associativity) : result_scope.

(** ** Python built-ins *)

Module Py.

Definition chars (s : string) : list ascii := list_ascii_of_string s.
Definition str (l : list ascii) : string := string_of_list_ascii l.

(** The double quote, written by its code. *)
Definition dquote : ascii := ascii_of_nat 34.

(** [c in set], for a character. *)
Definition char_in (set : string) (c : ascii) : bool :=
  existsb (Ascii.eqb c) (chars set).

(** [re.sub(r'[cls]', '', s)]: every character of the class is deleted. *)
Definition re_sub_class (cls : ascii -> bool) (s : string) : string :=
  str (filter (fun c => negb (cls c)) (chars s)).

(** [len(s)], [s[:n]] and [s[n:]]. *)
Definition len (s : string) : nat := List.length (chars s).
Definition slice_to (n : nat) (s : string) : string := str (firstn n (chars s)).
Definition slice_from (n : nat) (s : string) : string := str (skipn n (chars s)).

Fixpoint dropwhile (p : ascii -> bool) (l : list ascii) : list ascii :=
  match l with
  | [] => []
  | c :: l' => if p c then dropwhile p l' else l
  end.

(** [s.strip(set)]: characters of [set] are removed from both ends. *)
Definition lstrip_chars (p : ascii -> bool) (l : list ascii) : list ascii :=
  dropwhile p l.
Definition rstrip_chars (p : ascii -> bool) (l : list ascii) : list ascii :=
  rev (dropwhile p (rev l)).
Definition strip_chars (p : ascii -> bool) (l : list ascii) : list ascii :=
  lstrip_chars p (rstrip_chars p l).
Definition strip (set : string) (s : string) : string :=
  str (strip_chars (char_in set) (chars s)).

(** [s.startswith(p)] and [c in s]. *)
Definition startswith (p s : string) : bool := String.prefix p s.
Definition contains (c : ascii) (s : string) : bool :=
  existsb (Ascii.eqb c) (chars s).

(** [s.split(c)] for a one-character separator: the pieces between the
    occurrences of [c]; always at least one piece. *)
Fixpoint split_chars (c : ascii) (l : list ascii) : list (list ascii) :=
  match l with
  | [] => [[]]
  | x :: l' =>
      match split_chars c l' with
      | [] => [[]]
      | piece :: rest =>
          if Ascii.eqb x c then [] :: piece :: rest else (x :: piece) :: rest
      end
  end.
Definition split (c : ascii) (s : string) : list string :=
  map str (split_chars c (chars s)).

(** [s.replace(c, '')]. *)
Definition remove_char (c : ascii) (s : string) : string :=
  str (filter (fun x => negb (Ascii.eqb x c)) (chars s)).

(** The truth value of a string: non-empty. *)
Definition truthy (s : string) : bool :=
  match s with EmptyString => false | String _ _ => true end.

(** [str(n)] for an integer. *)
Definition str_of_int (z : Z) : string := NilZero.string_of_int (Z.to_int z).

(** [format(z, '02d')]: at least two characters, zero padded, the sign
    counted in the width. *)
Definition format_02d (z : Z) : string :=
  if (z <? 0)%Z then str_of_int z
  else if (z <? 10)%Z then "0" ++ str_of_int z
  else str_of_int z.

(** [s.isdigit()] on code points below 256: the ten decimal digits and the
    superscripts one, two and three. *)
Definition decimal_char (c : ascii) : bool :=
  ((48 <=? nat_of_ascii c) && (nat_of_ascii c <=? 57))%nat.
Definition isdigit_char (c : ascii) : bool :=
  decimal_char c
  || (nat_of_ascii c =? 178)%nat || (nat_of_ascii c =? 179)%nat
  || (nat_of_ascii c =? 185)%nat.
Definition isdigit (s : string) : bool :=
  truthy s && forallb isdigit_char (chars s).

(** [int(s)] for a string of [isdigit] characters: the superscripts are
    not decimal digits and raise [ValueError], and so does a string of more
    digits, leading zeros counted, than the limit of the interpreter,
    [sys.get_int_max_str_digits()], here at its default. *)
Definition digits_value (l : list ascii) : Z :=
  fold_left (fun acc c => (10 * acc + (Z.of_nat (nat_of_ascii c) - 48))%Z) l 0%Z.
Definition int_max_str_digits : Z := 4300.
Definition int_of_str (s : string) : Result Z :=
  if truthy s && forallb decimal_char (chars s)
     && (Z.of_nat (len s) <=? int_max_str_digits)%Z
  then Ok (digits_value (chars s))
  else Raise ValueError.

(** Floor division, remainder and [int()] on the seconds of a time stamp,
    for a positive divisor. *)
Definition floordiv (x d : Q) : Q := inject_Z (Qfloor (x / d)).
Definition mod_ (x d : Q) : Q := x - d * inject_Z (Qfloor (x / d)).
Definition int (x : Q) : Z := if Qle_bool 0 x then Qfloor x else Qceiling x.

(** The line feed and [sep.join(l)]. *)
Definition nl : string := String (ascii_of_nat 10) EmptyString.
Definition join (sep : string) (l : list string) : string := String.concat sep l.

(** [c.isspace()] on code points below 256, and [s.strip()]. *)
Definition isspace_char (c : ascii) : bool :=
  let n := nat_of_ascii c in
  ((9 <=? n) && (n <=? 13) || (28 <=? n) && (n <=? 32)
   || (n =? 133) || (n =? 160))%nat.
Definition strip_space (s : string) : string :=
  str (strip_chars isspace_char (chars s)).

(** The classes [a-z], [A-Z] and [0-9], and [c.lower()] on them. *)
Definition ascii_lower (c : ascii) : bool :=
  ((97 <=? nat_of_ascii c) && (nat_of_ascii c <=? 122))%nat.
Definition ascii_upper (c : ascii) : bool :=
  ((65 <=? nat_of_ascii c) && (nat_of_ascii c <=? 90))%nat.
Definition lower_char (c : ascii) : ascii :=
  if ascii_upper c then ascii_of_nat (nat_of_ascii c + 32) else c.

(** [l[:n]] for an integer [n]: a negative [n] counts from the end. *)
Definition slice_to_int {A : Type} (n : Z) (l : list A) : list A :=
  if (n <? 0)%Z then firstn (List.length l - Z.to_nat (- n)) l
  else firstn (Z.to_nat n) l.

End Py.

(** A Python [dict] with string keys, as the list of its items in
    insertion order. *)
Module Dict.
Section Dict.
Context {V : Type}.

Fixpoint get (k : string) (d : list (string * V)) : option V :=
  match d with
  | [] => None
  | (k', v) :: rest => if String.eqb k' k then Some v else get k rest
  end.

(** [d[k] = v]: the value is replaced in place, a new key goes last. *)
Fixpoint set (k : string) (v : V) (d : list (string * V))
  : list (string * V) :=
  match d with
  | [] => [(k, v)]
  | (k', v') :: rest =>
      if String.eqb k' k then (k', v) :: rest else (k', v') :: set k v rest
  end.

End Dict.
End Dict.

(** ** utils.py *)

(** The character class of the first [re.sub] of [sanitize_filename]: the
    nine characters less-than, greater-than, colon, double quote, slash,
    backslash, bar, question mark and star. *)
Definition illegal_char (c : ascii) : bool :=
  Py.char_in "<>:/\|?*" c || Ascii.eqb c Py.dquote.

(** The character class of the second [re.sub]: code points 0 to 31. *)
Definition control_char (c : ascii) : bool := (nat_of_ascii c <=? 31)%nat.

Definition sanitize_filename (name : string) : string :=
  let name := Py.re_sub_class illegal_char name in
  let name := Py.re_sub_class control_char name in
  let name := if (200 <? Py.len name)%nat then Py.slice_to 200 name else name in
  let name := Py.strip " ." name in
  if Py.truthy name then name else "untitled".

(** The title of the self-test at the end of [utils.py]. *)
Definition test_title : string :=
  "Test: Episode " ++ String Py.dquote ("01" ++ String Py.dquote " <Special>").

Definition format_duration (duration_str : string) : Result string :=
  if negb (Py.truthy duration_str) then Ok "Unknown"
  else if Py.isdigit duration_str then
    (seconds <- Py.int_of_str duration_str ;;
     let hours := (seconds / 3600)%Z in
     let minutes := ((seconds mod 3600) / 60)%Z in
     let secs := (seconds mod 60)%Z in
     if (hours >? 0)%Z
     then Ok (Py.format_02d hours ++ ":" ++ Py.format_02d minutes ++ ":"
              ++ Py.format_02d secs)%string
     else Ok (Py.format_02d minutes ++ ":" ++ Py.format_02d secs)%string)%result
  else Ok duration_str.

(** ** transcriber.py *)

Module TranscriptSegment.
Record t : Type := mk {
  start_time : Q;
  end_time : Q;
  text : string;
  speaker : Z
}.
End TranscriptSegment.

(** The seconds of a time stamp are given by the exact value of the
    float. For seconds that are not negative and below 2^53 the floor
    division and the remainder of floats are exact, and the definition is
    the source on them; outside this range the source rounds (a remainder
    can come out as the divisor), and it raises on NaN and on the
    infinities. *)
Definition format_time (seconds : Q) : string :=
  let hours := Py.int (Py.floordiv seconds 3600) in
  let minutes := Py.int (Py.floordiv (Py.mod_ seconds 3600) 60) in
  let secs := Py.int (Py.mod_ seconds 60) in
  Py.format_02d hours ++ ":" ++ Py.format_02d minutes ++ ":" ++ Py.format_02d secs.

Definition markdown_line (seg : TranscriptSegment.t) : string :=
  let timestamp := format_time (TranscriptSegment.start_time seg) in
  let speaker_label :=
    if (TranscriptSegment.speaker seg =? 0)%Z then ""
    else "Speaker " ++ Py.str_of_int (TranscriptSegment.speaker seg) in
  if Py.truthy speaker_label
  then "[" ++ timestamp ++ "] **" ++ speaker_label ++ "**: "
       ++ TranscriptSegment.text seg
  else "[" ++ timestamp ++ "] " ++ TranscriptSegment.text seg.

Definition segments_to_markdown (segments : list TranscriptSegment.t) : string :=
  Py.join (Py.nl ++ Py.nl) (map markdown_line segments).

(** One dictionary of the list [segments_to_json] returns. *)
Module JsonSegment.
Record t : Type := mk {
  time : string;
  start : Q;
  end_ : Q;
  speaker : Z;
  text : string
}.
End JsonSegment.

Definition segments_to_json (segments : list TranscriptSegment.t)
  : list JsonSegment.t :=
  map (fun seg =>
         JsonSegment.mk (format_time (TranscriptSegment.start_time seg))
                        (TranscriptSegment.start_time seg)
                        (TranscriptSegment.end_time seg)
                        (TranscriptSegment.speaker seg)
                        (TranscriptSegment.text seg))
      segments.

(** The segment list of the rendering property. *)
Definition sample_segments : list TranscriptSegment.t :=
  [ TranscriptSegment.mk 0 (5 # 2) "hello" 1;
    TranscriptSegment.mk (5 # 2) 5 "world" 1 ].

(** *** The two ISO-8601 duration parsers

    The arithmetic of [float] is kept abstract: the parsers are compared for
    every interpretation of [float(s)], [+] and [*]. *)

Class FloatOps (float : Type) : Type := {
  float_zero : float;                          (* the literal 0.0 *)
  float_of_str : string -> Result float;       (* float(s), ValueError *)
  float_of_int : Z -> float;                   (* an int operand of * *)
  float_add : float -> float -> float;
  float_mul : float -> float -> float
}.

(** [a, b = l]: exactly two values, else [ValueError]. *)
Definition unpack2 (l : list string) : Result (string * string) :=
  match l with
  | [a; b] => Ok (a, b)
  | _ => Raise ValueError
  end.

Module Transcriber.
Section Parse.
Context {float : Type} `{FloatOps float}.

Definition _parse_duration (duration_str : string) : Result float :=
  if negb (Py.truthy duration_str) || negb (Py.startswith "PT" duration_str)
  then Ok float_zero
  else
    let duration_str := Py.slice_from 2 duration_str in
    let total_seconds := float_zero in
    (' (total_seconds, duration_str) <-
       (if Py.contains "H" duration_str then
          ' (hours, duration_str) <- unpack2 (Py.split "H" duration_str) ;;
          h <- float_of_str hours ;;
          Ok (float_add total_seconds (float_mul h (float_of_int 3600)),
              duration_str)
        else Ok (total_seconds, duration_str)) ;;
     ' (total_seconds, duration_str) <-
       (if Py.contains "M" duration_str then
          ' (minutes, duration_str) <- unpack2 (Py.split "M" duration_str) ;;
          m <- float_of_str minutes ;;
          Ok (float_add total_seconds (float_mul m (float_of_int 60)),
              duration_str)
        else Ok (total_seconds, duration_str)) ;;
     total_seconds <-
       (if Py.contains "S" duration_str then
          let seconds := Py.remove_char "S" duration_str in
          s <- float_of_str seconds ;;
          Ok (float_add total_seconds s)
        else Ok total_seconds) ;;
     Ok total_seconds)%result.

End Parse.
End Transcriber.

(** [parse_duration] of [query.py], the parser of the poller. *)
Section ParseDuration.
Context {float : Type} `{FloatOps float}.

Definition parse_duration (duration_str : string) : Result float :=
  if negb (Py.truthy duration_str) || negb (Py.startswith "PT" duration_str)
  then Ok float_zero
  else
    let duration_str := Py.slice_from 2 duration_str in
    let total := float_zero in
    (' (total, duration_str) <-
       (if Py.contains "H" duration_str then
          ' (hours, duration_str) <- unpack2 (Py.split "H" duration_str) ;;
          h <- float_of_str hours ;;
          Ok (float_add total (float_mul h (float_of_int 3600)), duration_str)
        else Ok (total, duration_str)) ;;
     ' (total, duration_str) <-
       (if Py.contains "M" duration_str then
          ' (minutes, duration_str) <- unpack2 (Py.split "M" duration_str) ;;
          m <- float_of_str minutes ;;
          Ok (float_add total (float_mul m (float_of_int 60)), duration_str)
        else Ok (total, duration_str)) ;;
     total <-
       (if Py.contains "S" duration_str then
          s <- float_of_str (Py.remove_char "S" duration_str) ;;
          Ok (float_add total s)
        else Ok total) ;;
     Ok total)%result.

End ParseDuration.

(** ** db.py *)

(** A [datetime]: an instant, opaque to the code that stores it. *)
Definition datetime : Type := Z.

Module ProcessedEpisode.
Record t : Type := mk {
  id : Z;
  episode_id : string;
  channel : string;
  title : string;
  processed_at : datetime;
  status : string;
  output_path : string
}.
End ProcessedEpisode.

Module PendingEpisode.
Record t : Type := mk {
  id : Z;
  episode_id : string;
  channel : string;
  title : string;
  audio_url : string;
  transcription_id : string;
  submitted_at : datetime;
  published : option datetime;
  duration : option string
}.
End PendingEpisode.

Module Database.

(** The SQLite file: the rows of the two tables in rowid order, and for
    each table the largest [id] that AUTOINCREMENT has handed out. *)
Record t : Type := mk {
  processed_episodes : list ProcessedEpisode.t;
  processed_seq : Z;
  pending_episodes : list PendingEpisode.t;
  pending_seq : Z
}.

(** The file [_init_db] creates when there is none. *)
Definition empty : t := mk [] 0 [] 0.

(** [WHERE episode_id = ? AND channel = ?] on either table. *)
Definition processed_key (episode_id channel : string)
  (r : ProcessedEpisode.t) : bool :=
  String.eqb (ProcessedEpisode.episode_id r) episode_id
  && String.eqb (ProcessedEpisode.channel r) channel.

Definition pending_key (episode_id channel : string)
  (r : PendingEpisode.t) : bool :=
  String.eqb (PendingEpisode.episode_id r) episode_id
  && String.eqb (PendingEpisode.channel r) channel.

Definition is_processed (db : t) (episode_id channel : string) : bool :=
  existsb (fun r => processed_key episode_id channel r
                    && String.eqb (ProcessedEpisode.status r) "success")
          (processed_episodes db).

(** INSERT OR REPLACE: the row that conflicts on UNIQUE(episode_id,
    channel) is deleted, the new row gets the next [id]. [now] is the value
    [datetime.now()] returned. *)
Definition mark_processed (db : t) (episode_id channel title : string)
  (output_path status : string) (now : datetime) : t :=
  let id := (processed_seq db + 1)%Z in
  mk (filter (fun r => negb (processed_key episode_id channel r))
             (processed_episodes db)
      ++ [ProcessedEpisode.mk id episode_id channel title now status output_path])
     id
     (pending_episodes db)
     (pending_seq db).

Definition is_pending (db : t) (episode_id channel : string) : bool :=
  existsb (pending_key episode_id channel) (pending_episodes db).

Definition mark_pending (db : t) (episode_id channel title : string)
  (audio_url transcription_id : string) (published : option datetime)
  (duration : option string) (now : datetime) : t :=
  let id := (pending_seq db + 1)%Z in
  mk (processed_episodes db)
     (processed_seq db)
     (filter (fun r => negb (pending_key episode_id channel r))
             (pending_episodes db)
      ++ [PendingEpisode.mk id episode_id channel title audio_url
            transcription_id now published duration])
     id.

(** [channel] is tested for truth: [None] and the empty string both select
    every row. *)
Definition get_pending (db : t) (channel : option string)
  : list PendingEpisode.t :=
  match channel with
  | Some c =>
      if Py.truthy c
      then filter (fun r => String.eqb (PendingEpisode.channel r) c)
                  (pending_episodes db)
      else pending_episodes db
  | None => pending_episodes db
  end.

Definition remove_pending (db : t) (episode_id channel : string) : t :=
  mk (processed_episodes db)
     (processed_seq db)
     (filter (fun r => negb (pending_key episode_id channel r))
             (pending_episodes db))
     (pending_seq db).

(** [channel] is tested for truth, as in [get_pending]. *)
Definition get_failed_episodes (db : t) (channel : option string)
  : list ProcessedEpisode.t :=
  let failed r := String.eqb (ProcessedEpisode.status r) "failed" in
  match channel with
  | Some c =>
      if Py.truthy c
      then filter (fun r => failed r
                            && String.eqb (ProcessedEpisode.channel r) c)
                  (processed_episodes db)
      else filter failed (processed_episodes db)
  | None => filter failed (processed_episodes db)
  end.

(** The rows of [SELECT channel, status, COUNT( * ) ... GROUP BY channel,
    status]: one row per pair that occurs. SQL leaves their order open;
    here a pair stands where its last row stands in the table. *)
Definition group_key (r : ProcessedEpisode.t) : string * string :=
  (ProcessedEpisode.channel r, ProcessedEpisode.status r).

Definition group_key_dec (a b : string * string) : {a = b} + {a <> b}.
Proof. decide equality; apply string_dec. Defined.

Definition same_group (k : string * string) (r : ProcessedEpisode.t) : bool :=
  String.eqb (ProcessedEpisode.channel r) (fst k)
  && String.eqb (ProcessedEpisode.status r) (snd k).

Definition status_counts (db : t) : list (string * string * Z) :=
  map (fun k => (k, Z.of_nat (List.length (filter (same_group k)
                                             (processed_episodes db)))))
      (nodup group_key_dec (map group_key (processed_episodes db))).

(** The dictionary [get_stats] returns. *)
Record Stats : Type := mkStats {
  processed : list (string * list (string * Z));
  pending : Z
}.

Definition add_status_count (processed : list (string * list (string * Z)))
  (row : string * string * Z) : list (string * list (string * Z)) :=
  let '(channel, status, count) := row in
  let processed :=
    match Dict.get channel processed with
    | Some _ => processed
    | None => Dict.set channel [("success", 0%Z); ("failed", 0%Z)] processed
    end in
  match Dict.get channel processed with
  | Some counts => Dict.set channel (Dict.set status count counts) processed
  | None => processed
  end.

Definition get_stats (db : t) : Stats :=
  mkStats (fold_left add_status_count (status_counts db) [])
          (Z.of_nat (List.length (pending_episodes db))).

End Database.

(** ** rss_parser.py *)

Module Episode.
Record t : Type := mk {
  id : string;
  title : string;
  audio_url : string;
  published : datetime;
  duration : option string;
  description : option string
}.
End Episode.

(** ** JSON values, as [response.json()] returns them *)

#[local] Unset Elimination Schemes.
Inductive json : Type :=
| JNull
| JBool (b : bool)
| JNum (q : Q)
| JStr (s : string)
| JList (l : list json)
| JDict (items : list (string * json)).
#[local] Set Elimination Schemes.

Module Json.

Fixpoint assoc (k : string) (items : list (string * json)) : option json :=
  match items with
  | [] => None
  | (k', v) :: rest => if String.eqb k' k then Some v else assoc k rest
  end.

(** [j[k]] for a string key. *)
Definition getitem (j : json) (k : string) : Result json :=
  match j with
  | JDict items =>
      match assoc k items with
      | Some v => Ok v
      | None => Raise (KeyError k)
      end
  | _ => Raise TypeError
  end.

(** [j.get(k, default)]: only a dictionary has the method. *)
Definition get (j : json) (k : string) (default : json) : Result json :=
  match j with
  | JDict items =>
      match assoc k items with
      | Some v => Ok v
      | None => Ok default
      end
  | _ => Raise AttributeError
  end.

(** [j == s] for a string literal [s]. *)
Definition eq_str (j : json) (s : string) : bool :=
  match j with
  | JStr s' => String.eqb s' s
  | _ => false
  end.

End Json.

(** ** The world: database, calls made, clock reads, log *)

(** What [save_output] hands to [f.write] and [json.dump]. *)
Record MarkdownDoc : Type := {
  md_title : string;
  md_date : string;
  md_duration : string;
  md_channel : string;
  md_body : string
}.

Record JsonDoc : Type := {
  jd_title : string;
  jd_published : option datetime;
  jd_duration : option string;
  jd_channel : string;
  jd_audio_url : string;
  jd_transcript : list JsonSegment.t;
  jd_processed_at : datetime
}.

Inductive FileContent : Type :=
| Markdown (doc : MarkdownDoc)
| JsonFile (doc : JsonDoc).

(** A call that leaves the process. *)
Inductive Call : Type :=
| CallParseFeed (url : string) (max_episodes : Z)
| CallSubmit (audio_url language : string)
| CallStatus (transcription_id : string)
| CallResult (transcription_id : string)
| CallDelete (transcription_id : string)
| CallMkdir (path : string)
| CallWrite (path : string) (content : FileContent).

(** The records handed to [logger], one constructor per call site. *)
Inductive LogRecord : Type :=
(* submit.py, process_single_rss *)
| LogProcessingRss (url : string)
| LogChannelLanguage (channel language : string)
| LogNoEpisodes
| LogAlreadyProcessed (title : string)
| LogAlreadyPending (title : string)
| LogSubmitted (title : string)
| LogTranscriptionId (transcription_id : string)
| LogFailedToSubmit (e : Exn)
(* submit.py, process_config_file *)
| LogLoadedChannels (n : nat)
| LogChannel (name : string)
| LogFoundEpisodes (n : nat)
| LogSkippingDone (title40 : string)
| LogSkippingPending (title40 : string)
| LogSubmittedAs (title40 transcription_id : string)
| LogFailed (e : Exn)
| LogChannelError (e : Exn)
(* query.py, main *)
| LogNoPending
| LogFoundPending (n : nat)
| LogListed (channel title50 transcription_id : string)
| LogChecking (channel title40 : string)
| LogCompleted (output_path : string)
| LogNoSegments
| LogJobFailed (error : json)
| LogStillRunning (status : json)
| LogError (e : Exn)
| LogSummary
| LogSummaryCompleted (n : Z)
| LogSummaryStillRunning (n : Z)
| LogSummaryFailed (n : Z).

Record World : Type := mkWorld {
  db : Database.t;
  calls : list Call;
  clock : nat;
  log : list LogRecord
}.

(** The environment: what the outside answers, given the calls made before,
    and the library functions whose results the code only passes on. *)
Record Env : Type := {
  env_now : nat -> datetime;                 (* the n-th [datetime.now()] *)
  env_parse_feed : list Call -> string -> Z -> Result (list Episode.t);
  env_submit : list Call -> string -> string -> Result string;
  env_status : list Call -> string -> Result json;
  env_result : list Call -> string -> Result (list TranscriptSegment.t);
  env_delete : list Call -> string -> Result unit;
  env_mkdir : list Call -> string -> Result unit;
  env_write : list Call -> string -> Result unit;
  strftime_ymd : datetime -> string;         (* d.strftime('%Y-%m-%d') *)
  path_join : string -> string -> string;    (* pathlib's [/] *)
  OUTPUT_DIR : string
}.

(** ** The monad of the scripts: state and exceptions *)

Definition M (A : Type) : Type := World -> Result A * World.

Definition ret {A : Type} (a : A) : M A := fun w => (Ok a, w).

Definition bind {A B : Type} (c : M A) (k : A -> M B) : M B :=
  fun w =>
    match c w with
    | (Ok a, w') => k a w'
    | (Raise e, w') => (Raise e, w')
    end.

(** [try: c  except Exception as e: h e]. *)
Definition try_except {A : Type} (c : M A) (h : Exn -> M A) : M A :=
  fun w =>
    match c w with
    | (Ok a, w') => (Ok a, w')
    | (Raise e, w') => h e w'
    end.

Definition lift {A : Type} (r : Result A) : M A := fun w => (r, w).

Declare Scope script_scope.
Delimit Scope script_scope with script.
Notation "x <- c ;; k" := (bind c (fun x => k))
  (at level 61, c at next level, right associativity) : script_scope.
Notation "c ;; k" := (bind c (fun _ => k))
  (at level 61, right associativity) : script_scope.

(** [for x in l: acc = body x acc], the loop variables threaded as [acc]. *)
Fixpoint for_each {A S : Type} (l : list A) (body : A -> S -> M S) (acc : S)
  : M S :=
  match l with
  | [] => ret acc
  | x :: l' => bind (body x acc) (fun acc' => for_each l' body acc')
  end.

Definition logger (r : LogRecord) : M unit :=
  fun w => (Ok tt, mkWorld (db w) (calls w) (clock w) (log w ++ [r])).

Definition read_db {A : Type} (f : Database.t -> A) : M A :=
  fun w => (Ok (f (db w)), w).

Definition write_db (f : Database.t -> Database.t) : M unit :=
  fun w => (Ok tt, mkWorld (f (db w)) (calls w) (clock w) (log w)).

(** A call to the outside: recorded, and answered from the calls before. *)
Definition external {A : Type} (c : Call) (answer : list Call -> Result A)
  : M A :=
  fun w => (answer (calls w), mkWorld (db w) (calls w ++ [c]) (clock w) (log w)).

(** ** submit.py *)

(** A channel of the configuration file. [utils.load_config] and the
    class of its entries are not among the sources; the record has the four
    fields [process_config_file] reads. *)
Module ChannelConfig.
Record t : Type := mk {
  name : string;
  url : string;
  max_episodes : Z;
  language : string
}.
End ChannelConfig.

(** The three counters of [main] in [query.py]. *)
Module Counts.
Record t : Type := mk {
  completed : Z;
  still_running : Z;
  failed : Z
}.
End Counts.

Section Scripts.
Variable env : Env.
Local Open Scope script_scope.

Definition datetime_now : M datetime :=
  fun w => (Ok (env_now env (clock w)),
            mkWorld (db w) (calls w) (S (clock w)) (log w)).

Definition parse_feed (url : string) (max_episodes : Z) : M (list Episode.t) :=
  external (CallParseFeed url max_episodes)
           (fun made => env_parse_feed env made url max_episodes).

Definition submit_transcription (audio_url language : string) : M string :=
  external (CallSubmit audio_url language)
           (fun made => env_submit env made audio_url language).

(** The methods of [Database] as the scripts call them on [db]. *)
Definition db_is_processed (episode_id channel : string) : M bool :=
  read_db (fun d => Database.is_processed d episode_id channel).

Definition db_is_pending (episode_id channel : string) : M bool :=
  read_db (fun d => Database.is_pending d episode_id channel).

Definition db_mark_pending (episode_id channel title audio_url : string)
  (transcription_id : string) (published : option datetime)
  (duration : option string) : M unit :=
  now <- datetime_now ;;
  write_db (fun d => Database.mark_pending d episode_id channel title audio_url
                       transcription_id published duration now).

Definition db_mark_processed (episode_id channel title output_path : string)
  (status : string) : M unit :=
  now <- datetime_now ;;
  write_db (fun d => Database.mark_processed d episode_id channel title
                       output_path status now).

Definition db_remove_pending (episode_id channel : string) : M unit :=
  write_db (fun d => Database.remove_pending d episode_id channel).

(** [process_single_rss] from [episode = episodes[0]] on. *)
Definition process_single_rss_episode (episode : Episode.t)
  (channel_name language : string) : M Z :=
  processed <- db_is_processed (Episode.id episode) channel_name ;;
  if processed : bool then
    logger (LogAlreadyProcessed (Episode.title episode)) ;;
    ret 0%Z
  else
    pending <- db_is_pending (Episode.id episode) channel_name ;;
    if pending : bool then
      logger (LogAlreadyPending (Episode.title episode)) ;;
      ret 0%Z
    else
      try_except
        (transcription_id <-
           submit_transcription (Episode.audio_url episode) language ;;
         db_mark_pending (Episode.id episode) channel_name
           (Episode.title episode) (Episode.audio_url episode)
           transcription_id (Some (Episode.published episode))
           (Episode.duration episode) ;;
         logger (LogSubmitted (Episode.title episode)) ;;
         logger (LogTranscriptionId transcription_id) ;;
         ret 1%Z)
        (fun e => logger (LogFailedToSubmit e) ;; ret 0%Z).

Definition process_single_rss (url channel_name language : string) : M Z :=
  logger (LogProcessingRss url) ;;
  logger (LogChannelLanguage channel_name language) ;;
  episodes <- parse_feed url 1 ;;
  match episodes with
  | [] => logger LogNoEpisodes ;; ret 0%Z
  | episode :: _ => process_single_rss_episode episode channel_name language
  end.

(** The body of [for episode in episodes] in [process_config_file]; the
    pair is [(submitted, skipped)]. *)
Definition process_config_file_episode (channel : ChannelConfig.t)
  (episode : Episode.t) (counts : Z * Z) : M (Z * Z) :=
  let '(submitted, skipped) := counts in
  processed <- db_is_processed (Episode.id episode) (ChannelConfig.name channel) ;;
  if processed : bool then
    logger (LogSkippingDone (Py.slice_to 40 (Episode.title episode))) ;;
    ret (submitted, (skipped + 1)%Z)
  else
    pending <- db_is_pending (Episode.id episode) (ChannelConfig.name channel) ;;
    if pending : bool then
      logger (LogSkippingPending (Py.slice_to 40 (Episode.title episode))) ;;
      ret (submitted, (skipped + 1)%Z)
    else
      try_except
        (transcription_id <-
           submit_transcription (Episode.audio_url episode)
             (ChannelConfig.language channel) ;;
         db_mark_pending (Episode.id episode) (ChannelConfig.name channel)
           (Episode.title episode) (Episode.audio_url episode)
           transcription_id (Some (Episode.published episode))
           (Episode.duration episode) ;;
         logger (LogSubmittedAs (Py.slice_to 40 (Episode.title episode))
                   transcription_id) ;;
         ret ((submitted + 1)%Z, skipped))
        (fun e => logger (LogFailed e) ;; ret (submitted, skipped)).

(** The body of [for channel in channels]. An exception reaches the outer
    handler only from [parse_feed], before any episode is handled (the
    episode loop does not raise, [episode_loop_returns] below), so the
    counters the handler leaves are those at the entry of the [try]. *)
Definition process_config_file_channel (channel : ChannelConfig.t)
  (counts : Z * Z) : M (Z * Z) :=
  logger (LogChannel (ChannelConfig.name channel)) ;;
  try_except
    (episodes <- parse_feed (ChannelConfig.url channel)
                   (ChannelConfig.max_episodes channel) ;;
     logger (LogFoundEpisodes (List.length episodes)) ;;
     for_each episodes (process_config_file_episode channel) counts)
    (fun e => logger (LogChannelError e) ;; ret counts).

(** [process_config_file] from the loaded [channels] on. *)
Definition process_config_file (channels : list ChannelConfig.t) : M (Z * Z) :=
  logger (LogLoadedChannels (List.length channels)) ;;
  for_each channels process_config_file_channel (0%Z, 0%Z).

(** ** query.py *)

Definition check_transcription_status (transcription_id : string) : M json :=
  external (CallStatus transcription_id)
           (fun made => env_status env made transcription_id).

Definition get_transcription_result (transcription_id : string)
  : M (list TranscriptSegment.t) :=
  external (CallResult transcription_id)
           (fun made => env_result env made transcription_id).

Definition delete_transcription (transcription_id : string) : M unit :=
  external (CallDelete transcription_id)
           (fun made => env_delete env made transcription_id).

(** [utils.ensure_dir] and [utils.get_output_path]. *)
Definition ensure_dir (path : string) : M unit :=
  external (CallMkdir path) (fun made => env_mkdir env made path).

Definition get_output_path (base_dir channel date_str title : string)
  : M string :=
  let safe_title := sanitize_filename title in
  let output_dir := path_join env (path_join env base_dir channel) date_str in
  ensure_dir output_dir ;;
  ret (path_join env output_dir safe_title).

Definition write_file (path : string) (content : FileContent) : M unit :=
  external (CallWrite path content) (fun made => env_write env made path).

(** [format_duration(d) if d else default]. *)
Definition duration_or {A : Type} (d : option string) (default : A)
  (f : string -> A) (g : string -> Result string) : Result A :=
  match d with
  | Some s => if Py.truthy s then (r <- g s ;; Ok (f r))%result else Ok default
  | None => Ok default
  end.

Definition save_output (pending : PendingEpisode.t)
  (segments : list TranscriptSegment.t) : M string :=
  date_str <-
    match PendingEpisode.published pending with
    | Some published => ret (strftime_ymd env published)
    | None => now <- datetime_now ;; ret (strftime_ymd env now)
    end ;;
  output_base <-
    get_output_path (OUTPUT_DIR env) (PendingEpisode.channel pending) date_str
      (PendingEpisode.title pending) ;;
  let md_path := output_base ++ ".md" in
  md_duration <-
    lift (duration_or (PendingEpisode.duration pending) "Unknown"
            (fun s => s) format_duration) ;;
  write_file md_path
    (Markdown {| md_title := PendingEpisode.title pending;
                 md_date := date_str;
                 md_duration := md_duration;
                 md_channel := PendingEpisode.channel pending;
                 md_body := segments_to_markdown segments |}) ;;
  let json_path := output_base ++ ".json" in
  json_duration <-
    lift (duration_or (PendingEpisode.duration pending) None
            (fun s => Some s) format_duration) ;;
  now <- datetime_now ;;
  write_file json_path
    (JsonFile {| jd_title := PendingEpisode.title pending;
                 jd_published := PendingEpisode.published pending;
                 jd_duration := json_duration;
                 jd_channel := PendingEpisode.channel pending;
                 jd_audio_url := PendingEpisode.audio_url pending;
                 jd_transcript := segments_to_json segments;
                 jd_processed_at := now |}) ;;
  ret md_path.

(** The [try] block of the loop of [main], for one pending job. *)
Definition check_pending_try (pending : PendingEpisode.t) (n : Counts.t)
  : M Counts.t :=
  let episode_id := PendingEpisode.episode_id pending in
  let channel := PendingEpisode.channel pending in
  let title := PendingEpisode.title pending in
  let transcription_id := PendingEpisode.transcription_id pending in
  status <- check_transcription_status transcription_id ;;
  state <- lift (Json.getitem status "status") ;;
  if Json.eq_str state "Succeeded" then
    segments <- get_transcription_result transcription_id ;;
    match segments with
    | _ :: _ =>
        output_path <- save_output pending segments ;;
        db_mark_processed episode_id channel title output_path "success" ;;
        db_remove_pending episode_id channel ;;
        delete_transcription transcription_id ;;
        logger (LogCompleted output_path) ;;
        ret (Counts.mk (Counts.completed n + 1) (Counts.still_running n)
                       (Counts.failed n))
    | [] =>
        db_mark_processed episode_id channel title "" "failed" ;;
        db_remove_pending episode_id channel ;;
        logger LogNoSegments ;;
        ret (Counts.mk (Counts.completed n) (Counts.still_running n)
                       (Counts.failed n + 1))
    end
  else
    state <- lift (Json.getitem status "status") ;;
    if Json.eq_str state "Failed" then
      properties <- lift (Json.get status "properties" (JDict [])) ;;
      error <- lift (Json.get properties "error" (JDict [])) ;;
      message <- lift (Json.get error "message" (JStr "Unknown")) ;;
      logger (LogJobFailed message) ;;
      db_mark_processed episode_id channel title "" "failed" ;;
      db_remove_pending episode_id channel ;;
      delete_transcription transcription_id ;;
      ret (Counts.mk (Counts.completed n) (Counts.still_running n)
                     (Counts.failed n + 1))
    else
      state <- lift (Json.getitem status "status") ;;
      logger (LogStillRunning state) ;;
      ret (Counts.mk (Counts.completed n) (Counts.still_running n + 1)
                     (Counts.failed n)).

(** The body of [for pending in pending_list]. *)
Definition check_pending (pending : PendingEpisode.t) (n : Counts.t)
  : M Counts.t :=
  logger (LogChecking (PendingEpisode.channel pending)
            (Py.slice_to 40 (PendingEpisode.title pending))) ;;
  try_except
    (check_pending_try pending n)
    (fun e =>
       logger (LogError e) ;;
       ret (Counts.mk (Counts.completed n) (Counts.still_running n)
                      (Counts.failed n + 1))).

(** [main] of [query.py] from [pending_list = db.get_pending(args.channel)]
    on; [list_only] is [args.list]. *)
Definition main (channel : option string) (list_only : bool) : M unit :=
  pending_list <- read_db (fun d => Database.get_pending d channel) ;;
  match pending_list with
  | [] => logger LogNoPending
  | _ :: _ =>
      logger (LogFoundPending (List.length pending_list)) ;;
      if list_only then
        for_each pending_list
          (fun p _ =>
             logger (LogListed (PendingEpisode.channel p)
                       (Py.slice_to 50 (PendingEpisode.title p))
                       (PendingEpisode.transcription_id p)))
          tt
      else
        n <- for_each pending_list check_pending (Counts.mk 0 0 0) ;;
        logger LogSummary ;;
        logger (LogSummaryCompleted (Counts.completed n)) ;;
        logger (LogSummaryStillRunning (Counts.still_running n)) ;;
        logger (LogSummaryFailed (Counts.failed n))
  end.

End Scripts.

(** ** The rest of utils.py, submit.py and rss_parser.py *)

(** [load_feeds], on the lines the file object yields. *)
Definition load_feeds (lines : list string) : list string :=
  filter (fun line => Py.truthy line && negb (Py.startswith "#" line))
         (map Py.strip_space lines).

(** The name [get_channel_name_from_rss] derives from the feed title. Below
    code point 256 the class of its [re.sub] is the complement of the ASCII
    letters and digits; every run of the class becomes one hyphen. *)
Definition name_char (c : ascii) : bool :=
  Py.ascii_lower c || Py.ascii_upper c || Py.decimal_char c.

Fixpoint sub_runs (l : list ascii) (in_run : bool) : list ascii :=
  match l with
  | [] => []
  | c :: l' =>
      if name_char c then c :: sub_runs l' false
      else if in_run then sub_runs l' true
      else "-"%char :: sub_runs l' true
  end.

Definition channel_name_of_title (title : string) : string :=
  if Py.truthy title then
    let name := Py.str (sub_runs (Py.chars title) false) in
    let name := Py.str (map Py.lower_char (Py.chars (Py.strip "-" name))) in
    if Py.truthy name then Py.slice_to 50 name else "unknown"
  else "unknown".

(** An entry of [feed.entries], by the fields [parse_feed] reads; a field
    is [None] when the entry does not have it. [published_parsed] is given
    by what [datetime( *entry.published_parsed[:6])] returns or raises; a
    time tuple is never empty, so the field is true whenever it is there. *)
Module Link.
Record t : Type := mk {
  type : option string;
  href : option string
}.
End Link.

Module Entry.
Record t : Type := mk {
  links : list Link.t;
  enclosures : list Link.t;
  id : option string;
  link : option string;
  title : option string;
  published_parsed : option (Result datetime);
  itunes_duration : option string;
  summary : option string
}.
End Entry.

(** The two search loops of [parse_feed]: the [href] of the first link
    whose type starts with [audio/], where the loop breaks; [None] when the
    loop runs to its end. *)
Fixpoint find_audio (links : list Link.t) : option (option string) :=
  match links with
  | [] => None
  | l :: rest =>
      let type := match Link.type l with Some t => t | None => "" end in
      if Py.startswith "audio/" type then Some (Link.href l)
      else find_audio rest
  end.

Definition opt_truthy (s : option string) : bool :=
  match s with Some t => Py.truthy t | None => false end.

Section Feed.
Variable env : Env.
Local Open Scope script_scope.

(** The body of [for entry in feed.entries[:max_episodes]]. *)
Definition parse_entry (entry : Entry.t) (episodes : list Episode.t)
  : M (list Episode.t) :=
  let audio_url :=
    match find_audio (Entry.links entry) with
    | Some href => href
    | None => None
    end in
  let audio_url :=
    if negb (opt_truthy audio_url) then
      match find_audio (Entry.enclosures entry) with
      | Some href => href
      | None => audio_url
      end
    else audio_url in
  match audio_url with
  | None => ret episodes
  | Some url =>
      if negb (Py.truthy url) then ret episodes
      else
        published <-
          match Entry.published_parsed entry with
          | Some p => lift p
          | None => datetime_now env
          end ;;
        let id :=
          match Entry.id entry, Entry.link entry with
          | Some i, _ => i
          | None, Some l => l
          | None, None => url
          end in
        ret (episodes
             ++ [Episode.mk id
                   (match Entry.title entry with
                    | Some t => t
                    | None => "Untitled"
                    end)
                   url published (Entry.itunes_duration entry)
                   (Some (match Entry.summary entry with
                          | Some d => d
                          | None => ""
                          end))])%list
  end.

(** [parse_feed] from [feed.entries] on. *)
Definition parse_entries (entries : list Entry.t) (max_episodes : Z)
  : M (list Episode.t) :=
  for_each (Py.slice_to_int max_episodes entries) parse_entry [].

End Feed.

(** ** Vocabulary of the properties *)

(** The result and the final world of a script run. *)
Definition result_of {A : Type} (c : M A) (w : World) : Result A := fst (c w).
Definition world_after {A : Type} (c : M A) (w : World) : World := snd (c w).

(** The calls made, and the records logged, between two worlds. *)
Definition made_since (w w' : World) : list Call :=
  skipn (List.length (calls w)) (calls w').
Definition logged_since (w w' : World) : list LogRecord :=
  skipn (List.length (log w)) (log w').

Definition is_delete (c : Call) : bool :=
  match c with CallDelete _ => true | _ => false end.
Definition is_status (c : Call) : bool :=
  match c with CallStatus _ => true | _ => false end.

(** The number of rows of an identity in each table. *)
Definition count_pending (d : Database.t) (episode_id channel : string) : nat :=
  List.length (filter (Database.pending_key episode_id channel)
                      (Database.pending_episodes d)).
Definition count_processed (d : Database.t) (episode_id channel : string)
  : nat :=
  List.length (filter (Database.processed_key episode_id channel)
                      (Database.processed_episodes d)).

(** The UNIQUE(episode_id, channel) constraint of both tables. *)
Definition unique_keys (d : Database.t) : Prop :=
  forall episode_id channel,
    (count_pending d episode_id channel <= 1)%nat
    /\ (count_processed d episode_id channel <= 1)%nat.

(** No identity is pending and processed with status success. *)
Definition exclusive (d : Database.t) : Prop :=
  forall episode_id channel,
    Database.is_pending d episode_id channel
    && Database.is_processed d episode_id channel = false.

(** The writes [Database] offers. *)
Inductive DbWrite : Type :=
| WriteMarkProcessed (episode_id channel title output_path status : string)
    (now : datetime)
| WriteMarkPending (episode_id channel title audio_url transcription_id : string)
    (published : option datetime) (duration : option string) (now : datetime)
| WriteRemovePending (episode_id channel : string).

Definition apply_write (d : Database.t) (op : DbWrite) : Database.t :=
  match op with
  | WriteMarkProcessed e c title path status now =>
      Database.mark_processed d e c title path status now
  | WriteMarkPending e c title url tid published duration now =>
      Database.mark_pending d e c title url tid published duration now
  | WriteRemovePending e c => Database.remove_pending d e c
  end.

(** The changes of the store a finished item of a script leaves behind: a
    submission that passed both dedup checks, and a pending job resolved
    as [status] (the processed row written, then the pending row removed). *)
Inductive transition : Database.t -> Database.t -> Prop :=
| transition_submit d e c title url tid published duration now :
    Database.is_processed d e c = false ->
    Database.is_pending d e c = false ->
    transition d (Database.mark_pending d e c title url tid published
                    duration now)
| transition_resolve d e c title path status now :
    transition d (Database.remove_pending
                    (Database.mark_processed d e c title path status now) e c).

Inductive transitions : Database.t -> Database.t -> Prop :=
| transitions_refl d : transitions d d
| transitions_step d1 d2 d3 :
    transitions d1 d2 -> transition d2 d3 -> transitions d1 d3.

(** The stores the scripts can leave behind, from the file [_init_db]
    creates, whatever the environment answers. *)
Inductive reachable : Database.t -> Prop :=
| reachable_init : reachable Database.empty
| reachable_single_rss env url channel_name language w :
    reachable (db w) ->
    reachable (db (world_after (process_single_rss env url channel_name
                                  language) w))
| reachable_config_file env channels w :
    reachable (db w) ->
    reachable (db (world_after (process_config_file env channels) w))
| reachable_query env channel list_only w :
    reachable (db w) ->
    reachable (db (world_after (main env channel list_only) w)).

(** The processed record of the identity has status failed: such a row
    exists and no processed row of the identity has another status. *)
Definition processed_failed (d : Database.t) (episode_id channel : string)
  : Prop :=
  (exists r, In r (Database.processed_episodes d)
             /\ Database.processed_key episode_id channel r = true
             /\ ProcessedEpisode.status r = "failed")
  /\ (forall r, In r (Database.processed_episodes d) ->
                Database.processed_key episode_id channel r = true ->
                ProcessedEpisode.status r = "failed").

(** The processed record of the identity has status failed and the
    identity is not pending: the condition under which the dedup checks of
    [submit.py] let a submission through. [processed_failed] alone does not
    exclude a pending row. *)
Definition only_failed (d : Database.t) (episode_id channel : string) : Prop :=
  processed_failed d episode_id channel
  /\ Database.is_pending d episode_id channel = false.



Definition is_log_error (r : LogRecord) : bool :=
  match r with LogError _ => true | _ => false end.

Definition bump_failed (n : Counts.t) : Counts.t :=
  Counts.mk (Counts.completed n) (Counts.still_running n) (Counts.failed n + 1).

(** Whether the output of the sanitizer is clean at both ends: it neither
    starts nor ends with a space or a dot, nor with another ASCII white
    space character (tab, line feed, vertical tab, form feed, carriage
    return). [ascii_space] is the white space of ASCII only: the white
    space of [str], [Py.isspace_char], has code points 28 to 31, 133 and 160
    besides, and the sanitizer strips none of these from the ends. *)
Definition ascii_space (c : ascii) : bool :=
  Ascii.eqb c " " || ((9 <=? nat_of_ascii c) && (nat_of_ascii c <=? 13))%nat.
Definition trimmed_char (c : ascii) : bool :=
  negb (Py.char_in " ." c) && negb (ascii_space c).
Definition clean_ends (s : string) : bool :=
  match Py.chars s with
  | [] => true
  | c :: _ => trimmed_char c && trimmed_char (last (Py.chars s) c)
  end.

(** The control characters as Unicode has them below code point 256, the
    general category Cc: code points 0 to 31 and 127 to 159. The class of
    the sanitizer, [control_char], is the first range only. *)
Definition unicode_control (c : ascii) : bool :=
  let n := nat_of_ascii c in
  ((n <=? 31) || (127 <=? n) && (n <=? 159))%nat.

(** The identity has exactly one pending row, or exactly one processed row
    and that row has status success. *)
Definition tracked_once (d : Database.t) (episode_id channel : string) : Prop :=
  (Database.is_processed d episode_id channel = true
   /\ count_processed d episode_id channel = 1%nat)
  \/ (Database.is_pending d episode_id channel = true
      /\ count_pending d episode_id channel = 1%nat).

(** The remote call of a submission, when the dedup checks let it be made
    from [w], returns a job handle. *)
Definition submit_goes_through (env : Env) (w : World) (episode_id channel : string)
  (audio_url language : string) : Prop :=
  Database.is_processed (db w) episode_id channel = false ->
  Database.is_pending (db w) episode_id channel = false ->
  exists transcription_id,
    env_submit env (calls w) audio_url language = Ok transcription_id.

(** A call that neither polls nor deletes a remote job. *)
Definition quiet_call (c : Call) : bool := negb (is_status c) && negb (is_delete c).

(** The record [main] logs when it turns to a pending job, and the world a
    pass over the job leaves when it ends in the handler after the calls
    [made], with the store untouched. *)
Definition checking (pending : PendingEpisode.t) : LogRecord :=
  LogChecking (PendingEpisode.channel pending)
    (Py.slice_to 40 (PendingEpisode.title pending)).


(** The counters as a function of the log: [records] are the records of
    the passes over [jobs] pending jobs; a pass that logs neither
    [LogCompleted] nor [LogStillRunning] adds to [failed]. *)
Definition is_log_completed (r : LogRecord) : bool :=
  match r with LogCompleted _ => true | _ => false end.
Definition is_log_still_running (r : LogRecord) : bool :=
  match r with LogStillRunning _ => true | _ => false end.
Definition count_log (p : LogRecord -> bool) (records : list LogRecord) : Z :=
  Z.of_nat (List.length (filter p records)).
Definition tally (n : Counts.t) (records : list LogRecord) (jobs : nat)
  : Counts.t :=
  Counts.mk
    (Counts.completed n + count_log is_log_completed records)
    (Counts.still_running n + count_log is_log_still_running records)
    (Counts.failed n
     + (Z.of_nat jobs - count_log is_log_completed records
        - count_log is_log_still_running records)).

(** The store after a pending job was resolved. *)
Definition resolved (d : Database.t) (pending : PendingEpisode.t)
  (d' : Database.t) : Prop :=
  exists output_path status now,
    d' = Database.remove_pending
           (Database.mark_processed d (PendingEpisode.episode_id pending)
              (PendingEpisode.channel pending) (PendingEpisode.title pending)
              output_path status now)
           (PendingEpisode.episode_id pending) (PendingEpisode.channel pending).

(** The ids of a table in table order: strictly increasing, above [lo] and
    at most [hi]. *)
Fixpoint ids_between (lo hi : Z) (ids : list Z) : Prop :=
  match ids with
  | [] => (lo <= hi)%Z
  | i :: rest => (lo < i)%Z /\ ids_between i hi rest
  end.

Definition ids_ok (d : Database.t) : Prop :=
  ids_between 0 (Database.pending_seq d)
    (map PendingEpisode.id (Database.pending_episodes d))
  /\ ids_between 0 (Database.processed_seq d)
       (map ProcessedEpisode.id (Database.processed_episodes d)).

(** The changes of the store by outcome: a submission that passed both
    dedup checks, a job resolved as failed, with an empty output path, and
    a job resolved as success, with the path of its markdown file. *)
Inductive item_step : Database.t -> Database.t -> Prop :=
| item_submit d e c title url tid published duration now :
    Database.is_processed d e c = false ->
    Database.is_pending d e c = false ->
    item_step d (Database.mark_pending d e c title url tid published
                   duration now)
| item_failed d e c title now :
    item_step d (Database.remove_pending
                   (Database.mark_processed d e c title "" "failed" now) e c)
| item_success d e c title base now :
    item_step d (Database.remove_pending
                   (Database.mark_processed d e c title (base ++ ".md")
                      "success" now) e c).

Inductive item_steps : Database.t -> Database.t -> Prop :=
| item_steps_refl d : item_steps d d
| item_steps_step d1 d2 d3 :
    item_steps d1 d2 -> item_step d2 d3 -> item_steps d1 d3.

(** Every processed row is a failure without output path or a success with
    the path of a markdown file. *)
Definition well_formed_row (r : ProcessedEpisode.t) : Prop :=
  (ProcessedEpisode.status r = "failed" /\ ProcessedEpisode.output_path r = "")
  \/ (ProcessedEpisode.status r = "success"
      /\ exists base, ProcessedEpisode.output_path r = base ++ ".md").

Definition statuses_ok (d : Database.t) : Prop :=
  forall r, In r (Database.processed_episodes d) -> well_formed_row r.

(** The item steps as a relation between the states of a loop. *)
Definition by_item_steps {S : Type} (_ : S) (w : World) (_ : S) (w' : World)
  : Prop := item_steps (db w) (db w').

(** The count of a group of processed rows, the count a dictionary built
    from the groups [L] holds for a channel and a status, and the
    dictionary [get_stats] has built after the groups [L]. *)
Definition group_count (rows : list ProcessedEpisode.t) (k : string * string)
  : Z :=
  Z.of_nat (List.length (filter (Database.same_group k) rows)).

Definition group_value (rows : list ProcessedEpisode.t)
  (L : list (string * string)) (c st : string) : Z :=
  if in_dec Database.group_key_dec (c, st) L then group_count rows (c, st)
  else 0%Z.

Definition stats_after (rows : list ProcessedEpisode.t)
  (L : list (string * string)) : list (string * list (string * Z)) :=
  fold_left Database.add_status_count
    (map (fun k => (k, group_count rows k)) L) [].

(** Kinds of calls and of log records, for counting. *)
Definition is_submit (c : Call) : bool :=
  match c with CallSubmit _ _ => true | _ => false end.
Definition is_feed_or_submit (c : Call) : bool :=
  match c with CallParseFeed _ _ | CallSubmit _ _ => true | _ => false end.
Definition is_file_call (c : Call) : bool :=
  match c with CallMkdir _ | CallWrite _ _ => true | _ => false end.
Definition is_log_failed (r : LogRecord) : bool :=
  match r with LogFailed _ => true | _ => false end.
Definition count_calls (p : Call -> bool) (made : list Call) : Z :=
  Z.of_nat (List.length (filter p made)).

(** What a run of the submission loops of [process_config_file] does to
    the counters [(submitted, skipped)] and to the world: the counters do
    not decrease; the processed table is as it was; the pending table keeps
    its rows and has as many new ones as were submitted; only feed and
    submit calls are made, one submit call for every submission and every
    logged failure. *)
Definition submit_effect (counts : Z * Z) (w : World) (counts' : Z * Z)
  (w' : World) : Prop :=
  (fst counts <= fst counts')%Z /\ (snd counts <= snd counts')%Z
  /\ Database.processed_episodes (db w') = Database.processed_episodes (db w)
  /\ Database.processed_seq (db w') = Database.processed_seq (db w)
  /\ (exists added,
        Database.pending_episodes (db w')
        = (Database.pending_episodes (db w) ++ added)%list
        /\ Z.of_nat (List.length added) = (fst counts' - fst counts)%Z)
  /\ (exists made logged,
        calls w' = (calls w ++ made)%list
        /\ log w' = (log w ++ logged)%list
        /\ forallb is_feed_or_submit made = true
        /\ count_calls is_submit made
           = (fst counts' - fst counts + count_log is_log_failed logged)%Z).

(** What a run of [main] of [query.py] does to the world, whatever its
    loop state: the pending table loses rows and gets none, so its sequence
    stays; and no call reads a feed or submits a job. *)
Definition is_poll_call (c : Call) : bool := negb (is_feed_or_submit c).

Definition poll_effect {S : Type} (_ : S) (w : World) (_ : S) (w' : World)
  : Prop :=
  Database.pending_seq (db w') = Database.pending_seq (db w)
  /\ (exists keep,
        Database.pending_episodes (db w')
        = filter keep (Database.pending_episodes (db w)))
  /\ (exists made,
        calls w' = (calls w ++ made)%list
        /\ forallb is_poll_call made = true).

(** The rows the two tables have for an identity, and the runs that leave
    them as they are. *)
Definition rows_of (e c : string) (d : Database.t)
  : list PendingEpisode.t * list ProcessedEpisode.t :=
  (filter (Database.pending_key e c) (Database.pending_episodes d),
   filter (Database.processed_key e c) (Database.processed_episodes d)).

Definition same_rows {S : Type} (e c : string) (_ : S) (w : World) (_ : S)
  (w' : World) : Prop :=
  rows_of e c (db w') = rows_of e c (db w).

(** Whether a name has two hyphens side by side. *)
Fixpoint adjacent_hyphens (l : list ascii) : bool :=
  match l with
  | c1 :: t =>
      match t with
      | c2 :: _ => (Ascii.eqb c1 "-" && Ascii.eqb c2 "-") || adjacent_hyphens t
      | [] => false
      end
  | [] => false
  end.

(** The test of [load_feeds] on a stripped line, and the type of a link as
    [parse_feed] reads it. *)
Definition feed_line (line : string) : bool :=
  Py.truthy line && negb (Py.startswith "#" line).

Definition link_type (l : Link.t) : string :=
  match Link.type l with Some t => t | None => "" end.

(** An ISO-8601 duration written from its parts, each with its unit letter
    when it is there; a part is well formed when it has none of the unit
    letters and [float] reads it. *)
Definition unit_free (text : string) : bool :=
  forallb (fun c => negb (Py.char_in "HMS" c)) (Py.chars text).

Definition iso_part (part : option string) (unit : string) : string :=
  match part with Some text => text ++ unit | None => "" end.

Definition iso_duration (hours minutes seconds : option string) : string :=
  "PT" ++ iso_part hours "H" ++ iso_part minutes "M" ++ iso_part seconds "S".

Section DurationParts.
Context {float : Type} `{FloatOps float}.

Definition part_ok (part : option string) (value : option float) : Prop :=
  match part, value with
  | Some text, Some v => unit_free text = true /\ float_of_str text = Ok v
  | None, None => True
  | _, _ => False
  end.

Definition add_part (total : float) (value : option float)
  (scale : float -> float) : float :=
  match value with Some v => float_add total (scale v) | None => total end.

End DurationParts.

(** ** Sample data for the examples *)

(** An interpretation of [float] for the examples: exact rationals, with
    [float(s)] reading plain decimal numerals only (digits with at most one
    point). *)
Definition decimal_of_str (s : string) : Result Q :=
  let all_digits (t : string) := forallb Py.decimal_char (Py.chars t) in
  match Py.split "." s with
  | [i] =>
      if Py.truthy i && all_digits i
      then Ok (inject_Z (Py.digits_value (Py.chars i)))
      else Raise ValueError
  | [i; f] =>
      if Py.truthy (i ++ f) && all_digits (i ++ f)
      then Ok (Qred (Py.digits_value (Py.chars (i ++ f))
                     # Z.to_pos (10 ^ Z.of_nat (Py.len f))))
      else Raise ValueError
  | _ => Raise ValueError
  end.

#[export] Instance decimal_float_ops : FloatOps Q := {
  float_zero := 0;
  float_of_str := decimal_of_str;
  float_of_int := inject_Z;
  float_add := fun a b => Qred (a + b);
  float_mul := fun a b => Qred (a * b)
}.

(** An environment that gives the same answers whatever was called
    before, a feed entry, a channel, and stores to start from. *)
Definition sample_env (submit : Result string) (status : Result json)
  (result : Result (list TranscriptSegment.t)) (delete write : Result unit)
  : Env :=
  {| env_now := fun n => (1000 + Z.of_nat n)%Z;
     env_parse_feed := fun _ _ _ => Raise (RequestException "no feed");
     env_submit := fun _ _ _ => submit;
     env_status := fun _ _ => status;
     env_result := fun _ _ => result;
     env_delete := fun _ _ => delete;
     env_mkdir := fun _ _ => Ok tt;
     env_write := fun _ _ => write;
     strftime_ymd := fun d => "day-" ++ Py.str_of_int d;
     path_join := fun a b => a ++ "/" ++ b;
     OUTPUT_DIR := "output" |}.

Definition sample_episode : Episode.t :=
  Episode.mk "ep1" "Title One" "http://a/1.mp3" 5%Z (Some "3600") None.

Definition sample_channel : ChannelConfig.t :=
  ChannelConfig.mk "chan" "http://feed" 5 "auto".

Definition world_of (d : Database.t) : World := mkWorld d [] 0 [].

Definition db_pending : Database.t :=
  Database.mark_pending Database.empty "ep1" "chan" "Title One"
    "http://a/1.mp3" "job-1" (Some 5%Z) (Some "3600") 1000%Z.

Definition db_success : Database.t :=
  Database.mark_processed Database.empty "ep1" "chan" "Title One"
    "output/chan/day-5/Title One.md" "success" 1000%Z.

(** A store in which the sample identity is in both tables. *)
Definition db_both : Database.t :=
  Database.mark_pending db_success "ep1" "chan" "Title One" "http://a/1.mp3"
    "job-2" (Some 5%Z) (Some "3600") 1001%Z.

Definition db_failed : Database.t :=
  Database.mark_processed Database.empty "ep1" "chan" "Title One" ""
    "failed" 1000%Z.

Definition sample_pending : PendingEpisode.t :=
  PendingEpisode.mk 1 "ep1" "chan" "Title One" "http://a/1.mp3" "job-1"
    1000%Z (Some 5%Z) (Some "3600").

Definition status_json (state : string) : json := JDict [("status", JStr state)].

Definition env_all_ok : Env :=
  sample_env (Ok "job-1") (Ok (status_json "Succeeded")) (Ok sample_segments)
    (Ok tt) (Ok tt).

(** An environment whose feed has the sample episode. *)
Definition env_with_feed : Env :=
  {| env_now := env_now env_all_ok;
     env_parse_feed := fun _ _ _ => Ok [sample_episode];
     env_submit := env_submit env_all_ok;
     env_status := env_status env_all_ok;
     env_result := env_result env_all_ok;
     env_delete := env_delete env_all_ok;
     env_mkdir := env_mkdir env_all_ok;
     env_write := env_write env_all_ok;
     strftime_ymd := strftime_ymd env_all_ok;
     path_join := path_join env_all_ok;
     OUTPUT_DIR := OUTPUT_DIR env_all_ok |}.

(** The store after the sample episode was submitted and then polled. *)
Definition db_after_poll : Database.t :=
  db (world_after (main env_with_feed None false)
        (world_after (process_single_rss env_with_feed "http://feed" "chan"
                        "auto")
           (world_of Database.empty))).


Definition env_terminal : Env :=
  sample_env (Ok "job-1") (Ok (status_json "Failed")) (Ok sample_segments)
    (Ok tt) (Ok tt).

(** Two more: the service reports the job as running; the job succeeded
    and its result has no segment. *)
Definition env_running : Env :=
  sample_env (Ok "job-1") (Ok (status_json "Running")) (Ok sample_segments)
    (Ok tt) (Ok tt).

Definition env_empty_result : Env :=
  sample_env (Ok "job-1") (Ok (status_json "Succeeded")) (Ok []) (Ok tt)
    (Ok tt).

(** A store with a pending job in each of two channels. *)
Definition db_two_channels : Database.t :=
  Database.mark_pending db_pending "ep9" "other" "Title Nine" "http://b/9.mp3"
    "job-9" None None 1001%Z.

(** Two feed entries: one with an audio enclosure, one without audio. *)
Definition sample_entries : list Entry.t :=
  [Entry.mk [Link.mk (Some "text/html") (Some "http://a/1.html")]
            [Link.mk (Some "audio/mpeg") (Some "http://a/1.mp3")]
            (Some "ep1") None (Some "Title One") (Some (Ok 5%Z))
            (Some "3600") None;
   Entry.mk [Link.mk (Some "text/html") (Some "http://a/2.html")] []
            (Some "ep2") None (Some "Title Two") None None None].


(** The store after the sample episode was submitted, reported as failed
    at the poll, and submitted again: its processed record has status
    failed and it is pending. *)
Definition db_failed_pending : Database.t :=
  db (world_after (process_single_rss env_with_feed "http://feed" "chan"
                     "auto")
        (world_after (main env_terminal None false)
           (world_after (process_single_rss env_with_feed "http://feed" "chan"
                           "auto")
              (world_of Database.empty)))).

(** A title that starts with a no-break space, holds the delete character
    and ends with the next-line character. *)
Definition odd_title : string :=
  String (ascii_of_nat 160)
    ("a" ++ String (ascii_of_nat 127) ("b" ++ String (ascii_of_nat 133) "")).


(** * Properties *)

(** ** Strings *)

Lemma chars_str (l : list ascii) : Py.chars (Py.str l) = l.
Proof. apply list_ascii_of_string_of_list_ascii. Qed.

Lemma str_chars (s : string) : Py.str (Py.chars s) = s.
Proof. apply string_of_list_ascii_of_string. Qed.

Lemma truthy_false (s : string) : Py.truthy s = false -> s = "".
Proof. destruct s; simpl; congruence. Qed.

Lemma truthy_chars (s : string) : Py.truthy s = true -> Py.chars s <> [].
Proof. destruct s; simpl; congruence. Qed.

Lemma firstn_incl {A : Type} (n : nat) (l : list A) (x : A) :
  In x (firstn n l) -> In x l.
Proof.
  intros H. rewrite <- (firstn_skipn n l). apply in_or_app. now left.
Qed.

Lemma dropwhile_split (p : ascii -> bool) (l : list ascii) :
  exists pre, l = (pre ++ Py.dropwhile p l)%list /\ forallb p pre = true.
Proof.
  induction l as [|c l IH]; simpl.
  - exists []. auto.
  - destruct (p c) eqn:Hc.
    + destruct IH as [pre [Hl Hp]].
      exists (c :: pre). simpl. rewrite Hc, <- Hl. auto.
    + exists []. auto.
Qed.

Lemma dropwhile_head (p : ascii -> bool) (l : list ascii) c t :
  Py.dropwhile p l = c :: t -> p c = false.
Proof.
  induction l as [|x l IH]; simpl; [discriminate|].
  destruct (p x) eqn:Hx; [exact IH|].
  intros E. injection E as -> _. exact Hx.
Qed.

Lemma dropwhile_all (p : ascii -> bool) (l : list ascii) :
  forallb p l = true -> Py.dropwhile p l = [].
Proof.
  induction l as [|x l IH]; simpl; [reflexivity|].
  destruct (p x); simpl; [exact IH|discriminate].
Qed.

Lemma dropwhile_incl (p : ascii -> bool) (l : list ascii) c :
  In c (Py.dropwhile p l) -> In c l.
Proof.
  destruct (dropwhile_split p l) as [pre [Hl _]].
  intros Hc. rewrite Hl. apply in_or_app. now right.
Qed.

Lemma dropwhile_length (p : ascii -> bool) (l : list ascii) :
  (List.length (Py.dropwhile p l) <= List.length l)%nat.
Proof.
  destruct (dropwhile_split p l) as [pre [Hl _]].
  rewrite Hl at 2. rewrite length_app. lia.
Qed.

Lemma last_app_nonempty (pre l : list ascii) d :
  l <> [] -> last (pre ++ l)%list d = last l d.
Proof.
  intros Hl. induction pre as [|x pre IH]; simpl; [reflexivity|].
  destruct (pre ++ l)%list eqn:E; [|exact IH].
  destruct pre; simpl in E; congruence.
Qed.

Section Strip.
Variable p : ascii -> bool.

Lemma strip_incl l c : In c (Py.strip_chars p l) -> In c l.
Proof.
  unfold Py.strip_chars, Py.lstrip_chars, Py.rstrip_chars. intros Hc.
  apply dropwhile_incl in Hc. apply in_rev in Hc.
  apply dropwhile_incl in Hc. now apply in_rev.
Qed.

Lemma strip_length l : (List.length (Py.strip_chars p l) <= List.length l)%nat.
Proof.
  unfold Py.strip_chars, Py.lstrip_chars, Py.rstrip_chars.
  etransitivity; [apply dropwhile_length|].
  rewrite length_rev. etransitivity; [apply dropwhile_length|].
  now rewrite length_rev.
Qed.

Lemma strip_head l c t : Py.strip_chars p l = c :: t -> p c = false.
Proof. apply dropwhile_head. Qed.

Lemma strip_last l c t : Py.strip_chars p l = c :: t -> p (last (Py.strip_chars p l) c) = false.
Proof.
  unfold Py.strip_chars, Py.lstrip_chars, Py.rstrip_chars. intros E.
  destruct (dropwhile_split p (rev (Py.dropwhile p (rev l)))) as [pre [Hl _]].
  assert (Hne : Py.dropwhile p (rev (Py.dropwhile p (rev l))) <> [])
    by (rewrite E; discriminate).
  rewrite <- (last_app_nonempty pre _ c Hne), <- Hl.
  destruct (Py.dropwhile p (rev l)) as [|x r] eqn:Hr.
  - simpl in Hl. destruct pre; simpl in Hl; [|discriminate].
    simpl in Hl. symmetry in Hl. contradiction.
  - simpl. rewrite last_last. eapply dropwhile_head. exact Hr.
Qed.

Lemma strip_all l : forallb p l = true -> Py.strip_chars p l = [].
Proof.
  intros H. unfold Py.strip_chars, Py.lstrip_chars, Py.rstrip_chars.
  rewrite (dropwhile_all p (rev l)); [reflexivity|].
  rewrite forallb_forall in *. intros c Hc. apply H. now apply in_rev.
Qed.

End Strip.

(** ** utils.py: the sanitizer *)

(** The list the sanitizer strips: both character classes removed, then the
    first 200 characters kept. *)
Lemma sanitize_unfold (name : string) :
  exists l,
    (forall c, In c l -> illegal_char c = false /\ control_char c = false)
    /\ (List.length l <= 200)%nat
    /\ (forall c, In c l -> In c (Py.chars name))
    /\ sanitize_filename name
       = let out := Py.str (Py.strip_chars (Py.char_in " .") l) in
         if Py.truthy out then out else "untitled".
Proof.
  unfold sanitize_filename, Py.strip, Py.re_sub_class, Py.len, Py.slice_to.
  rewrite !chars_str.
  set (l0 := filter (fun c => negb (control_char c))
               (filter (fun c => negb (illegal_char c)) (Py.chars name))).
  assert (H0 : forall c, In c l0 ->
                 (illegal_char c = false /\ control_char c = false)
                 /\ In c (Py.chars name)).
  { intros c Hc. unfold l0 in Hc.
    apply filter_In in Hc as [Hc Hctl]. apply filter_In in Hc as [Hc Hill].
    apply negb_true_iff in Hctl, Hill. auto. }
  destruct (200 <? List.length l0)%nat eqn:Hlen.
  - exists (firstn 200 l0). rewrite chars_str.
    split; [|split; [|split]].
    + intros c Hc. apply H0. eapply firstn_incl; eauto.
    + apply firstn_le_length.
    + intros c Hc. apply H0. eapply firstn_incl; eauto.
    + reflexivity.
  - exists l0. apply Nat.ltb_ge in Hlen.
    split; [|split; [|split]].
    + intros c Hc. now apply H0.
    + exact Hlen.
    + intros c Hc. now apply H0.
    + now rewrite chars_str.
Qed.

Lemma untitled_safe :
  forallb (fun c => negb (illegal_char c) && negb (control_char c))
          (Py.chars "untitled") = true
  /\ clean_ends "untitled" = true.
Proof. split; reflexivity. Qed.

Lemma trimmed_of_safe (c : ascii) :
  control_char c = false -> Py.char_in " ." c = false -> trimmed_char c = true.
Proof.
  unfold trimmed_char, ascii_space, control_char, Py.char_in. simpl.
  intros Hctl Hin. rewrite Hin. simpl.
  apply orb_false_iff in Hin as [Hsp _]. rewrite Hsp. simpl.
  apply Nat.leb_gt in Hctl.
  destruct (nat_of_ascii c <=? 13)%nat eqn:H13;
    [apply Nat.leb_le in H13; lia | now rewrite andb_false_r].
Qed.

(** C8, as the code has it. For every title the output of
    [sanitize_filename] contains none of the nine illegal characters and no
    control character of the range the source removes, code points 0 to 31;
    it has the spaces and dots at its ends removed, so that it neither
    starts nor ends with a space, a dot or another ASCII white space
    character; it is at most 200 characters long and is not empty; a title
    made of illegal characters only gives the placeholder [untitled], and
    the title of the self-test gives a non-empty name without illegal
    characters. *)
Theorem sanitize_filename_safe (name : string) :
  let out := sanitize_filename name in
  (forall c, In c (Py.chars out) ->
             illegal_char c = false /\ control_char c = false)
  /\ clean_ends out = true
  /\ (Py.len out <= 200)%nat
  /\ out <> ""
  /\ (forallb illegal_char (Py.chars name) = true -> out = "untitled")
  /\ sanitize_filename test_title = "Test Episode 01 Special"
  /\ (forall c, In c (Py.chars (sanitize_filename test_title)) ->
                illegal_char c = false).
Proof.
  intros out. subst out.
  destruct (sanitize_unfold name) as [l [Hsafe [Hlen [Hsub E]]]].
  set (p := Py.char_in " .") in *.
  set (l' := Py.strip_chars p l) in *.
  cbv zeta in E.
  assert (Hin : forall c, In c l' -> In c l) by (intro c; apply strip_incl).
  destruct (Py.truthy (Py.str l')) eqn:Ht; rewrite E; clear E.
  - (* the stripped name is kept *)
    split; [|split; [|split; [|split; [|split]]]].
    + rewrite chars_str. intros c Hc. apply Hsafe, Hin, Hc.
    + unfold clean_ends. rewrite chars_str.
      destruct l' as [|c t] eqn:El; [reflexivity|].
      assert (Hhead : p c = false) by (eapply strip_head; exact El).
      assert (Hlast : p (last l' c) = false)
        by (unfold l'; eapply strip_last; exact El).
      rewrite El in Hlast.
      apply andb_true_intro. split; apply trimmed_of_safe; auto.
      * apply Hsafe, Hin. now left.
      * apply Hsafe, Hin.
        destruct (exists_last (l := c :: t)) as [l1 [a Ea]]; [discriminate|].
        rewrite Ea, last_last. apply in_or_app. right. now left.
    + unfold Py.len. rewrite chars_str.
      etransitivity; [apply strip_length|exact Hlen].
    + intros E. rewrite E in Ht. discriminate.
    + intros Hill. exfalso.
      apply truthy_chars in Ht. rewrite chars_str in Ht.
      destruct l' as [|c t] eqn:El; [congruence|].
      assert (Hc : In c l) by (apply Hin; now left).
      destruct (Hsafe c Hc) as [Hi _].
      rewrite forallb_forall in Hill. rewrite (Hill c (Hsub c Hc)) in Hi.
      discriminate.
    + split; [reflexivity|].
      intros c Hc.
      assert (F : forallb (fun c => negb (illegal_char c))
                    (Py.chars (sanitize_filename test_title)) = true)
        by reflexivity.
      rewrite forallb_forall in F. apply negb_true_iff, F, Hc.
  - (* the placeholder *)
    destruct untitled_safe as [U1 U2].
    split; [|split; [|split; [|split; [|split]]]].
    + intros c Hc. rewrite forallb_forall in U1.
      specialize (U1 c Hc). apply andb_true_iff in U1 as [A B].
      now apply negb_true_iff in A, B.
    + exact U2.
    + unfold Py.len. simpl. lia.
    + discriminate.
    + reflexivity.
    + split; [reflexivity|].
      intros c Hc.
      assert (F : forallb (fun c => negb (illegal_char c))
                    (Py.chars (sanitize_filename test_title)) = true)
        by reflexivity.
      rewrite forallb_forall in F. apply negb_true_iff, F, Hc.
Qed.

Lemma sanitize_filename_safe_witness :
  sanitize_filename "<>:?*|/\" = "untitled".
Proof.
  apply (sanitize_filename_safe "<>:?*|/\"). reflexivity.
Defined.

(** C8 with every white space and every control character does not hold:
    the sanitizer strips spaces and dots only and removes the control
    characters below code point 32 only. A title that starts with a
    no-break space, holds the delete character and ends with the next-line
    character is returned as it is: the output starts and ends with white
    space, which [strip] would remove, and holds control characters. *)
Lemma sanitize_filename_keeps_other_space :
  sanitize_filename odd_title = odd_title
  /\ (exists c t,
        Py.chars (sanitize_filename odd_title) = c :: t
        /\ Py.isspace_char c = true
        /\ Py.isspace_char (last (c :: t) c) = true)
  /\ Py.strip_space (sanitize_filename odd_title)
     = "a" ++ String (ascii_of_nat 127) "b"
  /\ filter unicode_control (Py.chars (sanitize_filename odd_title))
     = [ascii_of_nat 127; ascii_of_nat 133]
  /\ ~ (forall name c,
          In c (Py.chars (sanitize_filename name)) -> unicode_control c = false)
  /\ ~ (forall name,
          Py.strip_space (sanitize_filename name) = sanitize_filename name).
Proof.
  split; [reflexivity|]. split; [do 2 eexists; repeat split|].
  split; [reflexivity|]. split; [reflexivity|]. split.
  - intros H. specialize (H odd_title (ascii_of_nat 127)).
    assert (I : In (ascii_of_nat 127) (Py.chars (sanitize_filename odd_title)))
      by (right; right; left; reflexivity).
    specialize (H I). discriminate.
  - intros H. specialize (H odd_title). discriminate.
Qed.

(** ** transcriber.py: rendering *)

Example format_time_hour : format_time 3725 = "01:02:05".
Proof. reflexivity. Qed.

Lemma segments_to_json_length (segments : list TranscriptSegment.t) :
  List.length (segments_to_json segments) = List.length segments.
Proof. unfold segments_to_json. apply length_map. Qed.

(** C9. For the two sample segments, [segments_to_json] returns a list as
    long as the input, two entries, and [segments_to_markdown] returns a
    text that holds "hello" and then "world", each after its start time
    formatted as 00:00:00 and 00:00:02. *)
Theorem rendering_round_trip :
  List.length (segments_to_json sample_segments) = List.length sample_segments
  /\ List.length (segments_to_json sample_segments) = 2%nat
  /\ map JsonSegment.text (segments_to_json sample_segments)
     = ["hello"; "world"]
  /\ map (fun seg => format_time (TranscriptSegment.start_time seg))
         sample_segments = ["00:00:00"; "00:00:02"]
  /\ segments_to_markdown sample_segments
     = "[00:00:00] **Speaker 1**: hello" ++ Py.nl ++ Py.nl
       ++ "[00:00:02] **Speaker 1**: world"
  /\ exists a b c d,
       segments_to_markdown sample_segments
       = a ++ "00:00:00" ++ b ++ "hello" ++ c ++ "00:00:02" ++ d ++ "world".
Proof.
  split; [apply segments_to_json_length|].
  repeat (split; [reflexivity|]).
  exists "[", "] **Speaker 1**: ", (Py.nl ++ Py.nl ++ "["), "] **Speaker 1**: ".
  reflexivity.
Qed.

(** ** The two duration parsers *)

Example parse_duration_sample :
  parse_duration "PT1H2M3.5S" = Ok (7447 # 2).
Proof. reflexivity. Qed.

Example parse_duration_no_prefix :
  parse_duration "1H" = Ok 0 /\ parse_duration "" = Ok 0.
Proof. split; reflexivity. Qed.

Example parse_duration_two_hours :
  parse_duration "PT1H2H" = Raise ValueError.
Proof. reflexivity. Qed.

(** C10. For every interpretation of the float operations and every input
    string, [parse_duration] of [query.py] and [Transcriber._parse_duration]
    give the same result, value or exception; on a string that is empty or
    does not start with "PT" both return 0.0. *)
Theorem parse_duration_same {float : Type} `{FloatOps float} (s : string) :
  parse_duration s = Transcriber._parse_duration s
  /\ (s = "" \/ Py.startswith "PT" s = false ->
      parse_duration s = Ok float_zero
      /\ Transcriber._parse_duration s = Ok float_zero).
Proof.
  split.
  - unfold parse_duration, Transcriber._parse_duration.
    destruct (negb (Py.truthy s) || negb (Py.startswith "PT" s));
      [reflexivity|].
    cbv zeta.
    destruct (Py.contains "H" (Py.slice_from 2 s)).
    + destruct (unpack2 (Py.split "H" (Py.slice_from 2 s))) as [[hours rest]|e];
        simpl; [|reflexivity].
      destruct (float_of_str hours) as [h|e]; simpl; [|reflexivity].
      destruct (Py.contains "M" rest); [|reflexivity].
      destruct (unpack2 (Py.split "M" rest)) as [[minutes rest']|e];
        simpl; [|reflexivity].
      destruct (float_of_str minutes); reflexivity.
    + simpl. destruct (Py.contains "M" (Py.slice_from 2 s)); [|reflexivity].
      destruct (unpack2 (Py.split "M" (Py.slice_from 2 s)))
        as [[minutes rest']|e]; simpl; [|reflexivity].
      destruct (float_of_str minutes); reflexivity.
  - intros Hs. unfold parse_duration, Transcriber._parse_duration.
    assert (E : negb (Py.truthy s) || negb (Py.startswith "PT" s) = true).
    { destruct Hs as [-> | ->]; [reflexivity|]. apply orb_true_r. }
    rewrite E. split; reflexivity.
Qed.

Lemma parse_duration_same_witness :
  @parse_duration Q decimal_float_ops "P1D" = Ok 0
  /\ @Transcriber._parse_duration Q decimal_float_ops "P1D" = Ok 0.
Proof.
  apply (@parse_duration_same Q decimal_float_ops "P1D").
  right. reflexivity.
Defined.

(** ** db.py: the two tables *)

Section FilterFacts.
Context {A : Type}.
Variables f g : A -> bool.

(** Deleting the rows [g] selects keeps what [f] finds, when no row is
    selected by both. *)
Lemma existsb_filter_other (l : list A) :
  (forall r, f r = true -> g r = false) ->
  existsb f (filter (fun r => negb (g r)) l) = existsb f l.
Proof.
  intros Hfg. induction l as [|r l IH]; simpl; [reflexivity|].
  destruct (g r) eqn:Hg; simpl.
  - destruct (f r) eqn:Hf; [|exact IH].
    rewrite (Hfg r Hf) in Hg. discriminate.
  - now rewrite IH.
Qed.

(** Deleting the rows [g] selects leaves nothing for [f], when [f] only
    finds rows of [g]. *)
Lemma existsb_filter_same (l : list A) :
  (forall r, f r = true -> g r = true) ->
  existsb f (filter (fun r => negb (g r)) l) = false.
Proof.
  intros Hfg. induction l as [|r l IH]; simpl; [reflexivity|].
  destruct (g r) eqn:Hg; simpl; [exact IH|].
  rewrite IH. destruct (f r) eqn:Hf; [|reflexivity].
  rewrite (Hfg r Hf) in Hg. discriminate.
Qed.

Lemma count_filter_le (l : list A) :
  (List.length (filter f (filter (fun r => negb (g r)) l))
   <= List.length (filter f l))%nat.
Proof.
  induction l as [|r l IH]; simpl; [lia|].
  destruct (g r), (f r) eqn:Hf; simpl; rewrite ?Hf; simpl; lia.
Qed.

Lemma count_filter_same (l : list A) :
  (forall r, f r = true -> g r = true) ->
  List.length (filter f (filter (fun r => negb (g r)) l)) = 0%nat.
Proof.
  intros Hfg. induction l as [|r l IH]; simpl; [reflexivity|].
  destruct (g r) eqn:Hg; simpl; [exact IH|].
  destruct (f r) eqn:Hf; [|exact IH].
  rewrite (Hfg r Hf) in Hg. discriminate.
Qed.

Lemma filter_filter_other (l : list A) :
  (forall r, f r = true -> g r = false) ->
  filter f (filter (fun r => negb (g r)) l) = filter f l.
Proof.
  intros Hfg. induction l as [|r l IH]; simpl; [reflexivity|].
  destruct (g r) eqn:Hg; simpl.
  - destruct (f r) eqn:Hf; [|exact IH].
    rewrite (Hfg r Hf) in Hg. discriminate.
  - now rewrite IH.
Qed.

Lemma filter_filter_same (l : list A) :
  (forall r, f r = true -> g r = true) ->
  filter f (filter (fun r => negb (g r)) l) = [].
Proof.
  intros Hfg. apply length_zero_iff_nil. now apply count_filter_same.
Qed.

Lemma count_existsb (l : list A) :
  existsb f l = true <-> (1 <= List.length (filter f l))%nat.
Proof.
  induction l as [|r l IH]; simpl.
  - split; [discriminate|lia].
  - destruct (f r); simpl; [split; [lia|reflexivity]|exact IH].
Qed.

End FilterFacts.

(** Two keys select a common row only when they are the same key. *)
Lemma pending_key_inj e c e' c' r :
  Database.pending_key e c r = true ->
  Database.pending_key e' c' r = true ->
  e = e' /\ c = c'.
Proof.
  unfold Database.pending_key. intros H1 H2.
  apply andb_true_iff in H1 as [A1 B1]. apply andb_true_iff in H2 as [A2 B2].
  apply String.eqb_eq in A1, B1, A2, B2. split; congruence.
Qed.

Lemma processed_key_inj e c e' c' r :
  Database.processed_key e c r = true ->
  Database.processed_key e' c' r = true ->
  e = e' /\ c = c'.
Proof.
  unfold Database.processed_key. intros H1 H2.
  apply andb_true_iff in H1 as [A1 B1]. apply andb_true_iff in H2 as [A2 B2].
  apply String.eqb_eq in A1, B1, A2, B2. split; congruence.
Qed.

Lemma pending_key_other e c e' c' r :
  (e, c) <> (e', c') ->
  Database.pending_key e' c' r = true ->
  Database.pending_key e c r = false.
Proof.
  intros Hne H. destruct (Database.pending_key e c r) eqn:K; [|reflexivity].
  destruct (pending_key_inj _ _ _ _ _ K H). congruence.
Qed.

Lemma processed_key_other e c e' c' r :
  (e, c) <> (e', c') ->
  Database.processed_key e' c' r = true ->
  Database.processed_key e c r = false.
Proof.
  intros Hne H. destruct (Database.processed_key e c r) eqn:K; [|reflexivity].
  destruct (processed_key_inj _ _ _ _ _ K H). congruence.
Qed.

Lemma key_refl (e c : string) : String.eqb e e && String.eqb c c = true.
Proof. now rewrite !String.eqb_refl. Qed.

Lemma key_decide (e c e' c' : string) : {(e, c) = (e', c')} + {(e, c) <> (e', c')}.
Proof.
  destruct (string_dec e e') as [->|He]; [|right; congruence].
  destruct (string_dec c c') as [->|Hc]; [left; reflexivity|right; congruence].
Qed.

Lemma pending_key_row e' c' i e c t u tid at_ p du :
  Database.pending_key e' c' (PendingEpisode.mk i e c t u tid at_ p du)
  = String.eqb e e' && String.eqb c c'.
Proof. reflexivity. Qed.

Lemma processed_key_row e' c' i e c t at_ st path :
  Database.processed_key e' c' (ProcessedEpisode.mk i e c t at_ st path)
  = String.eqb e e' && String.eqb c c'.
Proof. reflexivity. Qed.

Lemma key_other (e c e' c' : string) :
  (e, c) <> (e', c') -> String.eqb e e' && String.eqb c c' = false.
Proof.
  intros Hne. destruct (String.eqb e e' && String.eqb c c') eqn:K; [|reflexivity].
  apply andb_true_iff in K as [K1 K2]. apply String.eqb_eq in K1, K2.
  congruence.
Qed.

(** *** [is_pending] after each write *)

Lemma is_pending_mark_pending_same d e c title url tid published duration now :
  Database.is_pending
    (Database.mark_pending d e c title url tid published duration now) e c
  = true.
Proof.
  unfold Database.is_pending, Database.mark_pending.
  cbn [Database.pending_episodes].
  rewrite existsb_app. cbn [existsb].
  rewrite pending_key_row, key_refl. now rewrite orb_true_r.
Qed.

Lemma is_pending_mark_pending_other d e c title url tid published duration now
  e' c' :
  (e, c) <> (e', c') ->
  Database.is_pending
    (Database.mark_pending d e c title url tid published duration now) e' c'
  = Database.is_pending d e' c'.
Proof.
  intros Hne. unfold Database.is_pending, Database.mark_pending.
  cbn [Database.pending_episodes].
  rewrite existsb_app. cbn [existsb].
  rewrite existsb_filter_other
    by (intros r; apply pending_key_other; exact Hne).
  rewrite pending_key_row, (key_other _ _ _ _ Hne). now rewrite !orb_false_r.
Qed.

Lemma is_pending_remove_same d e c :
  Database.is_pending (Database.remove_pending d e c) e c = false.
Proof.
  unfold Database.is_pending, Database.remove_pending.
  cbn [Database.pending_episodes].
  apply existsb_filter_same. auto.
Qed.

Lemma is_pending_remove_other d e c e' c' :
  (e, c) <> (e', c') ->
  Database.is_pending (Database.remove_pending d e c) e' c'
  = Database.is_pending d e' c'.
Proof.
  intros Hne. unfold Database.is_pending, Database.remove_pending.
  cbn [Database.pending_episodes].
  apply existsb_filter_other. intros r. apply pending_key_other. exact Hne.
Qed.

(** *** [is_processed] after each write *)

Lemma is_processed_mark_processed_same d e c title path status now :
  Database.is_processed
    (Database.mark_processed d e c title path status now) e c
  = String.eqb status "success".
Proof.
  unfold Database.is_processed, Database.mark_processed.
  cbn [Database.processed_episodes].
  rewrite existsb_app. cbn [existsb].
  rewrite existsb_filter_same
    by (intros r Hr; apply andb_true_iff in Hr as [Hr _]; exact Hr).
  rewrite processed_key_row, key_refl. cbn [ProcessedEpisode.status].
  now rewrite orb_false_r.
Qed.

Lemma is_processed_mark_processed_other d e c title path status now e' c' :
  (e, c) <> (e', c') ->
  Database.is_processed
    (Database.mark_processed d e c title path status now) e' c'
  = Database.is_processed d e' c'.
Proof.
  intros Hne. unfold Database.is_processed, Database.mark_processed.
  cbn [Database.processed_episodes].
  rewrite existsb_app. cbn [existsb].
  rewrite existsb_filter_other
    by (intros r Hr; apply andb_true_iff in Hr as [Hr _];
        eapply processed_key_other; eauto).
  rewrite processed_key_row, (key_other _ _ _ _ Hne).
  now rewrite !orb_false_r.
Qed.

(** *** The UNIQUE constraint is kept by every write *)

Lemma count_pending_mark_pending d e c title url tid published duration now
  e' c' :
  count_pending
    (Database.mark_pending d e c title url tid published duration now) e' c'
  = if key_decide e c e' c' then 1%nat else count_pending d e' c'.
Proof.
  unfold count_pending, Database.mark_pending.
  cbn [Database.pending_episodes].
  rewrite filter_app, length_app. cbn [filter]. rewrite pending_key_row.
  destruct (key_decide e c e' c') as [E|Hne].
  - injection E as <- <-. rewrite key_refl.
    rewrite filter_filter_same by auto. reflexivity.
  - rewrite (key_other _ _ _ _ Hne).
    rewrite filter_filter_other
      by (intros r; apply pending_key_other; exact Hne).
    simpl. lia.
Qed.

Lemma count_pending_remove d e c e' c' :
  (count_pending (Database.remove_pending d e c) e' c'
   <= count_pending d e' c')%nat.
Proof.
  unfold count_pending, Database.remove_pending.
  cbn [Database.pending_episodes]. apply count_filter_le.
Qed.

Lemma count_processed_mark_processed d e c title path status now e' c' :
  count_processed
    (Database.mark_processed d e c title path status now) e' c'
  = if key_decide e c e' c' then 1%nat else count_processed d e' c'.
Proof.
  unfold count_processed, Database.mark_processed.
  cbn [Database.processed_episodes].
  rewrite filter_app, length_app. cbn [filter]. rewrite processed_key_row.
  destruct (key_decide e c e' c') as [E|Hne].
  - injection E as <- <-. rewrite key_refl.
    rewrite filter_filter_same by auto. reflexivity.
  - rewrite (key_other _ _ _ _ Hne).
    rewrite filter_filter_other
      by (intros r; apply processed_key_other; exact Hne).
    simpl. lia.
Qed.

Lemma unique_keys_write (d : Database.t) (op : DbWrite) :
  unique_keys d -> unique_keys (apply_write d op).
Proof.
  intros U e' c'. destruct (U e' c') as [Up Uq].
  destruct op as [e c title path status now
                 |e c title url tid published duration now
                 |e c]; cbn [apply_write].
  - split; [exact Up|].
    rewrite count_processed_mark_processed.
    destruct (key_decide e c e' c'); [lia|exact Uq].
  - split; [|exact Uq].
    rewrite count_pending_mark_pending.
    destruct (key_decide e c e' c'); [lia|exact Up].
  - split; [|exact Uq].
    etransitivity; [apply count_pending_remove|exact Up].
Qed.

Lemma unique_keys_empty : unique_keys Database.empty.
Proof. intros e c. split; cbv; lia. Qed.

(** *** A pending row goes away only by [remove_pending] *)

Lemma pending_survives_write (d : Database.t) (op : DbWrite) (e c : string) :
  Database.is_pending d e c = true ->
  Database.is_pending (apply_write d op) e c = false ->
  op = WriteRemovePending e c.
Proof.
  intros Hp Hq.
  destruct op as [e0 c0 title path status now
                 |e0 c0 title url tid published duration now
                 |e0 c0]; cbn [apply_write] in Hq.
  - unfold Database.is_pending, Database.mark_processed in *.
    cbn [Database.pending_episodes] in Hq. congruence.
  - destruct (key_decide e0 c0 e c) as [E|Hne].
    + injection E as -> ->. rewrite is_pending_mark_pending_same in Hq.
      discriminate.
    + rewrite is_pending_mark_pending_other in Hq by exact Hne. congruence.
  - destruct (key_decide e0 c0 e c) as [E|Hne].
    + injection E as -> ->. reflexivity.
    + rewrite is_pending_remove_other in Hq by exact Hne. congruence.
Qed.

(** *** What [is_processed] finds *)

Lemma is_processed_iff (d : Database.t) (e c : string) :
  Database.is_processed d e c = true
  <-> exists r, In r (Database.processed_episodes d)
                /\ ProcessedEpisode.episode_id r = e
                /\ ProcessedEpisode.channel r = c
                /\ ProcessedEpisode.status r = "success".
Proof.
  unfold Database.is_processed. rewrite existsb_exists.
  split; intros [r [Hin Hr]]; exists r; (split; [exact Hin|]).
  - apply andb_true_iff in Hr as [K S]. unfold Database.processed_key in K.
    apply andb_true_iff in K as [K1 K2].
    apply String.eqb_eq in K1, K2, S. auto.
  - destruct Hr as [<- [<- S]]. unfold Database.processed_key.
    rewrite S, !String.eqb_refl. reflexivity.
Qed.

Lemma processed_failed_not_processed (d : Database.t) (e c : string) :
  processed_failed d e c -> Database.is_processed d e c = false.
Proof.
  intros [_ Hall].
  destruct (Database.is_processed d e c) eqn:P; [|reflexivity].
  unfold Database.is_processed in P. apply existsb_exists in P as [r [Hin Hr]].
  apply andb_true_iff in Hr as [K S]. apply String.eqb_eq in S.
  rewrite (Hall r Hin K) in S. discriminate.
Qed.

(** *** The two invariants through a transition *)

Lemma transition_as_writes d d' :
  transition d d' ->
  exists op1 ops, d' = fold_left apply_write ops (apply_write d op1).
Proof.
  intros [d0 e c title url tid published duration now _ _
         |d0 e c title path status now].
  - exists (WriteMarkPending e c title url tid published duration now), [].
    reflexivity.
  - exists (WriteMarkProcessed e c title path status now),
           [WriteRemovePending e c].
    reflexivity.
Qed.

Lemma unique_keys_writes (ops : list DbWrite) (d : Database.t) :
  unique_keys d -> unique_keys (fold_left apply_write ops d).
Proof.
  revert d. induction ops as [|op ops IH]; intros d U; simpl; [exact U|].
  apply IH, unique_keys_write, U.
Qed.

Lemma transition_unique d d' :
  transition d d' -> unique_keys d -> unique_keys d'.
Proof.
  intros T U. destruct (transition_as_writes _ _ T) as [op1 [ops ->]].
  apply unique_keys_writes, unique_keys_write, U.
Qed.

Lemma transition_exclusive d d' :
  transition d d' -> exclusive d -> exclusive d'.
Proof.
  intros T X e' c'. specialize (X e' c').
  destruct T as [d e c title url tid published duration now Hproc Hpend
                |d e c title path status now].
  - change (Database.is_processed
              (Database.mark_pending d e c title url tid published duration now)
              e' c')
      with (Database.is_processed d e' c').
    destruct (key_decide e c e' c') as [E|Hne].
    + injection E as <- <-. rewrite Hproc. apply andb_false_r.
    + rewrite is_pending_mark_pending_other by exact Hne. exact X.
  - destruct (key_decide e c e' c') as [E|Hne].
    + injection E as <- <-. now rewrite is_pending_remove_same.
    + rewrite is_pending_remove_other by exact Hne.
      change (Database.is_processed
                (Database.remove_pending
                   (Database.mark_processed d e c title path status now) e c)
                e' c')
        with (Database.is_processed
                (Database.mark_processed d e c title path status now) e' c').
      rewrite is_processed_mark_processed_other by exact Hne. exact X.
Qed.

Lemma transitions_trans d1 d2 d3 :
  transitions d1 d2 -> transitions d2 d3 -> transitions d1 d3.
Proof.
  intros T12 T23. induction T23 as [d|d2 d3 d4 T23 IH T34]; [exact T12|].
  eapply transitions_step; [apply IH, T12|exact T34].
Qed.

Lemma transitions_one d d' : transition d d' -> transitions d d'.
Proof. intros T. eapply transitions_step; [apply transitions_refl|exact T]. Qed.

Lemma transitions_invariant d d' :
  transitions d d' ->
  exclusive d /\ unique_keys d -> exclusive d' /\ unique_keys d'.
Proof.
  intros T. induction T as [|d1 d2 d3 T12 IH T23]; [auto|].
  intros H. destruct (IH H) as [X U].
  split; [eapply transition_exclusive|eapply transition_unique]; eauto.
Qed.

(** ** The scripts, run symbolically *)

Lemma skipn_length_app {A : Type} (l new : list A) :
  skipn (List.length l) (l ++ new) = new.
Proof. induction l; simpl; auto. Qed.

(** Unfolds the monad and the primitive actions and splits on every
    answer of the environment and every test that decides the path. *)
Ltac unfold_script :=
  cbv [bind ret try_except lift logger read_db write_db external
       datetime_now parse_feed submit_transcription
       db_is_processed db_is_pending db_mark_pending db_mark_processed
       db_remove_pending check_transcription_status
       get_transcription_result delete_transcription ensure_dir
       get_output_path write_file result_of world_after];
  cbn [fst snd db calls clock log].

Ltac split_path :=
  repeat match goal with
         | |- context [match ?x with _ => _ end] =>
             lazymatch x with
             | context [match _ with _ => _ end] => fail
             | _ => idtac
             end;
             let E := fresh "E" in
             destruct x eqn:E; cbn [fst snd db calls clock log]
         end.

Ltac tidy_lists := rewrite <- ?app_assoc; cbn [app].

(** [process_single_rss] from [episodes[0]] on, as one equation. *)
Lemma process_single_rss_episode_run env episode channel_name language w :
  process_single_rss_episode env episode channel_name language w
  = if Database.is_processed (db w) (Episode.id episode) channel_name then
      (Ok 0%Z,
       mkWorld (db w) (calls w) (clock w)
               (log w ++ [LogAlreadyProcessed (Episode.title episode)]))
    else if Database.is_pending (db w) (Episode.id episode) channel_name then
      (Ok 0%Z,
       mkWorld (db w) (calls w) (clock w)
               (log w ++ [LogAlreadyPending (Episode.title episode)]))
    else
      match env_submit env (calls w) (Episode.audio_url episode) language with
      | Ok transcription_id =>
          (Ok 1%Z,
           mkWorld
             (Database.mark_pending (db w) (Episode.id episode) channel_name
                (Episode.title episode) (Episode.audio_url episode)
                transcription_id (Some (Episode.published episode))
                (Episode.duration episode) (env_now env (clock w)))
             (calls w ++ [CallSubmit (Episode.audio_url episode) language])
             (S (clock w))
             (log w ++ [LogSubmitted (Episode.title episode);
                        LogTranscriptionId transcription_id]))
      | Raise e =>
          (Ok 0%Z,
           mkWorld (db w)
             (calls w ++ [CallSubmit (Episode.audio_url episode) language])
             (clock w)
             (log w ++ [LogFailedToSubmit e]))
      end.
Proof.
  unfold process_single_rss_episode. unfold_script.
  split_path; tidy_lists; reflexivity.
Qed.

(** The body of the episode loop of [process_config_file], as one
    equation. *)
Lemma process_config_file_episode_run env channel episode submitted skipped w :
  process_config_file_episode env channel episode (submitted, skipped) w
  = let name := ChannelConfig.name channel in
    let title40 := Py.slice_to 40 (Episode.title episode) in
    if Database.is_processed (db w) (Episode.id episode) name then
      (Ok (submitted, (skipped + 1)%Z),
       mkWorld (db w) (calls w) (clock w) (log w ++ [LogSkippingDone title40]))
    else if Database.is_pending (db w) (Episode.id episode) name then
      (Ok (submitted, (skipped + 1)%Z),
       mkWorld (db w) (calls w) (clock w)
               (log w ++ [LogSkippingPending title40]))
    else
      match env_submit env (calls w) (Episode.audio_url episode)
              (ChannelConfig.language channel) with
      | Ok transcription_id =>
          (Ok ((submitted + 1)%Z, skipped),
           mkWorld
             (Database.mark_pending (db w) (Episode.id episode) name
                (Episode.title episode) (Episode.audio_url episode)
                transcription_id (Some (Episode.published episode))
                (Episode.duration episode) (env_now env (clock w)))
             (calls w ++ [CallSubmit (Episode.audio_url episode)
                            (ChannelConfig.language channel)])
             (S (clock w))
             (log w ++ [LogSubmittedAs title40 transcription_id]))
      | Raise e =>
          (Ok (submitted, skipped),
           mkWorld (db w)
             (calls w ++ [CallSubmit (Episode.audio_url episode)
                            (ChannelConfig.language channel)])
             (clock w)
             (log w ++ [LogFailed e]))
      end.
Proof.
  unfold process_config_file_episode. unfold_script.
  split_path; tidy_lists; reflexivity.
Qed.

(** ** submit.py: deduplication *)

Lemma is_processed_counted d e c :
  Database.is_processed d e c = true -> (1 <= count_processed d e c)%nat.
Proof.
  intros P. apply count_existsb. unfold Database.is_processed in P.
  apply existsb_exists in P as [r [Hin Hr]].
  apply andb_true_iff in Hr as [K _].
  apply existsb_exists. eauto.
Qed.

Lemma is_pending_counted d e c :
  Database.is_pending d e c = true -> (1 <= count_pending d e c)%nat.
Proof. intros P. now apply count_existsb. Qed.

Lemma tracked_once_intro d e c :
  unique_keys d ->
  Database.is_processed d e c = true \/ Database.is_pending d e c = true ->
  tracked_once d e c.
Proof.
  intros U [P|P]; destruct (U e c) as [Up Uq]; [left|right]; split; auto.
  - apply is_processed_counted in P. lia.
  - apply is_pending_counted in P. lia.
Qed.

(** A second submission of an identity that is tracked is a skip: the
    store and the calls are as before and one record is logged. *)
Lemma single_rss_skip env episode channel_name language w :
  Database.is_processed (db w) (Episode.id episode) channel_name = true
  \/ Database.is_pending (db w) (Episode.id episode) channel_name = true ->
  exists record,
    process_single_rss_episode env episode channel_name language w
    = (Ok 0%Z, mkWorld (db w) (calls w) (clock w) (log w ++ [record]))
    /\ (record = LogAlreadyProcessed (Episode.title episode)
        \/ record = LogAlreadyPending (Episode.title episode)).
Proof.
  intros H. rewrite process_single_rss_episode_run.
  destruct (Database.is_processed (db w) (Episode.id episode) channel_name);
    [eexists; split; [reflexivity|now left]|].
  destruct H as [H|H]; [discriminate|]. rewrite H.
  eexists; split; [reflexivity|now right].
Qed.

Lemma config_file_skip env channel episode submitted skipped w :
  Database.is_processed (db w) (Episode.id episode) (ChannelConfig.name channel)
  = true
  \/ Database.is_pending (db w) (Episode.id episode) (ChannelConfig.name channel)
     = true ->
  exists record,
    process_config_file_episode env channel episode (submitted, skipped) w
    = (Ok (submitted, (skipped + 1)%Z),
       mkWorld (db w) (calls w) (clock w) (log w ++ [record]))
    /\ (record = LogSkippingDone (Py.slice_to 40 (Episode.title episode))
        \/ record = LogSkippingPending (Py.slice_to 40 (Episode.title episode))).
Proof.
  intros H. rewrite process_config_file_episode_run. cbv zeta.
  destruct (Database.is_processed (db w) (Episode.id episode)
              (ChannelConfig.name channel));
    [eexists; split; [reflexivity|now left]|].
  destruct H as [H|H]; [discriminate|]. rewrite H.
  eexists; split; [reflexivity|now right].
Qed.

(** After a submission whose remote call, if made, went through, the
    identity is tracked and the UNIQUE constraint still holds. *)
Lemma single_rss_tracks env episode channel_name language w :
  unique_keys (db w) ->
  submit_goes_through env w (Episode.id episode) channel_name
    (Episode.audio_url episode) language ->
  let w1 := world_after (process_single_rss_episode env episode channel_name
                           language) w in
  unique_keys (db w1)
  /\ (Database.is_processed (db w1) (Episode.id episode) channel_name = true
      \/ Database.is_pending (db w1) (Episode.id episode) channel_name = true).
Proof.
  intros U G. unfold world_after. rewrite process_single_rss_episode_run.
  unfold submit_goes_through in G.
  destruct (Database.is_processed (db w) (Episode.id episode) channel_name)
    eqn:P; [cbn; auto|].
  destruct (Database.is_pending (db w) (Episode.id episode) channel_name)
    eqn:Q; [cbn; auto|].
  destruct (G eq_refl eq_refl) as [tid ->]. cbn [snd db]. split.
  - apply (unique_keys_write (db w)
             (WriteMarkPending _ _ _ _ _ _ _ _)), U.
  - right. apply is_pending_mark_pending_same.
Qed.

Lemma config_file_tracks env channel episode counts w :
  unique_keys (db w) ->
  submit_goes_through env w (Episode.id episode) (ChannelConfig.name channel)
    (Episode.audio_url episode) (ChannelConfig.language channel) ->
  let w1 := world_after (process_config_file_episode env channel episode
                           counts) w in
  unique_keys (db w1)
  /\ (Database.is_processed (db w1) (Episode.id episode)
        (ChannelConfig.name channel) = true
      \/ Database.is_pending (db w1) (Episode.id episode)
           (ChannelConfig.name channel) = true).
Proof.
  intros U G. destruct counts as [submitted skipped].
  unfold world_after. rewrite process_config_file_episode_run. cbv zeta.
  unfold submit_goes_through in G.
  destruct (Database.is_processed (db w) (Episode.id episode)
              (ChannelConfig.name channel)) eqn:P; [cbn; auto|].
  destruct (Database.is_pending (db w) (Episode.id episode)
              (ChannelConfig.name channel)) eqn:Q; [cbn; auto|].
  destruct (G eq_refl eq_refl) as [tid ->]. cbn [snd db]. split.
  - apply (unique_keys_write (db w)
             (WriteMarkPending _ _ _ _ _ _ _ _)), U.
  - right. apply is_pending_mark_pending_same.
Qed.

(** The processed table is consulted first. *)
Example dedup_order :
  log (world_after
         (process_single_rss_episode env_all_ok sample_episode "chan" "auto")
         (world_of db_both))
  = [LogAlreadyProcessed "Title One"].
Proof. reflexivity. Qed.

(** C1. Idempotent submission, for both entry points of [submit.py]. An
    identity that is processed with status success is skipped, and this is
    tested first; otherwise an identity that is pending is skipped; a skip
    makes no call and leaves the store as it was. Hence, when the first of
    two submissions of an identity in sequence is carried out (its remote
    call, if made, returns a job handle), the second is a skip that makes
    no call and writes nothing, and the identity has exactly one pending
    row, or exactly one processed row with status success. *)
Theorem idempotent_submission (env : Env) (episode : Episode.t)
  (channel : ChannelConfig.t) (counts : Z * Z) (w : World) :
  let id := Episode.id episode in
  let name := ChannelConfig.name channel in
  let language := ChannelConfig.language channel in
  let title := Episode.title episode in
  (Database.is_processed (db w) id name = true ->
   process_single_rss_episode env episode name language w
   = (Ok 0%Z,
      mkWorld (db w) (calls w) (clock w) (log w ++ [LogAlreadyProcessed title]))
   /\ process_config_file_episode env channel episode counts w
      = (Ok (fst counts, (snd counts + 1)%Z),
         mkWorld (db w) (calls w) (clock w)
                 (log w ++ [LogSkippingDone (Py.slice_to 40 title)])))
  /\ (Database.is_processed (db w) id name = false ->
      Database.is_pending (db w) id name = true ->
      process_single_rss_episode env episode name language w
      = (Ok 0%Z,
         mkWorld (db w) (calls w) (clock w) (log w ++ [LogAlreadyPending title]))
      /\ process_config_file_episode env channel episode counts w
         = (Ok (fst counts, (snd counts + 1)%Z),
            mkWorld (db w) (calls w) (clock w)
                    (log w ++ [LogSkippingPending (Py.slice_to 40 title)])))
  /\ (unique_keys (db w) ->
      submit_goes_through env w id name (Episode.audio_url episode) language ->
      forall (episode' : Episode.t) (counts' : Z * Z),
        Episode.id episode' = id ->
        (let first := process_single_rss_episode env episode name language in
         let second := process_single_rss_episode env episode' name language in
         let w1 := world_after first w in
         let w2 := world_after second w1 in
         result_of second w1 = Ok 0%Z
         /\ db w2 = db w1 /\ calls w2 = calls w1
         /\ tracked_once (db w2) id name)
        /\ (let first := process_config_file_episode env channel episode counts in
            let second :=
              process_config_file_episode env channel episode' counts' in
            let w1 := world_after first w in
            let w2 := world_after second w1 in
            result_of second w1 = Ok (fst counts', (snd counts' + 1)%Z)
            /\ db w2 = db w1 /\ calls w2 = calls w1
            /\ tracked_once (db w2) id name)).
Proof.
  cbv zeta. destruct counts as [submitted skipped]. cbn [fst snd].
  split; [|split].
  - intros P.
    rewrite process_single_rss_episode_run, process_config_file_episode_run.
    cbv zeta. rewrite P. split; reflexivity.
  - intros P Q.
    rewrite process_single_rss_episode_run, process_config_file_episode_run.
    cbv zeta. rewrite P, Q. split; reflexivity.
  - intros U G episode' [submitted' skipped'] Hid. cbn [fst snd]. split.
    + destruct (single_rss_tracks env episode _ _ w U G) as [U1 T1].
      set (w1 := world_after _ w) in *.
      rewrite <- Hid in T1.
      destruct (single_rss_skip env episode' (ChannelConfig.name channel)
                  (ChannelConfig.language channel) w1 T1) as [record [E _]].
      unfold result_of, world_after at 1 2 3. rewrite E. cbn [fst snd db calls].
      repeat split.
      apply tracked_once_intro; [exact U1|]. rewrite <- Hid. exact T1.
    + destruct (config_file_tracks env channel episode (submitted, skipped)
                  w U G) as [U1 T1].
      set (w1 := world_after _ w) in *.
      rewrite <- Hid in T1.
      destruct (config_file_skip env channel episode' submitted' skipped'
                  w1 T1) as [record [E _]].
      unfold result_of, world_after at 1 2 3. rewrite E. cbn [fst snd db calls].
      repeat split.
      apply tracked_once_intro; [exact U1|]. rewrite <- Hid. exact T1.
Qed.

Lemma idempotent_submission_witness :
  process_single_rss_episode env_all_ok sample_episode "chan" "auto"
    (world_of db_success)
  = (Ok 0%Z, mkWorld db_success [] 0 [LogAlreadyProcessed "Title One"])
  /\ process_config_file_episode env_all_ok sample_channel sample_episode
       (0%Z, 0%Z) (world_of db_pending)
     = (Ok (0%Z, 1%Z), mkWorld db_pending [] 0 [LogSkippingPending "Title One"])
  /\ (let first :=
        process_single_rss_episode env_all_ok sample_episode "chan" "auto" in
      let w1 := world_after first (world_of Database.empty) in
      result_of first w1 = Ok 0%Z
      /\ db (world_after first w1) = db w1
      /\ calls (world_after first w1) = calls w1
      /\ tracked_once (db (world_after first w1)) "ep1" "chan").
Proof.
  split; [|split].
  - pose proof (idempotent_submission env_all_ok sample_episode sample_channel
                  (0%Z, 0%Z) (world_of db_success)) as H.
    cbv zeta in H. destruct H as [H _]. apply H. reflexivity.
  - pose proof (idempotent_submission env_all_ok sample_episode sample_channel
                  (0%Z, 0%Z) (world_of db_pending)) as H.
    cbv zeta in H. destruct H as [_ [H _]]. apply H; reflexivity.
  - pose proof (idempotent_submission env_all_ok sample_episode sample_channel
                  (0%Z, 0%Z) (world_of Database.empty)) as H.
    cbv zeta in H. destruct H as [_ [_ H]].
    apply (H unique_keys_empty
             (fun _ _ => ex_intro _ "job-1" eq_refl)
             sample_episode (0%Z, 0%Z) eq_refl).
Defined.

(** ** submit.py: a failed remote call *)

(** C2. No partial state on submit failure, for both entry points of
    [submit.py]: when the remote call raises, the store after the
    submission is the store before it, and the run ends in the handler;
    the store changes only when the remote call returned a job handle, and
    then by the pending row that holds this handle, written after the
    call. *)
Theorem no_partial_state_on_submit_failure (env : Env) (episode : Episode.t)
  (channel : ChannelConfig.t) (counts : Z * Z) (w : World) :
  let id := Episode.id episode in
  let name := ChannelConfig.name channel in
  let language := ChannelConfig.language channel in
  let url := Episode.audio_url episode in
  let single := process_single_rss_episode env episode name language in
  let config := process_config_file_episode env channel episode counts in
  (forall e, env_submit env (calls w) url language = Raise e ->
     db (world_after single w) = db w
     /\ db (world_after config w) = db w
     /\ (Database.is_processed (db w) id name = false ->
         Database.is_pending (db w) id name = false ->
         single w
         = (Ok 0%Z,
            mkWorld (db w) (calls w ++ [CallSubmit url language]) (clock w)
                    (log w ++ [LogFailedToSubmit e]))
         /\ config w
            = (Ok counts,
               mkWorld (db w) (calls w ++ [CallSubmit url language]) (clock w)
                       (log w ++ [LogFailed e]))))
  /\ (forall w', (w' = world_after single w \/ w' = world_after config w) ->
        db w' <> db w ->
        exists transcription_id,
          env_submit env (calls w) url language = Ok transcription_id
          /\ calls w' = (calls w ++ [CallSubmit url language])%list
          /\ db w'
             = Database.mark_pending (db w) id name (Episode.title episode) url
                 transcription_id (Some (Episode.published episode))
                 (Episode.duration episode) (env_now env (clock w))).
Proof.
  cbv zeta. destruct counts as [submitted skipped]. split.
  - intros e He. unfold world_after.
    rewrite process_single_rss_episode_run, process_config_file_episode_run.
    cbv zeta. rewrite He.
    destruct (Database.is_processed (db w) (Episode.id episode)
                (ChannelConfig.name channel)); [cbn; intuition congruence|].
    destruct (Database.is_pending (db w) (Episode.id episode)
                (ChannelConfig.name channel)); cbn; intuition congruence.
  - intros w' Hw' Hdb.
    assert (Hcases :
      (Database.is_processed (db w) (Episode.id episode)
         (ChannelConfig.name channel) = false
       /\ Database.is_pending (db w) (Episode.id episode)
            (ChannelConfig.name channel) = false
       /\ exists tid,
            env_submit env (calls w) (Episode.audio_url episode)
              (ChannelConfig.language channel) = Ok tid)
      \/ db w' = db w).
    { destruct Hw' as [-> | ->]; unfold world_after;
        [rewrite process_single_rss_episode_run
        |rewrite process_config_file_episode_run; cbv zeta];
        (destruct (Database.is_processed (db w) (Episode.id episode)
                     (ChannelConfig.name channel)); [now right|]);
        (destruct (Database.is_pending (db w) (Episode.id episode)
                     (ChannelConfig.name channel)); [now right|]);
        (destruct (env_submit env (calls w) (Episode.audio_url episode)
                     (ChannelConfig.language channel)) as [tid|e];
           [left; eauto|now right]). }
    destruct Hcases as [[P [Q [tid Htid]]]|Hsame]; [|contradiction].
    exists tid. split; [exact Htid|].
    destruct Hw' as [-> | ->]; unfold world_after;
      [rewrite process_single_rss_episode_run
      |rewrite process_config_file_episode_run; cbv zeta];
      rewrite P, Q, Htid; cbn [snd db calls]; split; reflexivity.
Qed.

Lemma no_partial_state_on_submit_failure_witness :
  db (world_after
        (process_single_rss_episode
           (sample_env (Raise (RequestException "503")) (Raise ValueError)
              (Raise ValueError) (Ok tt) (Ok tt))
           sample_episode "chan" "auto")
        (world_of db_failed))
  = db_failed.
Proof.
  pose proof (no_partial_state_on_submit_failure
                (sample_env (Raise (RequestException "503")) (Raise ValueError)
                   (Raise ValueError) (Ok tt) (Ok tt))
                sample_episode sample_channel (0%Z, 0%Z) (world_of db_failed))
    as H.
  cbv zeta in H. destruct H as [H _].
  destruct (H (RequestException "503") eq_refl) as [H1 _]. exact H1.
Defined.

(** ** submit.py: a failed outcome does not block a new submission *)

(** C5, as the code has it. [is_processed] holds exactly when the processed
    table has a row of the identity with status success. Hence an identity
    whose processed record has status failed passes the first dedup check
    and is not skipped as already processed. When the identity is not
    pending either, a new submission is attempted: the remote call is made,
    and when it returns a job handle the identity becomes pending. When it
    is pending, the second dedup check skips it: no call is made and the
    store stays as it is. Both entry points of [submit.py]. *)
Theorem failed_is_not_terminal (env : Env) (episode : Episode.t)
  (channel : ChannelConfig.t) (counts : Z * Z) (w : World) :
  let id := Episode.id episode in
  let name := ChannelConfig.name channel in
  let language := ChannelConfig.language channel in
  let url := Episode.audio_url episode in
  let title := Episode.title episode in
  let single := process_single_rss_episode env episode name language in
  let config := process_config_file_episode env channel episode counts in
  (forall d e c,
     Database.is_processed d e c = true
     <-> exists r, In r (Database.processed_episodes d)
                   /\ ProcessedEpisode.episode_id r = e
                   /\ ProcessedEpisode.channel r = c
                   /\ ProcessedEpisode.status r = "success")
  /\ (processed_failed (db w) id name ->
      Database.is_processed (db w) id name = false
      /\ ~ In (LogAlreadyProcessed title)
              (logged_since w (world_after single w))
      /\ ~ In (LogSkippingDone (Py.slice_to 40 title))
              (logged_since w (world_after config w)))
  /\ (only_failed (db w) id name ->
      (calls (world_after single w)
       = (calls w ++ [CallSubmit url language])%list
       /\ forall tid,
            env_submit env (calls w) url language = Ok tid ->
            result_of single w = Ok 1%Z
            /\ Database.is_pending (db (world_after single w)) id name = true)
      /\ (calls (world_after config w)
          = (calls w ++ [CallSubmit url language])%list
          /\ forall tid,
               env_submit env (calls w) url language = Ok tid ->
               result_of config w = Ok ((fst counts + 1)%Z, snd counts)
               /\ Database.is_pending (db (world_after config w)) id name
                  = true))
  /\ (processed_failed (db w) id name ->
      Database.is_pending (db w) id name = true ->
      single w
      = (Ok 0%Z,
         mkWorld (db w) (calls w) (clock w)
           (log w ++ [LogAlreadyPending title]))
      /\ config w
         = (Ok (fst counts, (snd counts + 1)%Z),
            mkWorld (db w) (calls w) (clock w)
              (log w ++ [LogSkippingPending (Py.slice_to 40 title)]))).
Proof.
  cbv zeta. destruct counts as [submitted skipped].
  split; [intros d e c; apply is_processed_iff|split; [|split]].
  3:{ intros F Q. pose proof (processed_failed_not_processed _ _ _ F) as P.
      rewrite process_single_rss_episode_run, process_config_file_episode_run.
      cbv zeta. rewrite P, Q. split; reflexivity. }
  - intros F. pose proof (processed_failed_not_processed _ _ _ F) as P.
    split; [exact P|].
    unfold world_after, logged_since.
    rewrite process_single_rss_episode_run, process_config_file_episode_run.
    cbv zeta. rewrite P.
    destruct (Database.is_pending (db w) (Episode.id episode)
                (ChannelConfig.name channel));
      [|destruct (env_submit env (calls w) (Episode.audio_url episode)
                    (ChannelConfig.language channel)) as [tid|e]];
      cbn [snd log]; rewrite !skipn_length_app; split;
      intros H; repeat (destruct H as [H|H]; [discriminate|]); exact H.
  - intros [F Q]. pose proof (processed_failed_not_processed _ _ _ F) as P.
    unfold world_after, result_of.
    rewrite process_single_rss_episode_run, process_config_file_episode_run.
    cbv zeta. rewrite P, Q.
    destruct (env_submit env (calls w) (Episode.audio_url episode)
                (ChannelConfig.language channel)) as [tid|e];
      cbn [fst snd db calls log];
      (split; (split; [reflexivity|])).
    all: try (intros tid' Htid; discriminate).
    all: intros tid' _; split; [reflexivity|apply is_pending_mark_pending_same].
Qed.

Lemma failed_is_not_terminal_witness :
  Database.is_processed db_failed "ep1" "chan" = false
  /\ calls (world_after
              (process_single_rss_episode env_all_ok sample_episode "chan"
                 "auto")
              (world_of db_failed))
     = [CallSubmit "http://a/1.mp3" "auto"].
Proof.
  pose proof (failed_is_not_terminal env_all_ok sample_episode sample_channel
                (0%Z, 0%Z) (world_of db_failed)) as H.
  cbv zeta in H. destruct H as [_ [H1 [H2 _]]].
  assert (F : processed_failed (db (world_of db_failed)) "ep1" "chan").
  { split.
    - eexists. split; [left; reflexivity|]. split; reflexivity.
    - intros r [<-|[]] _. reflexivity. }
  split.
  - destruct (H1 F) as [P _]. exact P.
  - destruct (H2 (conj F eq_refl)) as [[C _] _]. exact C.
Defined.

(** C5 for every identity whose processed record has status failed does
    not hold: such an identity can be pending, and then no submission is
    attempted. The store after the sample episode was submitted, reported
    as failed and submitted again is one the scripts leave behind; in it the
    processed record of the episode has status failed, the episode is
    pending, and both entry points skip it without a remote call. *)
Lemma failed_and_pending_is_skipped :
  reachable db_failed_pending
  /\ processed_failed db_failed_pending "ep1" "chan"
  /\ Database.is_pending db_failed_pending "ep1" "chan" = true
  /\ process_single_rss_episode env_all_ok sample_episode "chan" "auto"
       (world_of db_failed_pending)
     = (Ok 0%Z,
        mkWorld db_failed_pending [] 0 [LogAlreadyPending "Title One"])
  /\ process_config_file_episode env_all_ok sample_channel sample_episode
       (0%Z, 0%Z) (world_of db_failed_pending)
     = (Ok (0%Z, 1%Z),
        mkWorld db_failed_pending [] 0 [LogSkippingPending "Title One"])
  /\ ~ (forall env episode channel_name language w,
          processed_failed (db w) (Episode.id episode) channel_name ->
          In (CallSubmit (Episode.audio_url episode) language)
             (calls (world_after
                       (process_single_rss_episode env episode channel_name
                          language) w))).
Proof.
  assert (R : reachable db_failed_pending).
  { unfold db_failed_pending.
    apply reachable_single_rss, reachable_query, reachable_single_rss.
    apply reachable_init. }
  assert (E : Database.processed_episodes db_failed_pending
              = [ProcessedEpisode.mk 1%Z "ep1" "chan" "Title One" 1001%Z
                   "failed" ""]) by (vm_compute; reflexivity).
  assert (F : processed_failed db_failed_pending "ep1" "chan").
  { unfold processed_failed. rewrite E. split.
    - eexists. split; [left; reflexivity|]. split; reflexivity.
    - intros r [<-|[]] _. reflexivity. }
  split; [exact R|]. split; [exact F|].
  split; [vm_compute; reflexivity|].
  split; [vm_compute; reflexivity|]. split; [vm_compute; reflexivity|].
  intros H.
  specialize (H env_all_ok sample_episode "chan" "auto"
                (world_of db_failed_pending) F).
  vm_compute in H. exact H.
Qed.

(** ** db.py: [mark_processed] leaves the pending table alone *)

(** C6. [mark_processed], called from any world with any arguments, leaves
    the pending table as it was, so that an identity is pending afterwards
    exactly when it was before; in the processed table it replaces the rows
    of the identity by one row that holds the arguments and the time the
    clock gave, and keeps the rows of every other identity. Among the
    writes of [Database], a pending identity stops being pending only by
    [remove_pending] of that identity. *)
Theorem mark_processed_frames_pending (env : Env)
  (episode_id channel title output_path status : string) (w : World) :
  let w' := world_after (db_mark_processed env episode_id channel title
                           output_path status) w in
  Database.pending_episodes (db w') = Database.pending_episodes (db w)
  /\ Database.pending_seq (db w') = Database.pending_seq (db w)
  /\ (forall e c, Database.is_pending (db w') e c
                  = Database.is_pending (db w) e c)
  /\ filter (Database.processed_key episode_id channel)
            (Database.processed_episodes (db w'))
     = [ProcessedEpisode.mk (Database.processed_seq (db w) + 1) episode_id
          channel title (env_now env (clock w)) status output_path]
  /\ (forall e c, (episode_id, channel) <> (e, c) ->
        filter (Database.processed_key e c)
               (Database.processed_episodes (db w'))
        = filter (Database.processed_key e c)
                 (Database.processed_episodes (db w)))
  /\ (forall d op e c,
        Database.is_pending d e c = true ->
        Database.is_pending (apply_write d op) e c = false ->
        op = WriteRemovePending e c).
Proof.
  cbv zeta. unfold world_after, db_mark_processed. unfold_script.
  unfold Database.mark_processed, Database.is_pending.
  cbn [Database.pending_episodes Database.pending_seq
       Database.processed_episodes].
  repeat (split; [reflexivity|]).
  split; [|split].
  - rewrite filter_app. cbn [filter]. rewrite processed_key_row, key_refl.
    rewrite filter_filter_same by auto. reflexivity.
  - intros e c Hne. rewrite filter_app. cbn [filter].
    rewrite processed_key_row, (key_other _ _ _ _ Hne).
    rewrite filter_filter_other
      by (intros r; apply processed_key_other; exact Hne).
    apply app_nil_r.
  - apply pending_survives_write.
Qed.

Lemma mark_processed_frames_pending_witness :
  WriteRemovePending "ep1" "chan" = WriteRemovePending "ep1" "chan".
Proof.
  pose proof (mark_processed_frames_pending env_all_ok "ep1" "chan" "Title One"
                "" "failed" (world_of db_pending)) as H.
  cbv zeta in H. destruct H as [_ [_ [_ [_ [_ H]]]]].
  apply (H db_pending (WriteRemovePending "ep1" "chan") "ep1" "chan");
    reflexivity.
Defined.

(** ** query.py: one pending job *)

(** [save_output] writes files only: the store and the log are as before,
    and it neither polls nor deletes a remote job. *)
Lemma save_output_frame env pending segments w :
  let w' := world_after (save_output env pending segments) w in
  db w' = db w
  /\ log w' = log w
  /\ exists new, calls w' = (calls w ++ new)%list /\ forallb quiet_call new = true.
Proof.
  cbv zeta. unfold save_output. unfold_script.
  split_path; tidy_lists;
    (split; [reflexivity|split; [reflexivity|]]);
    first [ eexists; split; [reflexivity|reflexivity]
          | exists []; split; [symmetry; apply app_nil_r|reflexivity] ].
Qed.

Ltac use_save_output_frame :=
  match goal with
  | E : save_output ?env ?p ?s ?w = (_, ?w') |- _ =>
      let F := fresh "F" in
      let Fdb := fresh "Fdb" in
      let Flog := fresh "Flog" in
      let Fcalls := fresh "Fcalls" in
      let Fquiet := fresh "Fquiet" in
      let new := fresh "written" in
      pose proof (save_output_frame env p s w) as F;
      cbv zeta in F; unfold world_after in F; rewrite E in F;
      cbn [fst snd db calls clock log] in F;
      destruct F as (Fdb & Flog & new & Fcalls & Fquiet)
  end.

(** Runs the body of the loop of [main] along every path. *)
Ltac run_check_pending :=
  unfold check_pending, check_pending_try; unfold_script;
  split_path; try use_save_output_frame.



Lemma quiet_no_status (l : list Call) :
  forallb quiet_call l = true -> existsb is_status l = false.
Proof.
  induction l as [|c l IH]; simpl; [reflexivity|].
  intros H. apply andb_true_iff in H as [Hc Hl]. rewrite (IH Hl).
  unfold quiet_call in Hc. apply andb_true_iff in Hc as [Hc _].
  apply negb_true_iff in Hc. now rewrite Hc.
Qed.

Ltac normalize_lists :=
  rewrite <- ?app_assoc in *; cbn [app] in *.



(** The delete call comes after the two writes: when it raises, the pass
    ends in the handler with the job already resolved in the store. *)
Example delete_raises_after_the_writes :
  let env := sample_env (Ok "job-1") (Ok (status_json "Failed"))
               (Ok sample_segments) (Raise (RequestException "timeout"))
               (Ok tt) in
  let w' := world_after (check_pending env sample_pending (Counts.mk 0 0 0))
              (world_of db_pending) in
  Database.is_pending (db w') "ep1" "chan" = false
  /\ map ProcessedEpisode.status (Database.processed_episodes (db w'))
     = ["failed"]
  /\ log w' = [LogChecking "chan" "Title One"; LogJobFailed (JStr "Unknown");
               LogError (RequestException "timeout")].
Proof. cbv zeta. repeat split. Qed.

(** What a pass over one pending job does, whatever the environment
    answers: it returns, with the counters told by the records it logged;
    it polls the job once; and it leaves the store as it was or with the
    job resolved. A pass that logs an error logs neither completion nor
    still running, so it is counted as failed. *)
Lemma check_pending_outcome env pending n w :
  exists n' w' new rest,
    check_pending env pending n w = (Ok n', w')
    /\ log w' = (log w ++ checking pending :: new)%list
    /\ calls w'
       = (calls w ++ CallStatus (PendingEpisode.transcription_id pending)
                     :: rest)%list
    /\ existsb is_status rest = false
    /\ n' = tally n new 1
    /\ (count_log is_log_error new + count_log is_log_completed new
        + count_log is_log_still_running new <= 1)%Z
    /\ (db w' = db w \/ resolved (db w) pending (db w')).
Proof.
  unfold checking, resolved.
  run_check_pending; rewrite ?Fdb, ?Flog, ?Fcalls; normalize_lists.
  all: do 4 eexists.
  all: split; [reflexivity|]; cbn [db calls clock log].
  all: split; [reflexivity|].
  all: split; [reflexivity|].
  all: split; [cbn [existsb is_status orb];
               first [reflexivity
                     | rewrite existsb_app; cbn [existsb is_status orb];
                       rewrite (quiet_no_status _ Fquiet); reflexivity
                     | apply quiet_no_status; exact Fquiet]|].
  all: split; [unfold tally, count_log;
               cbn [filter is_log_completed is_log_still_running List.length];
               f_equal; lia|].
  all: split; [unfold count_log;
               cbn [filter is_log_completed is_log_still_running is_log_error
                    List.length]; lia|].
  all: first [left; reflexivity | right; do 3 eexists; reflexivity].
Qed.

(** ** The loops *)

(** A loop whose body returns and moves the store by transitions does the
    same. *)
Lemma for_each_transitions {A S : Type} (body : A -> S -> M S) (l : list A) :
  (forall x acc w,
     exists acc' w', body x acc w = (Ok acc', w')
                     /\ transitions (db w) (db w')) ->
  forall acc w,
    exists acc' w', for_each l body acc w = (Ok acc', w')
                    /\ transitions (db w) (db w').
Proof.
  intros Hbody. induction l as [|x l IH]; intros acc w; simpl.
  - exists acc, w. split; [reflexivity|apply transitions_refl].
  - destruct (Hbody x acc w) as [acc1 [w1 [E1 T1]]].
    destruct (IH acc1 w1) as [acc2 [w2 [E2 T2]]].
    exists acc2, w2. unfold bind. rewrite E1. split; [exact E2|].
    eapply transitions_trans; eauto.
Qed.

Lemma config_episode_effect env channel episode counts w :
  exists counts' w',
    process_config_file_episode env channel episode counts w = (Ok counts', w')
    /\ transitions (db w) (db w').
Proof.
  destruct counts as [submitted skipped].
  rewrite process_config_file_episode_run. cbv zeta.
  destruct (Database.is_processed (db w) (Episode.id episode)
              (ChannelConfig.name channel)) eqn:P;
    [do 2 eexists; split; [reflexivity|apply transitions_refl]|].
  destruct (Database.is_pending (db w) (Episode.id episode)
              (ChannelConfig.name channel)) eqn:Q;
    [do 2 eexists; split; [reflexivity|apply transitions_refl]|].
  destruct (env_submit env (calls w) (Episode.audio_url episode)
              (ChannelConfig.language channel)) as [tid|e];
    do 2 eexists; (split; [reflexivity|]); cbn [db].
  - apply transitions_one, transition_submit; assumption.
  - apply transitions_refl.
Qed.

(** The episode loop of [process_config_file] does not raise. *)
Lemma episode_loop_returns env channel episodes counts w :
  exists counts' w',
    for_each episodes (process_config_file_episode env channel) counts w
    = (Ok counts', w')
    /\ transitions (db w) (db w').
Proof.
  apply for_each_transitions. intros. apply config_episode_effect.
Qed.

Lemma config_channel_effect env channel counts w :
  exists counts' w',
    process_config_file_channel env channel counts w = (Ok counts', w')
    /\ transitions (db w) (db w').
Proof.
  unfold process_config_file_channel. unfold_script.
  destruct (env_parse_feed env (calls w) (ChannelConfig.url channel)
              (ChannelConfig.max_episodes channel)) as [episodes|e].
  - match goal with
    | |- context [for_each episodes ?body counts ?w0] =>
        destruct (episode_loop_returns env channel episodes counts w0)
          as [counts' [w' [E T]]]
    end.
    rewrite E. exists counts', w'. split; [reflexivity|exact T].
  - do 2 eexists. split; [reflexivity|apply transitions_refl].
Qed.

Lemma config_file_effect env channels w :
  transitions (db w) (db (world_after (process_config_file env channels) w)).
Proof.
  unfold world_after, process_config_file. unfold_script.
  match goal with
  | |- context [for_each channels ?body ?acc ?w0] =>
      destruct (for_each_transitions body channels
                  (config_channel_effect env) acc w0) as [counts' [w' [E T]]]
  end.
  rewrite E. exact T.
Qed.

Lemma single_rss_effect env url channel_name language w :
  transitions (db w)
    (db (world_after (process_single_rss env url channel_name language) w)).
Proof.
  unfold world_after, process_single_rss. unfold_script.
  destruct (env_parse_feed env (calls w) url 1) as [[|episode rest]|e];
    cbn [snd db]; try apply transitions_refl.
  rewrite process_single_rss_episode_run. cbn [db calls clock log].
  destruct (Database.is_processed (db w) (Episode.id episode) channel_name)
    eqn:P; [apply transitions_refl|].
  destruct (Database.is_pending (db w) (Episode.id episode) channel_name)
    eqn:Q; [apply transitions_refl|].
  destruct (env_submit _ _ _ _) as [tid|e]; cbn [snd db];
    [|apply transitions_refl].
  apply transitions_one, transition_submit; assumption.
Qed.

Lemma check_pending_effect env pending n w :
  exists n' w', check_pending env pending n w = (Ok n', w')
                /\ transitions (db w) (db w').
Proof.
  destruct (check_pending_outcome env pending n w)
    as (n' & w' & new & rest & E & _ & _ & _ & _ & _ & Hdb).
  exists n', w'. split; [exact E|].
  destruct Hdb as [->|(path & status & now & ->)];
    [apply transitions_refl|].
  apply transitions_one, transition_resolve.
Qed.

Lemma main_effect env channel list_only w :
  transitions (db w) (db (world_after (main env channel list_only) w)).
Proof.
  unfold world_after, main. unfold_script.
  destruct (Database.get_pending (db w) channel) as [|p l] eqn:G;
    [apply transitions_refl|].
  destruct list_only.
  - match goal with
    | |- context [for_each (p :: l) ?body ?acc ?w0] =>
        assert (L : forall l' w1, exists w2,
                      for_each l' body tt w1 = (Ok tt, w2) /\ db w2 = db w1)
    end.
    { induction l' as [|x l' IH]; intros w1; simpl.
      - exists w1. auto.
      - unfold_script.
        match goal with
        | |- context [for_each l' _ tt ?w3] =>
            destruct (IH w3) as [w2 [E D]]
        end.
        exists w2. split; [exact E|exact D]. }
    match goal with
    | |- context [for_each (p :: l) ?body tt ?w0] =>
        destruct (L (p :: l) w0) as [w2 [E D]]
    end.
    rewrite E. cbn [snd]. rewrite D. cbn [db]. apply transitions_refl.
  - match goal with
    | |- context [for_each (p :: l) ?body ?acc ?w0] =>
        destruct (for_each_transitions body (p :: l)
                    (check_pending_effect env) acc w0) as [n' [w' [E T]]]
    end.
    rewrite E. cbn [snd db]. exact T.
Qed.

(** ** The invariant of the store *)

Lemma exclusive_empty : exclusive Database.empty.
Proof. intros e c. reflexivity. Qed.

Lemma reachable_transitions d : reachable d -> transitions Database.empty d.
Proof.
  induction 1 as [|env url ch lang w _ IH|env channels w _ IH
                 |env channel list_only w _ IH].
  - apply transitions_refl.
  - eapply transitions_trans; [exact IH|apply single_rss_effect].
  - eapply transitions_trans; [exact IH|apply config_file_effect].
  - eapply transitions_trans; [exact IH|apply main_effect].
Qed.

Lemma reachable_invariant d : reachable d -> exclusive d /\ unique_keys d.
Proof.
  intros R. apply (transitions_invariant Database.empty d).
  - apply reachable_transitions, R.
  - split; [apply exclusive_empty|apply unique_keys_empty].
Qed.

Example db_after_poll_rows :
  map ProcessedEpisode.status (Database.processed_episodes db_after_poll)
  = ["success"]
  /\ Database.pending_episodes db_after_poll = [].
Proof. split; reflexivity. Qed.

(** C3. In every store the scripts can leave behind, starting from the
    empty store, no identity is both pending and processed with status
    success (and each table has at most one row per identity). A pass of
    [main] over a pending job keeps this, from any store: it leaves the
    store as it was, or resolves the job, and then the identity of the job
    is not pending. *)
Theorem pending_processed_exclusive :
  (forall d, reachable d -> exclusive d /\ unique_keys d)
  /\ (forall env pending n w,
        let w' := world_after (check_pending env pending n) w in
        (exclusive (db w) -> exclusive (db w'))
        /\ (db w' = db w
            \/ (resolved (db w) pending (db w')
                /\ Database.is_pending (db w')
                     (PendingEpisode.episode_id pending)
                     (PendingEpisode.channel pending) = false))).
Proof.
  split; [exact reachable_invariant|].
  intros env pending n w. cbv zeta. unfold world_after.
  destruct (check_pending_outcome env pending n w)
    as (n' & w' & new & rest & E & _ & _ & _ & _ & _ & Hdb).
  rewrite E. cbn [snd]. split.
  - intros X. destruct Hdb as [->|(path & status & now & ->)]; [exact X|].
    eapply transition_exclusive; [apply transition_resolve|exact X].
  - destruct Hdb as [Hdb|Hres]; [now left|right].
    split; [exact Hres|].
    destruct Hres as (path & status & now & ->).
    apply is_pending_remove_same.
Qed.

Lemma pending_processed_exclusive_witness :
  Database.is_pending db_after_poll "ep1" "chan"
  && Database.is_processed db_after_poll "ep1" "chan" = false.
Proof.
  destruct pending_processed_exclusive as [H _].
  assert (R : reachable db_after_poll).
  { unfold db_after_poll.
    apply reachable_query.
    apply (reachable_single_rss env_with_feed "http://feed" "chan" "auto"
             (world_of Database.empty)).
    apply reachable_init. }
  destruct (H db_after_poll R) as [X _]. apply X.
Defined.

(** ** query.py: the batch *)

Lemma count_log_app p (a b : list LogRecord) :
  count_log p (a ++ b) = (count_log p a + count_log p b)%Z.
Proof. unfold count_log. rewrite filter_app, length_app. lia. Qed.








(** * More properties of the code *)

(** ** utils.py: [sanitize_filename] has fixed points *)

Lemma filter_all {A : Type} (p : A -> bool) (l : list A) :
  forallb p l = true -> filter p l = l.
Proof.
  induction l as [|x l IH]; simpl; [reflexivity|].
  intros H. apply andb_true_iff in H as [Hx Hl]. rewrite Hx, IH; auto.
Qed.

Lemma dropwhile_keep (p : ascii -> bool) (l : list ascii) :
  (forall c t, l = c :: t -> p c = false) -> Py.dropwhile p l = l.
Proof.
  destruct l as [|c t]; intros H; simpl; [reflexivity|].
  now rewrite (H c t eq_refl).
Qed.

(** Nothing is stripped from a list whose first and last element are not
    of the set. *)
Lemma strip_chars_keep (p : ascii -> bool) (l : list ascii) :
  (forall c t, l = c :: t -> p c = false /\ p (last l c) = false) ->
  Py.strip_chars p l = l.
Proof.
  intros H. unfold Py.strip_chars, Py.lstrip_chars, Py.rstrip_chars.
  rewrite (dropwhile_keep p (rev l)).
  - rewrite rev_involutive. apply dropwhile_keep.
    intros c t E. apply (H c t E).
  - intros c t E.
    assert (El : l = (rev t ++ [c])%list).
    { rewrite <- (rev_involutive l), E. reflexivity. }
    destruct l as [|x l']; [destruct (rev t); discriminate|].
    destruct (H x l' eq_refl) as [_ Hlast].
    rewrite El, last_last in Hlast. exact Hlast.
Qed.

(** A name is safe when the sanitizer has nothing to do. *)
Lemma sanitize_filename_keeps (l : list ascii) :
  l <> [] ->
  (forall c, In c l -> illegal_char c = false /\ control_char c = false) ->
  (List.length l <= 200)%nat ->
  (forall c t, l = c :: t ->
     Py.char_in " ." c = false /\ Py.char_in " ." (last l c) = false) ->
  sanitize_filename (Py.str l) = Py.str l.
Proof.
  intros Hne Hsafe Hlen Hends.
  unfold sanitize_filename, Py.re_sub_class, Py.len, Py.slice_to, Py.strip.
  rewrite !chars_str.
  rewrite (filter_all (fun c => negb (illegal_char c)) l)
    by (apply forallb_forall; intros c Hc; destruct (Hsafe c Hc) as [-> _];
        reflexivity).
  rewrite ?chars_str.
  rewrite (filter_all (fun c => negb (control_char c)) l)
    by (apply forallb_forall; intros c Hc; destruct (Hsafe c Hc) as [_ ->];
        reflexivity).
  rewrite ?chars_str.
  replace (200 <? List.length l)%nat with false
    by (symmetry; apply Nat.ltb_ge; exact Hlen).
  rewrite ?chars_str, (strip_chars_keep _ l Hends).
  destruct l as [|c t]; [congruence|reflexivity].
Qed.

(** The output of the sanitizer is the placeholder or a safe name. *)
Lemma sanitize_filename_cases (name : string) :
  sanitize_filename name = "untitled"
  \/ exists l,
       sanitize_filename name = Py.str l
       /\ l <> []
       /\ (forall c, In c l -> illegal_char c = false /\ control_char c = false)
       /\ (List.length l <= 200)%nat
       /\ (forall c t, l = c :: t ->
             Py.char_in " ." c = false /\ Py.char_in " ." (last l c) = false).
Proof.
  destruct (sanitize_unfold name) as [l [Hsafe [Hlen [_ E]]]].
  cbv zeta in E. rewrite E.
  destruct (Py.truthy (Py.str (Py.strip_chars (Py.char_in " .") l))) eqn:T;
    [right|now left].
  exists (Py.strip_chars (Py.char_in " .") l).
  split; [reflexivity|]. split; [|split; [|split]].
  - apply truthy_chars in T. now rewrite chars_str in T.
  - intros c Hc. apply Hsafe. eapply strip_incl; eauto.
  - etransitivity; [apply strip_length|exact Hlen].
  - intros c t Hl. split.
    + eapply strip_head; eauto.
    + eapply strip_last; eauto.
Qed.

(** X1. Sanitizing twice is sanitizing once; and a name that has none of
    the illegal or control characters, at most 200 characters, and neither
    a space nor a dot at either end is returned as it is. *)
Theorem sanitize_filename_idempotent (name : string) :
  sanitize_filename (sanitize_filename name) = sanitize_filename name
  /\ (Py.chars name <> [] ->
      (forall c, In c (Py.chars name) ->
                 illegal_char c = false /\ control_char c = false) ->
      (Py.len name <= 200)%nat ->
      (forall c t, Py.chars name = c :: t ->
         Py.char_in " ." c = false
         /\ Py.char_in " ." (last (Py.chars name) c) = false) ->
      sanitize_filename name = name).
Proof.
  split.
  - destruct (sanitize_filename_cases name)
      as [->|[l [-> [Hne [Hsafe [Hlen Hends]]]]]]; [reflexivity|].
    now apply sanitize_filename_keeps.
  - intros Hne Hsafe Hlen Hends.
    rewrite <- (str_chars name).
    now apply sanitize_filename_keeps.
Qed.

Lemma sanitize_filename_idempotent_witness :
  sanitize_filename "Episode 12 - Pilot" = "Episode 12 - Pilot".
Proof.
  apply (sanitize_filename_idempotent "Episode 12 - Pilot").
  - discriminate.
  - intros c Hc.
    assert (F : forallb (fun c => negb (illegal_char c)
                                  && negb (control_char c))
                  (Py.chars "Episode 12 - Pilot") = true) by reflexivity.
    rewrite forallb_forall in F. specialize (F c Hc).
    apply andb_true_iff in F as [A B].
    now apply negb_true_iff in A, B.
  - cbv. lia.
  - intros c t E. injection E as <- <-. split; reflexivity.
Defined.

(** ** utils.py: [format_duration] *)


Lemma decimal_is_digit (l : list ascii) :
  forallb Py.decimal_char l = true -> forallb Py.isdigit_char l = true.
Proof.
  rewrite !forallb_forall. intros H c Hc. unfold Py.isdigit_char.
  now rewrite (H c Hc).
Qed.



(** ** db.py: inserting, looking up and removing a pending row *)

Lemma filter_negb_none {A : Type} (p : A -> bool) (l : list A) :
  existsb p l = false -> filter (fun r => negb (p r)) l = l.
Proof.
  induction l as [|x l IH]; simpl; [reflexivity|].
  intros H. apply orb_false_iff in H as [Hx Hl]. rewrite Hx. simpl.
  now rewrite IH.
Qed.

Lemma remove_pending_absent d e c :
  Database.is_pending d e c = false -> Database.remove_pending d e c = d.
Proof.
  intros H. unfold Database.remove_pending, Database.is_pending in *.
  rewrite (filter_negb_none _ _ H). now destruct d.
Qed.

(** X3. What [mark_pending] inserts is what the table then holds for the
    identity, one row with a new id, whatever was there before; rows of
    other identities keep their place. [remove_pending] of an identity that
    is not pending changes nothing, doing it twice is doing it once, and
    after [mark_pending] of an identity that was not pending it gives back
    the rows there were. *)
Theorem pending_insert_lookup_remove (d : Database.t)
  (e c title url tid : string) (published : option datetime)
  (duration : option string) (now : datetime) :
  let d' := Database.mark_pending d e c title url tid published duration now in
  filter (Database.pending_key e c) (Database.get_pending d' None)
  = [PendingEpisode.mk (Database.pending_seq d + 1) e c title url tid now
       published duration]
  /\ (forall e' c', (e, c) <> (e', c') ->
        filter (Database.pending_key e' c') (Database.get_pending d' None)
        = filter (Database.pending_key e' c') (Database.get_pending d None))
  /\ Database.remove_pending (Database.remove_pending d e c) e c
     = Database.remove_pending d e c
  /\ (Database.is_pending d e c = false ->
      Database.remove_pending d e c = d
      /\ Database.pending_episodes (Database.remove_pending d' e c)
         = Database.pending_episodes d).
Proof.
  cbv zeta. unfold Database.get_pending, Database.mark_pending.
  cbn [Database.pending_episodes].
  split; [|split; [|split]].
  - rewrite filter_app. cbn [filter]. rewrite pending_key_row, key_refl.
    rewrite filter_filter_same by auto. reflexivity.
  - intros e' c' Hne. rewrite filter_app. cbn [filter].
    rewrite pending_key_row, (key_other _ _ _ _ Hne).
    rewrite filter_filter_other
      by (intros r; apply pending_key_other; exact Hne).
    apply app_nil_r.
  - apply remove_pending_absent, is_pending_remove_same.
  - intros H. split; [now apply remove_pending_absent|].
    unfold Database.remove_pending. cbn [Database.pending_episodes].
    rewrite filter_app. cbn [filter]. rewrite pending_key_row, key_refl.
    cbn [negb]. rewrite app_nil_r.
    unfold Database.is_pending in H.
    now rewrite !(filter_negb_none _ _ H).
Qed.

Lemma pending_insert_lookup_remove_witness :
  Database.remove_pending Database.empty "ep1" "chan" = Database.empty
  /\ Database.pending_episodes (Database.remove_pending db_pending "ep1" "chan")
     = [].
Proof.
  apply (pending_insert_lookup_remove Database.empty "ep1" "chan" "Title One"
           "http://a/1.mp3" "job-1" (Some 5%Z) (Some "3600") 1000%Z).
  reflexivity.
Defined.

(** ** query.py: what [save_output] writes *)

(** The date of the output directory: the day of publication, or the day
    the clock gives when the job has none. *)
Lemma save_output_success env pending segments w path w' :
  save_output env pending segments w = (Ok path, w') ->
  let date :=
    strftime_ymd env (match PendingEpisode.published pending with
                      | Some published => published
                      | None => env_now env (clock w)
                      end) in
  let dir := path_join env (path_join env (OUTPUT_DIR env)
                              (PendingEpisode.channel pending)) date in
  let base := path_join env dir
                (sanitize_filename (PendingEpisode.title pending)) in
  path = base ++ ".md"
  /\ db w' = db w /\ log w' = log w
  /\ exists md json,
       calls w'
       = (calls w ++ [CallMkdir dir; CallWrite (base ++ ".md") (Markdown md);
                      CallWrite (base ++ ".json") (JsonFile json)])%list
       /\ md_body md = segments_to_markdown segments
       /\ jd_transcript json = segments_to_json segments
       /\ md_title md = PendingEpisode.title pending
       /\ jd_title json = PendingEpisode.title pending.
Proof.
  cbv zeta. unfold save_output. unfold_script.
  split_path; intros H; try discriminate;
    injection H as <- <-; cbn [db calls clock log]; normalize_lists;
    (split; [reflexivity|split; [reflexivity|split; [reflexivity|]]]);
    do 2 eexists; (split; [reflexivity|]); repeat split.
Qed.

(** A pass over a pending job by outcome: the store is as it was, or the
    job is resolved as failed without output path, or as success with the
    path of the markdown file. *)
Lemma check_pending_items env pending n w :
  exists n' w',
    check_pending env pending n w = (Ok n', w')
    /\ (db w' = db w
        \/ (exists now,
              db w' = Database.remove_pending
                        (Database.mark_processed (db w)
                           (PendingEpisode.episode_id pending)
                           (PendingEpisode.channel pending)
                           (PendingEpisode.title pending) "" "failed" now)
                        (PendingEpisode.episode_id pending)
                        (PendingEpisode.channel pending))
        \/ (exists base now,
              db w' = Database.remove_pending
                        (Database.mark_processed (db w)
                           (PendingEpisode.episode_id pending)
                           (PendingEpisode.channel pending)
                           (PendingEpisode.title pending) (base ++ ".md")
                           "success" now)
                        (PendingEpisode.episode_id pending)
                        (PendingEpisode.channel pending))).
Proof.
  run_check_pending; rewrite ?Fdb.
  all: do 2 eexists; (split; [reflexivity|]); cbn [db].
  all: try (left; reflexivity).
  all: try (right; left; eexists; reflexivity).
  all: right; right.
  all: match goal with
       | E : save_output _ _ _ _ = (Ok _, _) |- _ =>
           destruct (save_output_success _ _ _ _ _ _ E) as [-> _]
       end.
  all: do 2 eexists; reflexivity.
Qed.

(** ** Loops, by a relation the body keeps *)

Section LoopRelation.
Context {A S : Type}.
Variable R : S -> World -> S -> World -> Prop.
Hypothesis R_refl : forall acc w, R acc w acc w.
Hypothesis R_trans :
  forall a1 w1 a2 w2 a3 w3, R a1 w1 a2 w2 -> R a2 w2 a3 w3 -> R a1 w1 a3 w3.
Variable body : A -> S -> M S.
Variable P : A -> Prop.
Hypothesis body_ok :
  forall x acc w, P x ->
    exists acc' w', body x acc w = (Ok acc', w') /\ R acc w acc' w'.

(** A loop whose body returns and keeps [R] on the elements of the list
    returns and keeps [R]. *)
Lemma for_each_rel (l : list A) :
  Forall P l ->
  forall acc w,
    exists acc' w', for_each l body acc w = (Ok acc', w') /\ R acc w acc' w'.
Proof.
  induction l as [|x l IH]; intros HP acc w; simpl.
  - exists acc, w. split; [reflexivity|apply R_refl].
  - inversion HP as [|? ? Hx Hl]; subst.
    destruct (body_ok x acc w Hx) as [acc1 [w1 [E1 R1]]].
    destruct (IH Hl acc1 w1) as [acc2 [w2 [E2 R2]]].
    exists acc2, w2. unfold bind. rewrite E1. split; [exact E2|].
    eapply R_trans; eauto.
Qed.

End LoopRelation.

Lemma Forall_True {A : Type} (l : list A) : Forall (fun _ => True) l.
Proof. induction l; constructor; auto. Qed.

(** ** The store by item steps *)

Lemma item_steps_trans d1 d2 d3 :
  item_steps d1 d2 -> item_steps d2 d3 -> item_steps d1 d3.
Proof.
  intros T12 T23. induction T23 as [d|d2 d3 d4 T23 IH T34]; [exact T12|].
  eapply item_steps_step; [apply IH, T12|exact T34].
Qed.

Lemma item_steps_one d d' : item_step d d' -> item_steps d d'.
Proof. intros T. eapply item_steps_step; [apply item_steps_refl|exact T]. Qed.

Lemma check_pending_item_steps env pending n w :
  exists n' w', check_pending env pending n w = (Ok n', w')
                /\ item_steps (db w) (db w').
Proof.
  destruct (check_pending_items env pending n w)
    as (n' & w' & E & [H|[(now & H)|(base & now & H)]]);
    exists n', w'; (split; [exact E|]); rewrite H.
  - apply item_steps_refl.
  - apply item_steps_one, item_failed.
  - apply item_steps_one, item_success.
Qed.

Lemma config_episode_item_steps env channel episode counts w :
  exists counts' w',
    process_config_file_episode env channel episode counts w = (Ok counts', w')
    /\ item_steps (db w) (db w').
Proof.
  destruct counts as [submitted skipped].
  rewrite process_config_file_episode_run. cbv zeta.
  destruct (Database.is_processed (db w) (Episode.id episode)
              (ChannelConfig.name channel)) eqn:P;
    [do 2 eexists; split; [reflexivity|apply item_steps_refl]|].
  destruct (Database.is_pending (db w) (Episode.id episode)
              (ChannelConfig.name channel)) eqn:Q;
    [do 2 eexists; split; [reflexivity|apply item_steps_refl]|].
  destruct (env_submit env (calls w) (Episode.audio_url episode)
              (ChannelConfig.language channel)) as [tid|e];
    do 2 eexists; (split; [reflexivity|]); cbn [db].
  - apply item_steps_one, item_submit; assumption.
  - apply item_steps_refl.
Qed.

(** Runs the loop of the goal by a relation its body keeps: the first
    goal is the body, the second the rest with the loop run. *)
Ltac loop_by R Rrefl Rtrans :=
  match goal with
  | |- context [for_each ?l ?body ?acc ?w0] =>
      let L := fresh "L" in
      assert (L : exists acc' w',
                 for_each l body acc w0 = (Ok acc', w') /\ R acc w0 acc' w');
      [ apply (for_each_rel R Rrefl Rtrans body (fun _ => True));
        [ intros ? ? ? _ | apply Forall_True ]
      | let acc' := fresh "acc" in
        let w' := fresh "w" in
        let E := fresh "E" in
        let T := fresh "T" in
        destruct L as (acc' & w' & E & T); rewrite E;
        cbn [fst snd db calls clock log] ]
  end.

Lemma by_item_steps_refl {S : Type} (acc : S) (w : World) :
  by_item_steps acc w acc w.
Proof. apply item_steps_refl. Qed.

Lemma by_item_steps_trans {S : Type} (a1 : S) w1 (a2 : S) w2 (a3 : S) w3 :
  by_item_steps a1 w1 a2 w2 -> by_item_steps a2 w2 a3 w3 ->
  by_item_steps a1 w1 a3 w3.
Proof. apply item_steps_trans. Qed.

(** Every script moves the store by item steps. *)
Lemma scripts_item_steps :
  (forall env url channel_name language w,
     item_steps (db w)
       (db (world_after (process_single_rss env url channel_name language) w)))
  /\ (forall env channels w,
        item_steps (db w)
          (db (world_after (process_config_file env channels) w)))
  /\ (forall env channel list_only w,
        item_steps (db w)
          (db (world_after (main env channel list_only) w))).
Proof.
  split; [|split].
  - intros env url channel_name language w.
    unfold world_after, process_single_rss. unfold_script.
    destruct (env_parse_feed env (calls w) url 1) as [[|episode rest]|e];
      cbn [snd db]; try apply item_steps_refl.
    rewrite process_single_rss_episode_run. cbn [db calls clock log].
    destruct (Database.is_processed (db w) (Episode.id episode) channel_name)
      eqn:P; [apply item_steps_refl|].
    destruct (Database.is_pending (db w) (Episode.id episode) channel_name)
      eqn:Q; [apply item_steps_refl|].
    destruct (env_submit _ _ _ _) as [tid|e]; cbn [snd db];
      [|apply item_steps_refl].
    apply item_steps_one, item_submit; assumption.
  - intros env channels w.
    unfold world_after, process_config_file. unfold_script.
    loop_by (@by_item_steps (Z * Z)) (@by_item_steps_refl (Z * Z))
            (@by_item_steps_trans (Z * Z)); [|exact T].
    unfold process_config_file_channel. unfold_script.
    destruct (env_parse_feed _ _ _ _) as [episodes|e].
    + loop_by (@by_item_steps (Z * Z)) (@by_item_steps_refl (Z * Z))
              (@by_item_steps_trans (Z * Z)).
      * apply config_episode_item_steps.
      * do 2 eexists. split; [reflexivity|exact T].
    + do 2 eexists. split; [reflexivity|apply item_steps_refl].
  - intros env channel list_only w.
    unfold world_after, main. unfold_script.
    destruct (Database.get_pending (db w) channel) as [|p l] eqn:G;
      [apply item_steps_refl|].
    destruct list_only.
    + loop_by (@by_item_steps unit) (@by_item_steps_refl unit)
              (@by_item_steps_trans unit); [|exact T].
      do 2 eexists. split; [reflexivity|apply item_steps_refl].
    + loop_by (@by_item_steps Counts.t) (@by_item_steps_refl Counts.t)
              (@by_item_steps_trans Counts.t); [|exact T].
      apply check_pending_item_steps.
Qed.

Lemma reachable_item_steps d : reachable d -> item_steps Database.empty d.
Proof.
  destruct scripts_item_steps as [S1 [S2 S3]].
  induction 1 as [|env url ch lang w _ IH|env channels w _ IH
                 |env channel list_only w _ IH].
  - apply item_steps_refl.
  - eapply item_steps_trans; [exact IH|apply S1].
  - eapply item_steps_trans; [exact IH|apply S2].
  - eapply item_steps_trans; [exact IH|apply S3].
Qed.

(** ** db.py: the ids AUTOINCREMENT gives *)

Lemma ids_between_weaken lo lo' hi ids :
  (lo' <= lo)%Z -> ids_between lo hi ids -> ids_between lo' hi ids.
Proof. destruct ids as [|i rest]; simpl; intros H B; [lia|]. split; [lia|apply B]. Qed.

Lemma ids_between_bounds lo hi ids :
  ids_between lo hi ids -> (lo <= hi)%Z /\ Forall (fun i => (lo < i <= hi)%Z) ids.
Proof.
  revert lo. induction ids as [|i rest IH]; simpl; intros lo B.
  - split; [exact B|constructor].
  - destruct B as [Hi B]. destruct (IH i B) as [Hle HF].
    split; [lia|]. constructor; [lia|].
    eapply Forall_impl; [|exact HF]. simpl. intros. lia.
Qed.

Lemma ids_between_filter {A : Type} (f : A -> Z) (p : A -> bool) lo hi l :
  ids_between lo hi (map f l) -> ids_between lo hi (map f (filter p l)).
Proof.
  revert lo. induction l as [|x l IH]; simpl; intros lo B; [exact B|].
  destruct B as [Hx B]. destruct (p x); simpl.
  - split; [exact Hx|apply IH, B].
  - apply IH. eapply ids_between_weaken; [|exact B]. lia.
Qed.

Lemma ids_between_snoc lo hi ids :
  ids_between lo hi ids -> ids_between lo (hi + 1) (ids ++ [(hi + 1)%Z]).
Proof.
  revert lo. induction ids as [|i rest IH]; simpl; intros lo B.
  - split; lia.
  - destruct B as [Hi B]. split; [exact Hi|apply IH, B].
Qed.

Lemma ids_between_nodup lo hi ids : ids_between lo hi ids -> NoDup ids.
Proof.
  revert lo. induction ids as [|i rest IH]; simpl; intros lo B; constructor.
  - destruct B as [_ B]. apply ids_between_bounds in B as [_ HF].
    intros Hin. rewrite Forall_forall in HF. specialize (HF i Hin). lia.
  - destruct B as [_ B]. eapply IH, B.
Qed.

Lemma ids_ok_write (d : Database.t) (op : DbWrite) :
  ids_ok d -> ids_ok (apply_write d op).
Proof.
  intros [Hp Hq].
  destruct op as [e c title path status now
                 |e c title url tid published duration now
                 |e c]; unfold ids_ok; cbn.
  - split; [exact Hp|]. rewrite map_app. cbn [map ProcessedEpisode.id].
    apply ids_between_snoc, ids_between_filter, Hq.
  - split; [|exact Hq]. rewrite map_app. cbn [map PendingEpisode.id].
    apply ids_between_snoc, ids_between_filter, Hp.
  - split; [|exact Hq]. apply ids_between_filter, Hp.
Qed.

Lemma item_step_as_writes d d' :
  item_step d d' ->
  exists ops, d' = fold_left apply_write ops d.
Proof.
  intros [d0 e c title url tid published duration now _ _
         |d0 e c title now|d0 e c title base now].
  - exists [WriteMarkPending e c title url tid published duration now].
    reflexivity.
  - exists [WriteMarkProcessed e c title "" "failed" now;
            WriteRemovePending e c].
    reflexivity.
  - exists [WriteMarkProcessed e c title (base ++ ".md") "success" now;
            WriteRemovePending e c].
    reflexivity.
Qed.

Lemma ids_ok_writes (ops : list DbWrite) (d : Database.t) :
  ids_ok d -> ids_ok (fold_left apply_write ops d).
Proof.
  revert d. induction ops as [|op ops IH]; intros d H; simpl; [exact H|].
  apply IH, ids_ok_write, H.
Qed.

Lemma item_steps_ids_ok d d' : item_steps d d' -> ids_ok d -> ids_ok d'.
Proof.
  induction 1 as [|d1 d2 d3 _ IH T]; intros H; [exact H|].
  destruct (item_step_as_writes _ _ T) as [ops ->].
  apply ids_ok_writes, IH, H.
Qed.

(** X4. In every store the scripts can leave behind, the ids of each table
    increase strictly in table order and lie between 1 and the sequence of
    the table; so no two rows of a table share an id, and the id the next
    insert gets, the sequence plus one, is in no row. A write keeps this
    from any store that has it. *)
Theorem autoincrement_ids_fresh (d : Database.t) :
  (reachable d ->
   ids_ok d
   /\ NoDup (map PendingEpisode.id (Database.pending_episodes d))
   /\ NoDup (map ProcessedEpisode.id (Database.processed_episodes d))
   /\ (forall r, In r (Database.pending_episodes d) ->
                 (0 < PendingEpisode.id r <= Database.pending_seq d)%Z)
   /\ (forall r, In r (Database.processed_episodes d) ->
                 (0 < ProcessedEpisode.id r <= Database.processed_seq d)%Z))
  /\ (forall op, ids_ok d -> ids_ok (apply_write d op)).
Proof.
  split; [|intros op; apply ids_ok_write].
  intros R.
  assert (I : ids_ok d).
  { apply (item_steps_ids_ok Database.empty d).
    - apply reachable_item_steps, R.
    - split; cbn; lia. }
  split; [exact I|]. destruct I as [Hp Hq].
  split; [eapply ids_between_nodup; eauto|].
  split; [eapply ids_between_nodup; eauto|].
  apply ids_between_bounds in Hp as [_ Fp].
  apply ids_between_bounds in Hq as [_ Fq].
  rewrite Forall_forall in Fp, Fq.
  split; intros r Hr; [apply Fp|apply Fq]; apply in_map; exact Hr.
Qed.

Lemma autoincrement_ids_fresh_witness :
  NoDup (map ProcessedEpisode.id (Database.processed_episodes db_after_poll)).
Proof.
  destruct (autoincrement_ids_fresh db_after_poll) as [H _].
  assert (R : reachable db_after_poll).
  { unfold db_after_poll. apply reachable_query.
    apply (reachable_single_rss env_with_feed "http://feed" "chan" "auto"
             (world_of Database.empty)).
    apply reachable_init. }
  destruct (H R) as (_ & _ & N & _). exact N.
Defined.

(** ** db.py: the processed rows and the failed list *)

Lemma item_step_statuses_ok d d' :
  item_step d d' -> statuses_ok d -> statuses_ok d'.
Proof.
  intros T H r.
  destruct T as [d e c title url tid published duration now _ _
                |d e c title now|d e c title base now];
    unfold Database.remove_pending, Database.mark_processed,
      Database.mark_pending; cbn [Database.processed_episodes].
  - apply H.
  - intros Hin. apply in_app_or in Hin as [Hin|[<-|[]]].
    + apply filter_In in Hin as [Hin _]. now apply H.
    + left. split; reflexivity.
  - intros Hin. apply in_app_or in Hin as [Hin|[<-|[]]].
    + apply filter_In in Hin as [Hin _]. now apply H.
    + right. split; [reflexivity|]. exists base. reflexivity.
Qed.

Lemma item_steps_statuses_ok d d' :
  item_steps d d' -> statuses_ok d -> statuses_ok d'.
Proof.
  induction 1 as [|d1 d2 d3 _ IH T]; intros H; [exact H|].
  eapply item_step_statuses_ok; eauto.
Qed.

Lemma two_in_filter {A : Type} (p : A -> bool) (l : list A) (x y : A) :
  In x l -> In y l -> x <> y -> p x = true -> p y = true ->
  (2 <= List.length (filter p l))%nat.
Proof.
  intros Hx Hy Hne Px Py.
  assert (Fx : In x (filter p l)) by (apply filter_In; auto).
  assert (Fy : In y (filter p l)) by (apply filter_In; auto).
  destruct (filter p l) as [|a [|b rest]].
  - destruct Fx.
  - destruct Fx as [<-|[]], Fy as [<-|[]]. congruence.
  - simpl. lia.
Qed.

Lemma failed_row_not_processed d r :
  unique_keys d ->
  In r (Database.processed_episodes d) ->
  ProcessedEpisode.status r = "failed" ->
  Database.is_processed d (ProcessedEpisode.episode_id r)
    (ProcessedEpisode.channel r) = false.
Proof.
  intros U Hin Hst.
  destruct (Database.is_processed d _ _) eqn:P; [|reflexivity].
  unfold Database.is_processed in P.
  apply existsb_exists in P as [r' [Hin' Hr']].
  apply andb_true_iff in Hr' as [K' S']. apply String.eqb_eq in S'.
  assert (K : Database.processed_key (ProcessedEpisode.episode_id r)
                (ProcessedEpisode.channel r) r = true)
    by (unfold Database.processed_key; now rewrite !String.eqb_refl).
  assert (Hne : r <> r') by (intros ->; congruence).
  pose proof (two_in_filter _ _ r r' Hin Hin' Hne K K') as H2.
  destruct (U (ProcessedEpisode.episode_id r) (ProcessedEpisode.channel r))
    as [_ Uq].
  unfold count_processed in Uq. lia.
Qed.

(** X5. In every store the scripts can leave behind, a processed row is a
    failure with an empty output path or a success with the path of a
    markdown file. The rows [get_failed_episodes] returns are the failures
    (of the channel, when one is given): their identities pass the dedup
    check of the processed table, and every other processed row is found by
    [is_processed]. *)
Theorem processed_rows_well_formed (d : Database.t) :
  reachable d ->
  statuses_ok d
  /\ (forall channel r,
        In r (Database.get_failed_episodes d channel) ->
        In r (Database.processed_episodes d)
        /\ ProcessedEpisode.status r = "failed"
        /\ ProcessedEpisode.output_path r = ""
        /\ Database.is_processed d (ProcessedEpisode.episode_id r)
             (ProcessedEpisode.channel r) = false)
  /\ (forall r,
        In r (Database.processed_episodes d) ->
        In r (Database.get_failed_episodes d None)
        \/ Database.is_processed d (ProcessedEpisode.episode_id r)
             (ProcessedEpisode.channel r) = true)
  /\ (forall c r,
        Py.truthy c = true ->
        (In r (Database.get_failed_episodes d (Some c))
         <-> In r (Database.get_failed_episodes d None)
             /\ ProcessedEpisode.channel r = c)).
Proof.
  intros R.
  assert (W : statuses_ok d).
  { apply (item_steps_statuses_ok Database.empty d).
    - apply reachable_item_steps, R.
    - intros r []. }
  destruct (reachable_invariant d R) as [_ U].
  split; [exact W|]. split; [|split].
  - intros channel r Hin.
    assert (H : In r (Database.processed_episodes d)
                /\ ProcessedEpisode.status r = "failed").
    { unfold Database.get_failed_episodes in Hin.
      destruct channel as [c|]; [destruct (Py.truthy c)|];
        apply filter_In in Hin as [Hin Hf];
        try (apply andb_true_iff in Hf as [Hf _]);
        apply String.eqb_eq in Hf; auto. }
    destruct H as [Hr Hst]. split; [exact Hr|]. split; [exact Hst|]. split.
    + destruct (W r Hr) as [[_ Hp]|[Hs _]]; [exact Hp|congruence].
    + now apply failed_row_not_processed.
  - intros r Hr. destruct (W r Hr) as [[Hst _]|[Hst _]].
    + left. unfold Database.get_failed_episodes. apply filter_In.
      split; [exact Hr|]. now apply String.eqb_eq.
    + right. unfold Database.is_processed. apply existsb_exists.
      exists r. split; [exact Hr|].
      unfold Database.processed_key. rewrite Hst, !String.eqb_refl.
      reflexivity.
  - intros c r T. unfold Database.get_failed_episodes. rewrite T.
    rewrite !filter_In, andb_true_iff, !String.eqb_eq. tauto.
Qed.

Lemma processed_rows_well_formed_witness :
  let r := ProcessedEpisode.mk 1%Z "ep1" "chan" "Title One" 1000%Z "failed" ""
  in
  In r (Database.get_failed_episodes db_after_poll (Some "chan"))
  <-> In r (Database.get_failed_episodes db_after_poll None)
      /\ ProcessedEpisode.channel r = "chan".
Proof.
  assert (R : reachable db_after_poll).
  { unfold db_after_poll. apply reachable_query.
    apply (reachable_single_rss env_with_feed "http://feed" "chan" "auto"
             (world_of Database.empty)).
    apply reachable_init. }
  destruct (processed_rows_well_formed db_after_poll R) as (_ & _ & _ & H).
  apply (H "chan"). reflexivity.
Defined.

(** ** db.py: [get_stats] *)

Lemma dict_get_set_same {V : Type} (k : string) (v : V) d :
  Dict.get k (Dict.set k v d) = Some v.
Proof.
  induction d as [|[k' v'] d IH]; simpl.
  - now rewrite String.eqb_refl.
  - destruct (String.eqb k' k) eqn:E; simpl; rewrite E; auto.
Qed.

Lemma dict_get_set_other {V : Type} (k k' : string) (v : V) d :
  k <> k' -> Dict.get k' (Dict.set k v d) = Dict.get k' d.
Proof.
  intros Hne. induction d as [|[k0 v0] d IH]; simpl.
  - destruct (String.eqb_spec k k'); [contradiction|reflexivity].
  - destruct (String.eqb_spec k0 k) as [->|Hk]; simpl.
    + destruct (String.eqb_spec k k'); [contradiction|reflexivity].
    + destruct (String.eqb k0 k'); [reflexivity|exact IH].
Qed.

Section Stats.
Variable rows : list ProcessedEpisode.t.

Lemma stats_invariant (L : list (string * string)) :
  (forall k, In k L -> snd k = "success" \/ snd k = "failed") ->
  forall c,
    Dict.get c (stats_after rows L)
    = if existsb (fun k => String.eqb (fst k) c) L
      then Some [("success", group_value rows L c "success");
                 ("failed", group_value rows L c "failed")]
      else None.
Proof.
  induction L as [|[c0 st0] L IH] using rev_ind; intros Hst c;
    [reflexivity|].
  assert (HL : forall k, In k L -> snd k = "success" \/ snd k = "failed")
    by (intros k Hk; apply Hst, in_or_app; now left).
  specialize (IH HL).
  unfold stats_after. rewrite map_app, fold_left_app. fold (stats_after rows L).
  cbn [map fold_left]. unfold Database.add_status_count.
  rewrite existsb_app. cbn [existsb fst]. rewrite orb_false_r.
  assert (Hval : forall c' st', (c', st') <> (c0, st0) ->
                   group_value rows (L ++ [(c0, st0)]) c' st' = group_value rows L c' st').
  { intros c' st' Hne. unfold group_value.
    destruct (in_dec _ (c', st') (L ++ [(c0, st0)])) as [i|n],
             (in_dec _ (c', st') L) as [i'|n']; try reflexivity.
    - apply in_app_or in i as [i|[i|[]]]; [contradiction|congruence].
    - exfalso. apply n, in_or_app. now left. }
  assert (Hnew : group_value rows (L ++ [(c0, st0)]) c0 st0 = group_count rows (c0, st0)).
  { unfold group_value. destruct (in_dec _ (c0, st0) (L ++ [(c0, st0)])) as [i|n];
      [reflexivity|].
    exfalso. apply n, in_or_app. right. now left. }
  destruct (String.eqb_spec c0 c) as [<-|Hc].
  - rewrite orb_true_r.
    pose proof (IH c0) as I0.
    assert (Hs : st0 = "success" \/ st0 = "failed")
      by (apply (Hst (c0, st0)), in_or_app; right; now left).
    destruct (existsb (fun k => String.eqb (fst k) c0) L) eqn:Ex.
    + rewrite I0. rewrite I0. rewrite dict_get_set_same. f_equal.
      destruct Hs as [-> | ->]; cbn [Dict.set String.eqb Ascii.eqb Bool.eqb];
        rewrite Hnew; rewrite Hval by congruence; reflexivity.
    + rewrite I0. rewrite dict_get_set_same, dict_get_set_same. f_equal.
      assert (Z0 : forall st, group_value rows L c0 st = 0%Z).
      { intros st. unfold group_value.
        destruct (in_dec _ (c0, st) L) as [i|]; [|reflexivity].
        exfalso. assert (Hex : existsb (fun k => String.eqb (fst k) c0) L = true).
        { apply existsb_exists. exists (c0, st). split; [exact i|].
          apply String.eqb_refl. }
        congruence. }
      destruct Hs as [-> | ->]; cbn [Dict.set String.eqb Ascii.eqb Bool.eqb];
        rewrite Hnew; rewrite Hval by congruence; rewrite Z0; reflexivity.
  - rewrite orb_false_r.
    assert (G : Dict.get c
                  match
                    Dict.get c0
                      match Dict.get c0 (stats_after rows L) with
                      | Some _ => stats_after rows L
                      | None =>
                          Dict.set c0 [("success", 0%Z); ("failed", 0%Z)] (stats_after rows L)
                      end
                  with
                  | Some counts =>
                      Dict.set c0 (Dict.set st0 (group_count rows (c0, st0)) counts)
                        match Dict.get c0 (stats_after rows L) with
                        | Some _ => stats_after rows L
                        | None =>
                            Dict.set c0 [("success", 0%Z); ("failed", 0%Z)]
                              (stats_after rows L)
                        end
                  | None =>
                      match Dict.get c0 (stats_after rows L) with
                      | Some _ => stats_after rows L
                      | None =>
                          Dict.set c0 [("success", 0%Z); ("failed", 0%Z)] (stats_after rows L)
                      end
                  end
                = Dict.get c (stats_after rows L)).
    { destruct (Dict.get c0 (stats_after rows L)) eqn:G0.
      - rewrite G0. now rewrite dict_get_set_other.
      - rewrite dict_get_set_same. now rewrite !dict_get_set_other. }
    rewrite G, IH.
    destruct (existsb (fun k => String.eqb (fst k) c) L); [|reflexivity].
    rewrite !Hval by congruence. reflexivity.
Qed.

End Stats.

(** X6. When every processed row has status success or failed, as in every
    store the scripts can leave behind, the dictionary [get_stats] returns
    has an entry for exactly the channels that have a processed row; the
    entry of a channel is the pair of the numbers of its rows with status
    success and with status failed; and the pending count is the number of
    pending rows. *)
Theorem get_stats_counts (d : Database.t) (c : string) :
  (forall r, In r (Database.processed_episodes d) ->
             ProcessedEpisode.status r = "success"
             \/ ProcessedEpisode.status r = "failed") ->
  let rows st :=
    filter (fun r => String.eqb (ProcessedEpisode.channel r) c
                     && String.eqb (ProcessedEpisode.status r) st)
           (Database.processed_episodes d) in
  Dict.get c (Database.processed (Database.get_stats d))
  = (if existsb (fun r => String.eqb (ProcessedEpisode.channel r) c)
                (Database.processed_episodes d)
     then Some [("success", Z.of_nat (List.length (rows "success")));
                ("failed", Z.of_nat (List.length (rows "failed")))]
     else None)
  /\ Database.pending (Database.get_stats d)
     = Z.of_nat (List.length (Database.pending_episodes d)).
Proof.
  intros Hst. cbv zeta. split; [|reflexivity].
  unfold Database.get_stats, Database.status_counts.
  cbn [Database.processed].
  set (rows := Database.processed_episodes d) in *.
  set (L := nodup Database.group_key_dec (map Database.group_key rows)).
  assert (HL : forall k, In k L <-> exists r, In r rows /\ Database.group_key r = k).
  { intros k. unfold L. rewrite nodup_In, in_map_iff.
    split; intros [r [A B]]; exists r; auto. }
  change (fold_left Database.add_status_count
            (map (fun k => (k, Z.of_nat (List.length
                                          (filter (Database.same_group k) rows))))
                 L) [])
    with (stats_after rows L).
  rewrite (stats_invariant rows L).
  - assert (Hex : existsb (fun k => String.eqb (fst k) c) L
                  = existsb (fun r => String.eqb (ProcessedEpisode.channel r) c)
                            rows).
    { apply eq_true_iff_eq. rewrite !existsb_exists. split.
      - intros [k [Hk Hc]]. apply HL in Hk as [r [Hr <-]]. exists r. auto.
      - intros [r [Hr Hc]]. exists (Database.group_key r).
        split; [apply HL; eauto|exact Hc]. }
    rewrite Hex.
    destruct (existsb _ rows); [|reflexivity].
    assert (Hv : forall st,
               group_value rows L c st
               = Z.of_nat (List.length (filter (Database.same_group (c, st))
                                          rows))).
    { intros st. unfold group_value, group_count.
      destruct (in_dec _ (c, st) L) as [i|n]; [reflexivity|].
      destruct (filter (Database.same_group (c, st)) rows) as [|r rest] eqn:F;
        [reflexivity|].
      exfalso. apply n, HL. exists r.
      assert (Hr : In r (filter (Database.same_group (c, st)) rows))
        by (rewrite F; now left).
      apply filter_In in Hr as [Hr Hk]. split; [exact Hr|].
      unfold Database.same_group in Hk. cbn [fst snd] in Hk.
      apply andb_true_iff in Hk as [K1 K2]. apply String.eqb_eq in K1, K2.
      unfold Database.group_key. now rewrite K1, K2. }
    rewrite !Hv. reflexivity.
  - intros k Hk. apply HL in Hk as [r [Hr <-]]. apply Hst, Hr.
Qed.

Lemma get_stats_counts_witness :
  Dict.get "chan" (Database.processed (Database.get_stats db_failed))
  = Some [("success", 0%Z); ("failed", 1%Z)]
  /\ Database.pending (Database.get_stats db_failed) = 0%Z.
Proof.
  apply (get_stats_counts db_failed "chan").
  intros r [<-|[]]. right. reflexivity.
Defined.

(** ** submit.py: what a run submits *)

Lemma submit_effect_refl counts w : submit_effect counts w counts w.
Proof.
  unfold submit_effect. repeat split; try lia.
  - exists []. split; [symmetry; apply app_nil_r|simpl; lia].
  - exists [], []. repeat split; try (symmetry; apply app_nil_r).
    unfold count_calls, count_log. simpl. lia.
Qed.

Lemma count_calls_app p (a b : list Call) :
  count_calls p (a ++ b) = (count_calls p a + count_calls p b)%Z.
Proof. unfold count_calls. rewrite filter_app, length_app. lia. Qed.

Lemma submit_effect_trans c1 w1 c2 w2 c3 w3 :
  submit_effect c1 w1 c2 w2 -> submit_effect c2 w2 c3 w3 ->
  submit_effect c1 w1 c3 w3.
Proof.
  intros (A1 & A2 & A3 & A4 & (add1 & A5 & A6)
          & (made1 & log1 & A7 & A8 & A9 & A10))
         (B1 & B2 & B3 & B4 & (add2 & B5 & B6)
          & (made2 & log2 & B7 & B8 & B9 & B10)).
  unfold submit_effect. split; [lia|]. split; [lia|].
  split; [congruence|]. split; [congruence|]. split.
  - exists (add1 ++ add2)%list. split.
    + rewrite B5, A5, app_assoc. reflexivity.
    + rewrite length_app. lia.
  - exists (made1 ++ made2)%list, (log1 ++ log2)%list.
    split; [rewrite B7, A7, app_assoc; reflexivity|].
    split; [rewrite B8, A8, app_assoc; reflexivity|].
    split; [rewrite forallb_app, A9, B9; reflexivity|].
    rewrite count_calls_app, count_log_app. lia.
Qed.

Lemma config_episode_submit_effect env channel episode counts w :
  exists counts' w',
    process_config_file_episode env channel episode counts w = (Ok counts', w')
    /\ submit_effect counts w counts' w'.
Proof.
  destruct counts as [submitted skipped].
  rewrite process_config_file_episode_run. cbv zeta.
  destruct (Database.is_processed (db w) (Episode.id episode)
              (ChannelConfig.name channel)) eqn:P;
    [|destruct (Database.is_pending (db w) (Episode.id episode)
                 (ChannelConfig.name channel)) eqn:Q;
      [|destruct (env_submit env (calls w) (Episode.audio_url episode)
                    (ChannelConfig.language channel)) as [tid|e]]];
    do 2 eexists; (split; [reflexivity|]);
    unfold submit_effect; cbn [fst snd db calls log];
    (split; [lia|]); (split; [lia|]);
    (split; [reflexivity|]); (split; [reflexivity|]); split.
  - exists []. split; [symmetry; apply app_nil_r|simpl; lia].
  - do 2 eexists. split; [symmetry; apply app_nil_r|].
    split; [reflexivity|]. split; [reflexivity|].
    unfold count_calls, count_log. simpl. lia.
  - exists []. split; [symmetry; apply app_nil_r|simpl; lia].
  - do 2 eexists. split; [symmetry; apply app_nil_r|].
    split; [reflexivity|]. split; [reflexivity|].
    unfold count_calls, count_log. simpl. lia.
  - eexists. split.
    + unfold Database.mark_pending. cbn [Database.pending_episodes].
      unfold Database.is_pending in Q. rewrite (filter_negb_none _ _ Q).
      reflexivity.
    + simpl. lia.
  - do 2 eexists. split; [reflexivity|].
    split; [reflexivity|]. split; [reflexivity|].
    unfold count_calls, count_log. simpl. lia.
  - exists []. split; [symmetry; apply app_nil_r|simpl; lia].
  - do 2 eexists. split; [reflexivity|].
    split; [reflexivity|]. split; [reflexivity|].
    unfold count_calls, count_log. simpl. lia.
Qed.

Lemma submit_effect_logged counts w record :
  is_log_failed record = false ->
  submit_effect counts w counts
    (mkWorld (db w) (calls w) (clock w) (log w ++ [record])).
Proof.
  intros H. unfold submit_effect. cbn [db calls log].
  repeat split; try lia.
  - exists []. split; [symmetry; apply app_nil_r|simpl; lia].
  - exists [], [record]. repeat split; try (symmetry; apply app_nil_r).
    unfold count_calls, count_log. simpl. rewrite H. simpl. lia.
Qed.

Lemma submit_effect_feed counts w url n records :
  forallb (fun r => negb (is_log_failed r)) records = true ->
  submit_effect counts w counts
    (mkWorld (db w) (calls w ++ [CallParseFeed url n]) (clock w)
             (log w ++ records)).
Proof.
  intros H. unfold submit_effect. cbn [db calls log].
  repeat split; try lia.
  - exists []. split; [symmetry; apply app_nil_r|simpl; lia].
  - exists [CallParseFeed url n], records. repeat split.
    unfold count_calls, count_log. simpl.
    replace (filter is_log_failed records) with (@nil LogRecord); [simpl; lia|].
    symmetry. induction records as [|r rs IH]; [reflexivity|].
    simpl in H. apply andb_true_iff in H as [Hr Hrs].
    apply negb_true_iff in Hr. simpl. rewrite Hr. now apply IH.
Qed.

(** X7. [process_config_file], from the loaded channels on, returns
    whatever the environment answers:
    it returns counters that are not negative; it leaves the processed
    table as it was; every pending row there was is still there, and as
    many rows were added as it counts submitted; it makes feed and submit
    calls only, one submit call for every submission and every failure it
    logged. *)
Theorem process_config_file_counts (env : Env)
  (channels : list ChannelConfig.t) (w : World) :
  exists submitted skipped w',
    process_config_file env channels w = (Ok (submitted, skipped), w')
    /\ (0 <= submitted)%Z /\ (0 <= skipped)%Z
    /\ Database.processed_episodes (db w') = Database.processed_episodes (db w)
    /\ (exists added,
          Database.pending_episodes (db w')
          = (Database.pending_episodes (db w) ++ added)%list
          /\ Z.of_nat (List.length added) = submitted)
    /\ forallb is_feed_or_submit (made_since w w') = true
    /\ count_calls is_submit (made_since w w')
       = (submitted + count_log is_log_failed (logged_since w w'))%Z.
Proof.
  unfold process_config_file. unfold_script.
  loop_by submit_effect submit_effect_refl submit_effect_trans.
  - unfold process_config_file_channel. unfold_script.
    destruct (env_parse_feed _ _ _ _) as [episodes|e].
    + loop_by submit_effect submit_effect_refl submit_effect_trans.
      * apply config_episode_submit_effect.
      * do 2 eexists. split; [reflexivity|].
        eapply submit_effect_trans; [|exact T].
        rewrite <- app_assoc. apply submit_effect_feed. reflexivity.
    + do 2 eexists. split; [reflexivity|].
      cbn [db calls clock log]. rewrite <- app_assoc.
      apply submit_effect_feed. reflexivity.
  - destruct acc as [submitted skipped].
    destruct T as (A1 & A2 & A3 & _ & (added & A5 & A6)
                   & (made & logged & A7 & A8 & A9 & A10)).
    cbn [fst snd db calls log] in *.
    exists submitted, skipped, w0. split; [reflexivity|].
    split; [lia|]. split; [lia|]. split; [exact A3|].
    split; [exists added; split; [exact A5|lia]|].
    unfold made_since, logged_since. rewrite A7, A8.
    rewrite <- app_assoc, !skipn_length_app. split; [exact A9|].
    rewrite count_log_app. unfold count_log at 1. cbn. lia.
Qed.

(** X8. [process_single_rss] returns 0 or 1, or raises what [parse_feed]
    raised. It returns 1 exactly when it submitted the first episode of the
    feed, which was neither processed nor pending, and recorded it as
    pending with the id the service gave; the episodes after the first are
    not looked at. In every other case the store is as it was. It makes no
    call but the one to the feed and at most one submission. *)
Theorem process_single_rss_outcome (env : Env)
  (url channel_name language : string) (w : World) :
  let run := process_single_rss env url channel_name language in
  let w' := world_after run w in
  (result_of run w = Ok 0%Z \/ result_of run w = Ok 1%Z
   \/ exists e, result_of run w = Raise e
                /\ env_parse_feed env (calls w) url 1 = Raise e)
  /\ (result_of run w = Ok 1%Z ->
      exists episode rest tid,
        env_parse_feed env (calls w) url 1 = Ok (episode :: rest)
        /\ Database.is_processed (db w) (Episode.id episode) channel_name
           = false
        /\ Database.is_pending (db w) (Episode.id episode) channel_name = false
        /\ env_submit env (calls w ++ [CallParseFeed url 1])
             (Episode.audio_url episode) language = Ok tid
        /\ db w'
           = Database.mark_pending (db w) (Episode.id episode) channel_name
               (Episode.title episode) (Episode.audio_url episode) tid
               (Some (Episode.published episode)) (Episode.duration episode)
               (env_now env (clock w))
        /\ made_since w w'
           = [CallParseFeed url 1;
              CallSubmit (Episode.audio_url episode) language])
  /\ (result_of run w <> Ok 1%Z -> db w' = db w)
  /\ forallb is_feed_or_submit (made_since w w') = true
  /\ (List.length (made_since w w') <= 2)%nat.
Proof.
  cbv zeta. unfold process_single_rss, made_since. unfold_script.
  destruct (env_parse_feed env (calls w) url 1) as [[|episode rest]|e] eqn:F;
    cbn [fst snd db calls clock log].
  - rewrite skipn_length_app.
    split; [left; reflexivity|]. split; [discriminate|].
    split; [reflexivity|]. split; [reflexivity|simpl; lia].
  - rewrite process_single_rss_episode_run. cbn [db calls clock log].
    destruct (Database.is_processed (db w) (Episode.id episode) channel_name)
      eqn:P;
      [|destruct (Database.is_pending (db w) (Episode.id episode) channel_name)
          eqn:Q;
        [|destruct (env_submit env (calls w ++ [CallParseFeed url 1])
                      (Episode.audio_url episode) language) as [tid|e] eqn:S]];
      cbn [fst snd db calls clock log];
      rewrite <- ?app_assoc, ?skipn_length_app; cbn [app].
    + split; [left; reflexivity|]. split; [discriminate|].
      split; [reflexivity|]. split; [reflexivity|simpl; lia].
    + split; [left; reflexivity|]. split; [discriminate|].
      split; [reflexivity|]. split; [reflexivity|simpl; lia].
    + split; [right; left; reflexivity|]. split.
      * intros _. exists episode, rest, tid. repeat split; assumption.
      * split; [congruence|]. split; [reflexivity|simpl; lia].
    + split; [left; reflexivity|]. split; [discriminate|].
      split; [reflexivity|]. split; [reflexivity|simpl; lia].
  - rewrite skipn_length_app.
    split; [right; right; exists e; split; reflexivity|].
    split; [discriminate|].
    split; [reflexivity|]. split; [reflexivity|simpl; lia].
Qed.

Lemma process_single_rss_outcome_witness :
  let run := process_single_rss env_with_feed "http://feed" "chan" "auto" in
  exists tid,
    db (world_after run (world_of Database.empty))
    = Database.mark_pending Database.empty "ep1" "chan" "Title One"
        "http://a/1.mp3" tid (Some 5%Z) (Some "3600") 1000%Z.
Proof.
  cbv zeta.
  destruct (proj1 (proj2 (process_single_rss_outcome env_with_feed
                            "http://feed" "chan" "auto"
                            (world_of Database.empty))) eq_refl)
    as (episode & rest & tid & F & _ & _ & _ & D & _).
  simpl in F. injection F as <- <-. exists tid. exact D.
Defined.

(** ** query.py: listing, and the passes that resolve a job *)

Lemma listing_loop (l : list PendingEpisode.t) (w : World) :
  for_each l
    (fun p (_ : unit) =>
       logger (LogListed (PendingEpisode.channel p)
                 (Py.slice_to 50 (PendingEpisode.title p))
                 (PendingEpisode.transcription_id p)))
    tt w
  = (Ok tt,
     mkWorld (db w) (calls w) (clock w)
       (log w ++ map (fun p => LogListed (PendingEpisode.channel p)
                                 (Py.slice_to 50 (PendingEpisode.title p))
                                 (PendingEpisode.transcription_id p)) l)).
Proof.
  revert w. induction l as [|p l IH]; intros w; cbn [for_each map].
  - unfold ret. rewrite app_nil_r. now destruct w.
  - unfold bind, logger at 1. rewrite IH. cbn [db calls clock log].
    now rewrite <- app_assoc.
Qed.

Lemma main_list_run (env : Env) (channel : option string) (w : World) :
  main env channel true w
  = (Ok tt,
     mkWorld (db w) (calls w) (clock w)
       (log w
        ++ match Database.get_pending (db w) channel with
           | [] => [LogNoPending]
           | _ :: _ =>
               LogFoundPending
                 (List.length (Database.get_pending (db w) channel))
               :: map (fun p => LogListed (PendingEpisode.channel p)
                                  (Py.slice_to 50 (PendingEpisode.title p))
                                  (PendingEpisode.transcription_id p))
                      (Database.get_pending (db w) channel)
           end)).
Proof.
  unfold main. unfold_script.
  destruct (Database.get_pending (db w) channel) as [|p l]; [reflexivity|].
  rewrite listing_loop. cbn [db calls clock log].
  now rewrite <- app_assoc.
Qed.

(** X9. With [--list], and when no job is pending, [main] of [query.py],
    once the output directory and the database are set up, only reads: it
    returns, the store and the clock are as they were, no call is made, and
    the log gets the count and one record per pending job of the channel, in
    table order with the title cut to 50 characters, or the record that
    there is none. *)
Theorem main_list_is_read_only (env : Env) (channel : option string)
  (w : World) :
  main env channel true w
  = (Ok tt,
     mkWorld (db w) (calls w) (clock w)
       (log w
        ++ match Database.get_pending (db w) channel with
           | [] => [LogNoPending]
           | _ :: _ =>
               LogFoundPending
                 (List.length (Database.get_pending (db w) channel))
               :: map (fun p => LogListed (PendingEpisode.channel p)
                                  (Py.slice_to 50 (PendingEpisode.title p))
                                  (PendingEpisode.transcription_id p))
                      (Database.get_pending (db w) channel)
           end))
  /\ (Database.get_pending (db w) channel = [] ->
      forall list_only,
        main env channel list_only w
        = (Ok tt, mkWorld (db w) (calls w) (clock w) (log w ++ [LogNoPending]))).
Proof.
  split; [apply main_list_run|].
  unfold main. unfold_script. intros ->. reflexivity.
Qed.

Lemma main_list_is_read_only_witness :
  main env_all_ok None false (world_of Database.empty)
  = (Ok tt, mkWorld Database.empty [] 0 [LogNoPending]).
Proof.
  apply (proj2 (main_list_is_read_only env_all_ok None
                  (world_of Database.empty))).
  reflexivity.
Defined.

(** X10. A job whose status is neither Succeeded nor Failed, whatever else
    the status field holds, is left alone: the pass makes the status call
    and no other, changes neither the store nor the clock, logs the status
    and counts the job as still running. *)
Theorem still_running_changes_nothing (env : Env) (pending : PendingEpisode.t)
  (n : Counts.t) (w : World) (status state : json) :
  let tid := PendingEpisode.transcription_id pending in
  env_status env (calls w) tid = Ok status ->
  Json.getitem status "status" = Ok state ->
  Json.eq_str state "Succeeded" = false ->
  Json.eq_str state "Failed" = false ->
  check_pending env pending n w
  = (Ok (Counts.mk (Counts.completed n) (Counts.still_running n + 1)
           (Counts.failed n)),
     mkWorld (db w) (calls w ++ [CallStatus tid]) (clock w)
       (log w ++ [checking pending; LogStillRunning state])).
Proof.
  cbv zeta. unfold checking. intros H1 H2 H3 H4.
  run_check_pending; normalize_lists; congruence.
Qed.

Lemma still_running_changes_nothing_witness :
  check_pending env_running sample_pending (Counts.mk 0 0 0)
    (world_of db_pending)
  = (Ok (Counts.mk 0 1 0),
     mkWorld db_pending [CallStatus "job-1"] 0
       [LogChecking "chan" "Title One"; LogStillRunning (JStr "Running")]).
Proof.
  apply (still_running_changes_nothing env_running sample_pending
           (Counts.mk 0 0 0) (world_of db_pending) (status_json "Running")
           (JStr "Running"));
    reflexivity.
Defined.

(** X11. A job that succeeded with a result that has no segment is recorded
    as failed: the pass writes a processed row with status failed and an
    empty output path, removes the pending row and counts the job as
    failed. The remote job is not deleted: the only calls are the status
    and the result call. In the store that is left the episode is neither
    pending nor processed, so a later submission run takes it up again, and
    [get_failed_episodes] lists it. *)
Theorem empty_result_is_failure (env : Env) (pending : PendingEpisode.t)
  (n : Counts.t) (w : World) (status state : json) :
  let tid := PendingEpisode.transcription_id pending in
  let episode_id := PendingEpisode.episode_id pending in
  let channel := PendingEpisode.channel pending in
  let d' :=
    Database.remove_pending
      (Database.mark_processed (db w) episode_id channel
         (PendingEpisode.title pending) "" "failed" (env_now env (clock w)))
      episode_id channel in
  env_status env (calls w) tid = Ok status ->
  Json.getitem status "status" = Ok state ->
  Json.eq_str state "Succeeded" = true ->
  env_result env (calls w ++ [CallStatus tid]) tid = Ok [] ->
  check_pending env pending n w
  = (Ok (bump_failed n),
     mkWorld d' (calls w ++ [CallStatus tid; CallResult tid]) (S (clock w))
       (log w ++ [checking pending; LogNoSegments]))
  /\ Database.is_pending d' episode_id channel = false
  /\ Database.is_processed d' episode_id channel = false
  /\ In (ProcessedEpisode.mk (Database.processed_seq (db w) + 1) episode_id
           channel (PendingEpisode.title pending) (env_now env (clock w))
           "failed" "")
        (Database.get_failed_episodes d' None).
Proof.
  cbv zeta. unfold checking, bump_failed. intros H1 H2 H3 H4.
  split; [|split; [|split]].
  - run_check_pending; normalize_lists; congruence.
  - apply is_pending_remove_same.
  - unfold Database.is_processed, Database.remove_pending.
    cbn [Database.processed_episodes].
    change (Database.is_processed
              (Database.mark_processed (db w)
                 (PendingEpisode.episode_id pending)
                 (PendingEpisode.channel pending)
                 (PendingEpisode.title pending) "" "failed"
                 (env_now env (clock w)))
              (PendingEpisode.episode_id pending)
              (PendingEpisode.channel pending) = false).
    rewrite is_processed_mark_processed_same. reflexivity.
  - unfold Database.get_failed_episodes, Database.remove_pending,
      Database.mark_processed.
    cbn [Database.processed_episodes].
    apply filter_In. split; [|reflexivity].
    apply in_or_app. right. left. reflexivity.
Qed.

Lemma empty_result_is_failure_witness :
  check_pending env_empty_result sample_pending (Counts.mk 0 0 0)
    (world_of db_pending)
  = (Ok (Counts.mk 0 0 1),
     mkWorld
       (Database.mk
          [ProcessedEpisode.mk 1%Z "ep1" "chan" "Title One" 1000%Z "failed" ""]
          1%Z [] 1%Z)
       [CallStatus "job-1"; CallResult "job-1"] 1
       [LogChecking "chan" "Title One"; LogNoSegments]).
Proof.
  apply (empty_result_is_failure env_empty_result sample_pending
           (Counts.mk 0 0 0) (world_of db_pending) (status_json "Succeeded")
           (JStr "Succeeded"));
    reflexivity.
Defined.

(** X12. A job that succeeded with segments, whose output [save_output]
    wrote: the processed row written has status success and, as output
    path, the path of the markdown file written, which is the sanitized
    title with [.md] in the directory of the channel and the date, the day
    of publication or else the day of the clock, under [OUTPUT_DIR]; the
    body of the file is the rendering of the segments; the pending row is
    removed; the episode then counts as processed and is not pending. The
    calls are, in order, status, result, mkdir of that directory, the two
    writes, and the delete of the remote job last. When the delete call
    raises the job is counted as failed although the store has it as a
    success. *)
Theorem success_records_written_path (env : Env) (pending : PendingEpisode.t)
  (n : Counts.t) (w : World) (status state : json)
  (seg : TranscriptSegment.t) (segs : list TranscriptSegment.t)
  (path : string) (w2 : World) :
  let tid := PendingEpisode.transcription_id pending in
  let episode_id := PendingEpisode.episode_id pending in
  let channel := PendingEpisode.channel pending in
  let run := check_pending env pending n in
  let w' := world_after run w in
  let date :=
    strftime_ymd env (match PendingEpisode.published pending with
                      | Some published => published
                      | None => env_now env (clock w)
                      end) in
  let dir := path_join env (path_join env (OUTPUT_DIR env) channel) date in
  let base := path_join env dir
                (sanitize_filename (PendingEpisode.title pending)) in
  env_status env (calls w) tid = Ok status ->
  Json.getitem status "status" = Ok state ->
  Json.eq_str state "Succeeded" = true ->
  env_result env (calls w ++ [CallStatus tid]) tid = Ok (seg :: segs) ->
  save_output env pending (seg :: segs)
    (mkWorld (db w) (calls w ++ [CallStatus tid; CallResult tid]) (clock w)
       (log w ++ [checking pending]))
  = (Ok path, w2) ->
  db w'
  = Database.remove_pending
      (Database.mark_processed (db w) episode_id channel
         (PendingEpisode.title pending) path "success"
         (env_now env (clock w2)))
      episode_id channel
  /\ Database.is_processed (db w') episode_id channel = true
  /\ Database.is_pending (db w') episode_id channel = false
  /\ path = base ++ ".md"
  /\ (exists md json,
        made_since w w'
        = [CallStatus tid; CallResult tid; CallMkdir dir;
           CallWrite (base ++ ".md") (Markdown md);
           CallWrite (base ++ ".json") (JsonFile json); CallDelete tid]
        /\ md_body md = segments_to_markdown (seg :: segs)
        /\ jd_transcript json = segments_to_json (seg :: segs)
        /\ md_title md = PendingEpisode.title pending
        /\ jd_title json = PendingEpisode.title pending)
  /\ (env_delete env (calls w2) tid = Ok tt ->
      result_of run w
      = Ok (Counts.mk (Counts.completed n + 1) (Counts.still_running n)
              (Counts.failed n))
      /\ log w' = (log w ++ [checking pending; LogCompleted path])%list)
  /\ (forall e,
        env_delete env (calls w2) tid = Raise e ->
        result_of run w = Ok (bump_failed n)
        /\ log w' = (log w ++ [checking pending; LogError e])%list).
Proof.
  cbv zeta. unfold checking, bump_failed, result_of, world_after, made_since.
  intros H1 H2 H3 H4 H5.
  assert (Hdb :
    db (snd (check_pending env pending n w))
    = Database.remove_pending
        (Database.mark_processed (db w2) (PendingEpisode.episode_id pending)
           (PendingEpisode.channel pending) (PendingEpisode.title pending)
           path "success" (env_now env (clock w2)))
        (PendingEpisode.episode_id pending) (PendingEpisode.channel pending)
    /\ calls (snd (check_pending env pending n w))
       = (calls w2 ++ [CallDelete (PendingEpisode.transcription_id pending)])%list
    /\ (env_delete env (calls w2) (PendingEpisode.transcription_id pending)
        = Ok tt ->
        fst (check_pending env pending n w)
        = Ok (Counts.mk (Counts.completed n + 1) (Counts.still_running n)
                (Counts.failed n))
        /\ log (snd (check_pending env pending n w))
           = (log w2 ++ [LogCompleted path])%list)
    /\ (forall e,
          env_delete env (calls w2) (PendingEpisode.transcription_id pending)
          = Raise e ->
          fst (check_pending env pending n w)
          = Ok (Counts.mk (Counts.completed n) (Counts.still_running n)
                  (Counts.failed n + 1))
          /\ log (snd (check_pending env pending n w))
             = (log w2 ++ [LogError e])%list)).
  { unfold check_pending, check_pending_try. unfold_script.
    rewrite H1. cbn [fst snd db calls clock log]. rewrite H2, H3.
    cbn [fst snd db calls clock log]. rewrite <- app_assoc. cbn [app].
    rewrite H4. cbn [fst snd db calls clock log]. rewrite H5.
    cbn [fst snd db calls clock log].
    destruct (env_delete env (calls w2)
                (PendingEpisode.transcription_id pending)) as [[]|e];
      cbn [fst snd db calls clock log];
      (split; [reflexivity|]); (split; [reflexivity|]); split;
      try discriminate; try (intros _; split; reflexivity).
    intros e0 E. injection E as <-. split; reflexivity. }
  destruct Hdb as (Hdb & Hcalls & Hok & Herr).
  destruct (save_output_success _ _ _ _ _ _ H5)
    as (Hpath & Hdb2 & Hlog & md & json & Hw2 & Hmd & Hjson & Hmt & Hjt).
  cbn [db calls clock log] in Hpath, Hdb2, Hlog, Hw2. rewrite Hdb2 in Hdb.
  split; [exact Hdb|]. rewrite Hdb.
  split; [|split; [|split; [|split; [|split]]]].
  - unfold Database.is_processed, Database.remove_pending.
    cbn [Database.processed_episodes].
    change (Database.is_processed
              (Database.mark_processed (db w)
                 (PendingEpisode.episode_id pending)
                 (PendingEpisode.channel pending)
                 (PendingEpisode.title pending) path "success"
                 (env_now env (clock w2)))
              (PendingEpisode.episode_id pending)
              (PendingEpisode.channel pending) = true).
    rewrite is_processed_mark_processed_same. reflexivity.
  - apply is_pending_remove_same.
  - exact Hpath.
  - exists md, json.
    split; [|split; [exact Hmd|split; [exact Hjson|split; [exact Hmt|exact Hjt]]]].
    rewrite Hcalls, Hw2, <- !app_assoc, skipn_length_app. reflexivity.
  - intros E. destruct (Hok E) as [-> ->]. rewrite Hlog.
    rewrite <- app_assoc. split; reflexivity.
  - intros e E. destruct (Herr e E) as [-> ->]. rewrite Hlog.
    rewrite <- app_assoc. split; reflexivity.
Qed.

Lemma success_records_written_path_witness :
  let run := check_pending env_all_ok sample_pending (Counts.mk 0 0 0) in
  let w' := world_after run (world_of db_pending) in
  Database.is_processed (db w') "ep1" "chan" = true
  /\ Database.is_pending (db w') "ep1" "chan" = false
  /\ map ProcessedEpisode.output_path (Database.processed_episodes (db w'))
     = ["output/chan/day-5/Title One.md"].
Proof.
  cbv zeta.
  edestruct (success_records_written_path env_all_ok sample_pending
               (Counts.mk 0 0 0) (world_of db_pending)
               (status_json "Succeeded") (JStr "Succeeded"))
    as (D & P & Q & E & _).
  - reflexivity.
  - reflexivity.
  - reflexivity.
  - reflexivity.
  - vm_compute. reflexivity.
  - split; [exact P|]. split; [exact Q|].
    rewrite D, E. reflexivity.
Defined.

(** ** query.py: what a polling run leaves alone *)

(** [save_output] makes the directory and writes the two files; it makes no
    other call. *)
Lemma save_output_writes_only env pending segments w :
  let w' := world_after (save_output env pending segments) w in
  db w' = db w
  /\ exists new, calls w' = (calls w ++ new)%list
                 /\ forallb is_file_call new = true.
Proof.
  cbv zeta. unfold save_output. unfold_script.
  split_path; tidy_lists; (split; [reflexivity|]);
    first [ eexists; split; [reflexivity|reflexivity]
          | exists []; split; [symmetry; apply app_nil_r|reflexivity] ].
Qed.

Ltac use_save_output_writes :=
  match goal with
  | E : save_output ?env ?p ?s ?w = (_, ?w') |- _ =>
      let F := fresh "F" in
      let Fdb := fresh "Fdb" in
      let Fcalls := fresh "Fcalls" in
      let Ffile := fresh "Ffile" in
      let new := fresh "written" in
      pose proof (save_output_writes_only env p s w) as F;
      cbv zeta in F; unfold world_after in F; rewrite E in F;
      cbn [fst snd db calls clock log] in F;
      destruct F as (Fdb & new & Fcalls & Ffile)
  end.

Lemma file_calls_poll (l : list Call) :
  forallb is_file_call l = true -> forallb is_poll_call l = true.
Proof.
  induction l as [|c l IH]; simpl; [reflexivity|].
  intros H. apply andb_true_iff in H as [Hc Hl]. rewrite (IH Hl).
  destruct c; simpl in Hc; try discriminate; reflexivity.
Qed.

Lemma filter_true {A : Type} (l : list A) : filter (fun _ => true) l = l.
Proof. induction l as [|x l IH]; simpl; [reflexivity|now rewrite IH]. Qed.

Lemma filter_filter_and {A : Type} (f g : A -> bool) (l : list A) :
  filter g (filter f l) = filter (fun x => f x && g x) l.
Proof.
  induction l as [|x l IH]; simpl; [reflexivity|].
  destruct (f x); simpl; [destruct (g x); now rewrite IH|exact IH].
Qed.

Lemma poll_effect_refl {S : Type} (acc : S) (w : World) :
  poll_effect acc w acc w.
Proof.
  split; [reflexivity|]. split.
  - exists (fun _ => true). symmetry. apply filter_true.
  - exists []. split; [symmetry; apply app_nil_r|reflexivity].
Qed.

Lemma poll_effect_trans {S : Type} (a1 : S) w1 (a2 : S) w2 (a3 : S) w3 :
  poll_effect a1 w1 a2 w2 -> poll_effect a2 w2 a3 w3 ->
  poll_effect a1 w1 a3 w3.
Proof.
  intros (A1 & (k1 & A2) & (m1 & A3 & A4)) (B1 & (k2 & B2) & (m2 & B3 & B4)).
  split; [congruence|]. split.
  - exists (fun r => k1 r && k2 r). rewrite B2, A2. apply filter_filter_and.
  - exists (m1 ++ m2)%list. split.
    + rewrite B3, A3, app_assoc. reflexivity.
    + rewrite forallb_app, A4, B4. reflexivity.
Qed.

Lemma check_pending_poll_effect env pending n w :
  exists n' w', check_pending env pending n w = (Ok n', w')
                /\ poll_effect n w n' w'.
Proof.
  unfold check_pending, check_pending_try. unfold_script.
  split_path; try use_save_output_writes.
  all: do 2 eexists; (split; [reflexivity|]).
  all: unfold poll_effect; cbn [db calls clock log]; rewrite ?Fdb, ?Fcalls.
  all: split; [reflexivity|].
  all: split;
    [first [ exists (fun _ => true); symmetry; apply filter_true
           | eexists; reflexivity ]|].
  all: normalize_lists; eexists; (split; [reflexivity|]).
  all: cbn [forallb is_poll_call is_feed_or_submit negb andb];
    rewrite ?forallb_app;
    cbn [forallb is_poll_call is_feed_or_submit negb andb];
    try rewrite (file_calls_poll _ Ffile); reflexivity.
Qed.

(** X13. A run of [main] of [query.py] from the pending list on, in either
    mode, returns; it never reads a feed and never submits a job; and it
    never adds or alters a pending row: the pending table afterwards is the
    table before with some rows taken out, in the same order, and its id
    sequence has not moved. *)
Theorem main_only_resolves (env : Env) (channel : option string)
  (list_only : bool) (w : World) :
  let w' := world_after (main env channel list_only) w in
  result_of (main env channel list_only) w = Ok tt
  /\ forallb is_poll_call (made_since w w') = true
  /\ Database.pending_seq (db w') = Database.pending_seq (db w)
  /\ (exists keep,
        Database.pending_episodes (db w')
        = filter keep (Database.pending_episodes (db w)))
  /\ (forall r, In r (Database.pending_episodes (db w')) ->
                In r (Database.pending_episodes (db w))).
Proof.
  cbv zeta.
  assert (H : result_of (main env channel list_only) w = Ok tt
              /\ poll_effect tt w tt (world_after (main env channel list_only) w)).
  { destruct list_only.
    - unfold result_of, world_after. rewrite main_list_run. cbn [fst snd].
      split; [reflexivity|].
      split; [reflexivity|]. split.
      + exists (fun _ => true). symmetry. apply filter_true.
      + exists []. split; [symmetry; apply app_nil_r|reflexivity].
    - unfold result_of, world_after, main. unfold_script.
      destruct (Database.get_pending (db w) channel) as [|p l];
        [split; [reflexivity|];
         split; [reflexivity|]; split;
         [exists (fun _ => true); symmetry; apply filter_true
         |exists []; split; [symmetry; apply app_nil_r|reflexivity]]|].
      loop_by (@poll_effect Counts.t) (@poll_effect_refl Counts.t)
              (@poll_effect_trans Counts.t).
      + apply check_pending_poll_effect.
      + split; [reflexivity|].
        destruct T as (A1 & A2 & (made & A3 & A4)).
        cbn [db calls clock log] in *.
        split; [exact A1|]. split; [exact A2|].
        exists made. split; [exact A3|exact A4]. }
  destruct H as (R & A1 & (keep & A2) & (made & A3 & A4)).
  split; [exact R|]. split.
  - unfold made_since. rewrite A3, skipn_length_app. exact A4.
  - split; [exact A1|]. split; [exists keep; exact A2|].
    intros r Hr. rewrite A2 in Hr. apply filter_In in Hr. tauto.
Qed.

Lemma main_only_resolves_witness :
  In sample_pending (Database.pending_episodes db_pending).
Proof.
  apply (proj2 (proj2 (proj2 (proj2
           (main_only_resolves env_running None false
              (world_of db_pending)))))).
  vm_compute. left. reflexivity.
Defined.

(** Resolving a job touches the rows of no other identity. *)
Lemma rows_of_resolved d e' c' title path status now e c :
  (e', c') <> (e, c) ->
  rows_of e c
    (Database.remove_pending
       (Database.mark_processed d e' c' title path status now) e' c')
  = rows_of e c d.
Proof.
  intros Hne. unfold rows_of, Database.remove_pending, Database.mark_processed.
  cbn [Database.pending_episodes Database.processed_episodes]. f_equal.
  - apply filter_filter_other. intros r K.
    destruct (Database.pending_key e' c' r) eqn:K'; [|reflexivity].
    exfalso. apply Hne. unfold Database.pending_key in K, K'.
    apply andb_true_iff in K as [K1 K2]. apply andb_true_iff in K' as [K3 K4].
    apply String.eqb_eq in K1, K2, K3, K4. congruence.
  - rewrite filter_app. cbn [filter]. rewrite processed_key_row.
    rewrite (key_other _ _ _ _ Hne), app_nil_r.
    apply filter_filter_other. intros r K.
    destruct (Database.processed_key e' c' r) eqn:K'; [|reflexivity].
    exfalso. apply Hne. unfold Database.processed_key in K, K'.
    apply andb_true_iff in K as [K1 K2]. apply andb_true_iff in K' as [K3 K4].
    apply String.eqb_eq in K1, K2, K3, K4. congruence.
Qed.

Lemma check_pending_same_rows env e c pending n w :
  (PendingEpisode.episode_id pending, PendingEpisode.channel pending)
  <> (e, c) ->
  exists n' w', check_pending env pending n w = (Ok n', w')
                /\ same_rows e c n w n' w'.
Proof.
  intros Hne.
  destruct (check_pending_items env pending n w)
    as (n' & w' & E & [H|[(now & H)|(base & now & H)]]);
    exists n', w'; (split; [exact E|]); unfold same_rows; rewrite H;
    [reflexivity|apply rows_of_resolved, Hne|apply rows_of_resolved, Hne].
Qed.

(** X14. A run of [main] of [query.py] from the pending list on touches
    the jobs of its list only:
    the rows that the two tables hold for an identity that is not the
    identity of a job [get_pending] returned are afterwards what they were.
    So a run for one channel leaves the rows of every other channel as they
    are. *)
Theorem main_touches_listed_jobs_only (env : Env) (channel : option string)
  (list_only : bool) (w : World) (e c : string) :
  let w' := world_after (main env channel list_only) w in
  ((forall p, In p (Database.get_pending (db w) channel) ->
              (PendingEpisode.episode_id p, PendingEpisode.channel p)
              <> (e, c)) ->
   rows_of e c (db w') = rows_of e c (db w))
  /\ (forall ch, channel = Some ch -> Py.truthy ch = true -> c <> ch ->
                 rows_of e c (db w') = rows_of e c (db w)).
Proof.
  cbv zeta.
  assert (G : (forall p, In p (Database.get_pending (db w) channel) ->
                 (PendingEpisode.episode_id p, PendingEpisode.channel p)
                 <> (e, c)) ->
              rows_of e c (db (world_after (main env channel list_only) w))
              = rows_of e c (db w)).
  { intros Hne. destruct list_only.
    - unfold world_after. rewrite main_list_run. reflexivity.
    - unfold world_after, main. unfold_script.
      destruct (Database.get_pending (db w) channel) as [|p l] eqn:L;
        [reflexivity|].
      destruct (for_each_rel (@same_rows Counts.t e c)
                  (fun _ _ => eq_refl)
                  (fun _ w1 _ w2 _ w3 (A : same_rows e c _ w1 _ w2)
                       (B : same_rows e c _ w2 _ w3) => eq_trans B A)
                  (check_pending env)
                  (fun p => (PendingEpisode.episode_id p,
                             PendingEpisode.channel p) <> (e, c))
                  (fun x acc w0 Hx =>
                     check_pending_same_rows env e c x acc w0 Hx)
                  (p :: l)
                  (proj2 (Forall_forall _ _) Hne)
                  (Counts.mk 0 0 0)
                  (mkWorld (db w) (calls w) (clock w)
                     (log w ++ [LogFoundPending (List.length (p :: l))])))
        as (n' & w' & E & T).
      rewrite E. cbn [fst snd db calls clock log]. exact T. }
  split; [exact G|].
  intros ch -> T Hc. apply G. intros p Hp.
  unfold Database.get_pending in Hp. rewrite T in Hp.
  apply filter_In in Hp as [_ Hp]. apply String.eqb_eq in Hp.
  congruence.
Qed.

Lemma main_touches_listed_jobs_only_witness :
  rows_of "ep9" "other"
    (db (world_after (main env_all_ok (Some "chan") false)
           (world_of db_two_channels)))
  = rows_of "ep9" "other" db_two_channels.
Proof.
  apply (proj2 (main_touches_listed_jobs_only env_all_ok (Some "chan") false
                  (world_of db_two_channels) "ep9" "other") "chan");
    [reflexivity|reflexivity|discriminate].
Defined.

(** ** utils.py: the list of feeds *)

Lemma strip_chars_idempotent (p : ascii -> bool) (l : list ascii) :
  Py.strip_chars p (Py.strip_chars p l) = Py.strip_chars p l.
Proof.
  apply strip_chars_keep. intros c t E. split.
  - eapply strip_head; eauto.
  - eapply strip_last; eauto.
Qed.

Lemma strip_space_idempotent (s : string) :
  Py.strip_space (Py.strip_space s) = Py.strip_space s.
Proof.
  unfold Py.strip_space. now rewrite chars_str, strip_chars_idempotent.
Qed.

Lemma load_feeds_fixed (l : list string) :
  (forall x, In x l -> Py.strip_space x = x /\ feed_line x = true) ->
  load_feeds l = l.
Proof.
  unfold load_feeds. fold feed_line.
  induction l as [|x l IH]; intros H; [reflexivity|].
  cbn [map filter]. destruct (H x (or_introl eq_refl)) as [-> ->].
  f_equal. apply IH. intros y Hy. apply H. now right.
Qed.

(** X15. Every entry [load_feeds] returns is a line of the file with the
    white space at its ends removed: it is not empty, does not start with
    the comment sign, and has no white space at either end. Every line that
    passes this test once stripped is returned, in the order of the file,
    so a list written out one entry a line is read back as it is. *)
Theorem load_feeds_clean (lines : list string) :
  (forall url, In url (load_feeds lines) <->
               exists line, In line lines /\ url = Py.strip_space line
                            /\ url <> "" /\ Py.startswith "#" url = false)
  /\ (forall url, In url (load_feeds lines) -> Py.strip_space url = url)
  /\ load_feeds lines
     = filter feed_line (map Py.strip_space lines)
  /\ load_feeds (load_feeds lines) = load_feeds lines.
Proof.
  assert (A : forall url, In url (load_feeds lines) <->
               exists line, In line lines /\ url = Py.strip_space line
                            /\ url <> "" /\ Py.startswith "#" url = false).
  { intros url. unfold load_feeds. rewrite filter_In, in_map_iff. split.
    - intros [[line [<- Hin]] T]. apply andb_true_iff in T as [T C].
      apply negb_true_iff in C. exists line.
      repeat split; [exact Hin| |exact C].
      intros E. rewrite E in T. discriminate.
    - intros [line [Hin [-> [Hne C]]]]. split; [exists line; auto|].
      rewrite C. destruct (Py.strip_space line); [congruence|reflexivity]. }
  assert (B : forall url, In url (load_feeds lines) -> Py.strip_space url = url).
  { intros url Hu. apply A in Hu as [line [_ [-> _]]].
    apply strip_space_idempotent. }
  split; [exact A|]. split; [exact B|]. split; [reflexivity|].
  apply load_feeds_fixed. intros x Hx. split; [now apply B|].
  unfold load_feeds in Hx. apply filter_In in Hx as [_ Hx]. exact Hx.
Qed.

Lemma load_feeds_clean_witness :
  Py.strip_space "http://a/feed" = "http://a/feed".
Proof.
  apply (proj1 (proj2 (load_feeds_clean
                         ["# feeds"; "  http://a/feed  "; ""]))).
  vm_compute. left. reflexivity.
Defined.

(** ** submit.py: the name of a channel *)

Lemma lower_char_class (c : ascii) :
  (name_char c = true ->
   Py.ascii_lower (Py.lower_char c) = true
   \/ Py.decimal_char (Py.lower_char c) = true)
  /\ Ascii.eqb (Py.lower_char c) "-" = Ascii.eqb c "-".
Proof.
  destruct c as [[] [] [] [] [] [] [] []]; vm_compute; split;
    auto; discriminate.
Qed.

Lemma sub_runs_chars (l : list ascii) (in_run : bool) (c : ascii) :
  In c (sub_runs l in_run) -> name_char c = true \/ c = "-"%char.
Proof.
  revert in_run. induction l as [|x l IH]; intros in_run; simpl; [tauto|].
  destruct (name_char x) eqn:N.
  - intros [<-|H]; [now left|eauto].
  - destruct in_run; [eauto|]. intros [<-|H]; [now right|eauto].
Qed.

Lemma sub_runs_no_adjacent (l : list ascii) :
  (forall t, sub_runs l true <> "-"%char :: t)
  /\ adjacent_hyphens (sub_runs l true) = false
  /\ adjacent_hyphens (sub_runs l false) = false.
Proof.
  induction l as [|x l [IH1 [IH2 IH3]]]; [repeat split; discriminate|].
  assert (Hx : name_char x = true -> Ascii.eqb x "-" = false).
  { destruct (Ascii.eqb x "-") eqn:E; [|reflexivity].
    apply Ascii.eqb_eq in E. subst x. discriminate. }
  cbn [sub_runs]. destruct (name_char x) eqn:N.
  - specialize (Hx eq_refl). split; [|split].
    + intros t E. injection E as E _. subst x. discriminate.
    + cbn [adjacent_hyphens]. rewrite Hx.
      destruct (sub_runs l false); [reflexivity|exact IH3].
    + cbn [adjacent_hyphens]. rewrite Hx.
      destruct (sub_runs l false); [reflexivity|exact IH3].
  - split; [exact IH1|]. split; [exact IH2|].
    cbn [adjacent_hyphens]. destruct (sub_runs l true) as [|c t] eqn:S;
      [reflexivity|].
    rewrite IH2. destruct (Ascii.eqb c "-") eqn:E; [|reflexivity].
    apply Ascii.eqb_eq in E. subst c. exfalso. exact (IH1 t eq_refl).
Qed.

Lemma adjacent_hyphens_app (a b : list ascii) :
  adjacent_hyphens (a ++ b) = false ->
  adjacent_hyphens a = false /\ adjacent_hyphens b = false.
Proof.
  induction a as [|x a IH]; [intros H; split; [reflexivity|exact H]|].
  destruct a as [|y a].
  - cbn [app adjacent_hyphens]. destruct b as [|z b]; [auto|].
    intros H. apply orb_false_iff in H as [_ H]. auto.
  - cbn [app adjacent_hyphens] in *. intros H.
    apply orb_false_iff in H as [H1 H2]. destruct (IH H2) as [Ha Hb].
    rewrite H1, Ha. auto.
Qed.

Lemma adjacent_hyphens_map_lower (l : list ascii) :
  adjacent_hyphens (map Py.lower_char l) = adjacent_hyphens l.
Proof.
  induction l as [|x l IH]; [reflexivity|].
  destruct l as [|y l]; [reflexivity|].
  cbn [map adjacent_hyphens] in *. rewrite IH.
  now rewrite (proj2 (lower_char_class x)), (proj2 (lower_char_class y)).
Qed.

Lemma strip_chars_infix (p : ascii -> bool) (l : list ascii) :
  exists pre post, l = (pre ++ Py.strip_chars p l ++ post)%list.
Proof.
  unfold Py.strip_chars, Py.lstrip_chars, Py.rstrip_chars.
  destruct (dropwhile_split p (rev l)) as [post [Hpost _]].
  destruct (dropwhile_split p (rev (Py.dropwhile p (rev l)))) as [pre [Hpre _]].
  exists pre, (rev post).
  set (d := Py.dropwhile p (rev l)) in *.
  rewrite app_assoc, <- Hpre, <- rev_app_distr, <- Hpost.
  symmetry. apply rev_involutive.
Qed.

(** X16. The channel name [get_channel_name_from_rss] derives from a feed
    title of characters below code point 256 is never empty and has
    at most 50 characters, each a lower-case ASCII letter, a digit or a
    hyphen; it does not start with a hyphen and has no two hyphens side by
    side. A title without an ASCII letter or digit gives the name unknown. *)
Theorem channel_name_shape (title : string) :
  let name := channel_name_of_title title in
  name <> ""
  /\ (Py.len name <= 50)%nat
  /\ (forall c, In c (Py.chars name) ->
        Py.ascii_lower c = true \/ Py.decimal_char c = true \/ c = "-"%char)
  /\ (forall t, Py.chars name <> "-"%char :: t)
  /\ adjacent_hyphens (Py.chars name) = false
  /\ (forallb (fun c => negb (name_char c)) (Py.chars title) = true ->
      name = "unknown").
Proof.
  cbv zeta.
  assert (U : "unknown" <> ""
              /\ (Py.len "unknown" <= 50)%nat
              /\ (forall c, In c (Py.chars "unknown") ->
                    Py.ascii_lower c = true \/ Py.decimal_char c = true
                    \/ c = "-"%char)
              /\ (forall t, Py.chars "unknown" <> "-"%char :: t)
              /\ adjacent_hyphens (Py.chars "unknown") = false).
  { split; [discriminate|]. split; [cbv; lia|]. split.
    - intros c Hc. left. simpl in Hc.
      repeat (destruct Hc as [<-|Hc]; [reflexivity|]). destruct Hc.
    - split; [discriminate|reflexivity]. }
  unfold channel_name_of_title.
  destruct (Py.truthy title) eqn:T;
    [|destruct U as (U1 & U2 & U3 & U4 & U5); repeat split; auto].
  set (subbed := sub_runs (Py.chars title) false).
  unfold Py.strip. rewrite !chars_str.
  set (stripped := Py.strip_chars (Py.char_in "-") subbed).
  assert (Hclass : forall c, In c (map Py.lower_char stripped) ->
            Py.ascii_lower c = true \/ Py.decimal_char c = true
            \/ c = "-"%char).
  { intros c Hc. apply in_map_iff in Hc as [x [<- Hx]].
    apply strip_incl, sub_runs_chars in Hx as [Hx| ->].
    - destruct (proj1 (lower_char_class x) Hx); auto.
    - right. right. reflexivity. }
  assert (Hhead : forall t, map Py.lower_char stripped <> "-"%char :: t).
  { intros t E. destruct stripped as [|x s] eqn:S; [discriminate|].
    pose proof (strip_head _ _ _ _ S) as Hx.
    cbn [map] in E. injection E as E _.
    pose proof (proj2 (lower_char_class x)) as L. rewrite E in L.
    simpl in L. symmetry in L. apply Ascii.eqb_eq in L. subst x.
    discriminate. }
  assert (Hadj : adjacent_hyphens (map Py.lower_char stripped) = false).
  { rewrite adjacent_hyphens_map_lower.
    destruct (strip_chars_infix (Py.char_in "-") subbed) as [pre [post E]].
    fold stripped in E.
    pose proof (proj2 (proj2 (sub_runs_no_adjacent (Py.chars title)))) as N.
    fold subbed in N. rewrite E in N.
    apply adjacent_hyphens_app in N as [_ N].
    apply adjacent_hyphens_app in N as [N _]. exact N. }
  destruct (Py.truthy (Py.str (map Py.lower_char stripped))) eqn:T2.
  - apply truthy_chars in T2. rewrite chars_str in T2.
    unfold Py.slice_to, Py.len. rewrite !chars_str.
    destruct (map Py.lower_char stripped) as [|x s] eqn:M; [congruence|].
    split; [cbn [firstn]; discriminate|].
    split; [apply firstn_le_length|].
    split; [intros c Hc; apply Hclass; eapply firstn_incl; eauto|].
    split; [cbn [firstn]; intros t E; injection E as E _; subst x;
            apply (Hhead s); reflexivity|].
    split.
    + rewrite <- (firstn_skipn 50 (x :: s)) in Hadj.
      apply adjacent_hyphens_app in Hadj as [Hadj _]. exact Hadj.
    + intros Hnone. exfalso.
      assert (Hall : forallb (Py.char_in "-") subbed = true).
      { unfold subbed. clear -Hnone.
        assert (G : forall l b,
                  forallb (fun c => negb (name_char c)) l = true ->
                  forallb (Py.char_in "-") (sub_runs l b) = true).
        { induction l as [|c l IH]; intros b H; [reflexivity|].
          cbn [forallb sub_runs] in *.
          apply andb_true_iff in H as [Hc Hl].
          apply negb_true_iff in Hc. rewrite Hc.
          destruct b; [now apply IH|].
          cbn [forallb]. rewrite (IH true Hl). reflexivity. }
        now apply G. }
      unfold stripped in M. rewrite (strip_all _ _ Hall) in M. discriminate.
  - destruct U as (U1 & U2 & U3 & U4 & U5). repeat split; auto.
Qed.

Lemma channel_name_shape_witness : channel_name_of_title "?!" = "unknown".
Proof.
  apply (proj2 (proj2 (proj2 (proj2 (proj2 (channel_name_shape "?!")))))).
  reflexivity.
Defined.

(** ** rss_parser.py: the episodes of a feed *)

Lemma find_audio_found (links : list Link.t) (href : option string) :
  find_audio links = Some href ->
  exists l, In l links /\ Link.href l = href
            /\ Py.startswith "audio/" (link_type l) = true.
Proof.
  induction links as [|l rest IH]; cbn [find_audio]; [discriminate|].
  fold (link_type l).
  destruct (Py.startswith "audio/" (link_type l)) eqn:A.
  - intros E. injection E as <-. exists l. split; [now left|auto].
  - intros E. destruct (IH E) as [l' [Hin H]]. exists l'.
    split; [now right|exact H].
Qed.

(** The pass over one entry: it adds no episode, or one whose audio URL is
    not empty and is the target of an audio link of the entry. *)
Lemma parse_entry_adds env entry episodes w :
  (forall e, Entry.published_parsed entry <> Some (Raise e)) ->
  exists new w',
    parse_entry env entry episodes w = (Ok (episodes ++ new)%list, w')
    /\ db w' = db w /\ calls w' = calls w /\ log w' = log w
    /\ (List.length new <= 1)%nat
    /\ forall ep, In ep new ->
         Py.truthy (Episode.audio_url ep) = true
         /\ Episode.title ep
            = match Entry.title entry with Some t => t | None => "Untitled" end
         /\ Episode.duration ep = Entry.itunes_duration entry
         /\ exists l, In l (Entry.links entry ++ Entry.enclosures entry)%list
                      /\ Link.href l = Some (Episode.audio_url ep)
                      /\ Py.startswith "audio/" (link_type l) = true.
Proof.
  intros Hdate. unfold parse_entry.
  set (first := match find_audio (Entry.links entry) with
                | Some href => href
                | None => None
                end).
  set (audio := if negb (opt_truthy first)
                then match find_audio (Entry.enclosures entry) with
                     | Some href => href
                     | None => first
                     end
                else first).
  assert (Hfound : forall url, audio = Some url -> Py.truthy url = true ->
            exists l, In l (Entry.links entry ++ Entry.enclosures entry)%list
                      /\ Link.href l = Some url
                      /\ Py.startswith "audio/" (link_type l) = true).
  { intros url Ha Ht. unfold audio in Ha.
    assert (Hfirst : first = Some url ->
              exists l, In l (Entry.links entry ++ Entry.enclosures entry)%list
                        /\ Link.href l = Some url
                        /\ Py.startswith "audio/" (link_type l) = true).
    { unfold first. destruct (find_audio (Entry.links entry)) as [href|] eqn:F;
        [|discriminate].
      intros ->. destruct (find_audio_found _ _ F) as [l [Hin H]].
      exists l. split; [apply in_or_app; now left|exact H]. }
    destruct (opt_truthy first) eqn:T; cbn [negb] in Ha; [now apply Hfirst|].
    destruct (find_audio (Entry.enclosures entry)) as [href|] eqn:F.
    - subst href. destruct (find_audio_found _ _ F) as [l [Hin H]].
      exists l. split; [apply in_or_app; now right|exact H].
    - rewrite Ha in T. cbn [opt_truthy] in T. congruence. }
  clearbody audio. clear first.
  assert (Hnone : exists new w',
            ret (A:=list Episode.t) episodes w = (Ok (episodes ++ new)%list, w')
            /\ db w' = db w /\ calls w' = calls w /\ log w' = log w
            /\ (List.length new <= 1)%nat
            /\ forall ep, In ep new ->
                 Py.truthy (Episode.audio_url ep) = true
                 /\ Episode.title ep
                    = match Entry.title entry with
                      | Some t => t
                      | None => "Untitled"
                      end
                 /\ Episode.duration ep = Entry.itunes_duration entry
                 /\ exists l,
                      In l (Entry.links entry ++ Entry.enclosures entry)%list
                      /\ Link.href l = Some (Episode.audio_url ep)
                      /\ Py.startswith "audio/" (link_type l) = true).
  { exists [], w. unfold ret. rewrite app_nil_r.
    repeat split; auto; try (simpl; lia); destruct H. }
  destruct audio as [url|]; [|exact Hnone].
  destruct (Py.truthy url) eqn:T; cbn [negb]; [|exact Hnone].
  destruct (Hfound url eq_refl T) as [l Hl].
  cbv [bind ret lift datetime_now].
  destruct (Entry.published_parsed entry) as [[p|e]|] eqn:D;
    [|exfalso; exact (Hdate e eq_refl)|].
  all: do 2 eexists; (split; [reflexivity|]); cbn [db calls clock log].
  all: do 4 (split; [auto|]).
  all: intros ep [<-|[]]; cbn [Episode.audio_url Episode.title Episode.duration].
  all: split; [exact T|]; split; [reflexivity|]; split; [reflexivity|].
  all: exists l; exact Hl.
Qed.

Lemma parse_loop env (l : list Entry.t) :
  (forall entry e, In entry l -> Entry.published_parsed entry <> Some (Raise e)) ->
  forall episodes w,
    exists new w',
      for_each l (parse_entry env) episodes w = (Ok (episodes ++ new)%list, w')
      /\ db w' = db w /\ calls w' = calls w /\ log w' = log w
      /\ (List.length new <= List.length l)%nat
      /\ forall ep, In ep new ->
           Py.truthy (Episode.audio_url ep) = true
           /\ exists entry link,
                In entry l
                /\ In link (Entry.links entry ++ Entry.enclosures entry)%list
                /\ Link.href link = Some (Episode.audio_url ep)
                /\ Py.startswith "audio/" (link_type link) = true
                /\ Episode.title ep
                   = match Entry.title entry with
                     | Some t => t
                     | None => "Untitled"
                     end
                /\ Episode.duration ep = Entry.itunes_duration entry.
Proof.
  induction l as [|entry l IH]; intros Hdate episodes w.
  - exists [], w. cbn [for_each]. unfold ret. rewrite app_nil_r.
    repeat split; auto; destruct H.
  - destruct (parse_entry_adds env entry episodes w
                (fun e => Hdate entry e (or_introl eq_refl)))
      as (new1 & w1 & E1 & D1 & C1 & L1 & N1 & P1).
    destruct (IH (fun x e Hx => Hdate x e (or_intror Hx))
                 (episodes ++ new1)%list w1)
      as (new2 & w2 & E2 & D2 & C2 & L2 & N2 & P2).
    exists (new1 ++ new2)%list, w2. cbn [for_each]. unfold bind.
    rewrite E1, E2, app_assoc.
    split; [reflexivity|]. split; [congruence|]. split; [congruence|].
    split; [congruence|].
    split; [rewrite length_app; cbn [List.length]; lia|].
    intros ep Hep. apply in_app_or in Hep as [Hep|Hep].
    + destruct (P1 ep Hep) as (T & Ht & Hd & link & Hin & Hh & Ha).
      split; [exact T|]. exists entry, link.
      repeat split; auto. now left.
    + destruct (P2 ep Hep) as (T & x & link & Hx & Hin & H).
      split; [exact T|]. exists x, link. split; [now right|].
      split; [exact Hin|exact H].
Qed.

Lemma slice_to_int_bounds {A : Type} (n : Z) (l : list A) :
  (forall x, In x (Py.slice_to_int n l) -> In x l)
  /\ (List.length (Py.slice_to_int n l) <= List.length l)%nat
  /\ ((0 <= n)%Z -> (Z.of_nat (List.length (Py.slice_to_int n l)) <= n)%Z).
Proof.
  unfold Py.slice_to_int. destruct (n <? 0)%Z eqn:N.
  - split; [intros x; apply firstn_incl|].
    split; [rewrite length_firstn; lia|]. apply Z.ltb_lt in N. lia.
  - split; [intros x; apply firstn_incl|].
    split; [rewrite length_firstn; lia|]. intros _.
    rewrite length_firstn. lia.
Qed.

(** X17. [parse_feed], from the entries of the feed on, when no date of an
    entry fails to convert: it returns; it does not touch the store, the
    log or the service; it returns at most as many episodes as the feed has
    entries and, for a limit that is not negative, at most the limit; and
    every episode has an audio URL that is not empty and is the target of a
    link or an enclosure of an entry whose type starts with audio/, with
    the title and the duration of that entry. Entries without such a link
    give no episode. *)
Theorem parse_entries_episodes (env : Env) (entries : list Entry.t)
  (max_episodes : Z) (w : World) :
  (forall entry e, In entry entries ->
                   Entry.published_parsed entry <> Some (Raise e)) ->
  exists episodes w',
    parse_entries env entries max_episodes w = (Ok episodes, w')
    /\ db w' = db w /\ calls w' = calls w /\ log w' = log w
    /\ (List.length episodes <= List.length entries)%nat
    /\ ((0 <= max_episodes)%Z ->
        (Z.of_nat (List.length episodes) <= max_episodes)%Z)
    /\ forall ep, In ep episodes ->
         Py.truthy (Episode.audio_url ep) = true
         /\ exists entry link,
              In entry entries
              /\ In link (Entry.links entry ++ Entry.enclosures entry)%list
              /\ Link.href link = Some (Episode.audio_url ep)
              /\ Py.startswith "audio/" (link_type link) = true
              /\ Episode.title ep
                 = match Entry.title entry with
                   | Some t => t
                   | None => "Untitled"
                   end
              /\ Episode.duration ep = Entry.itunes_duration entry.
Proof.
  intros Hdate. unfold parse_entries.
  destruct (slice_to_int_bounds max_episodes entries) as (Hin & Hlen & Hmax).
  destruct (parse_loop env (Py.slice_to_int max_episodes entries)
              (fun x e Hx => Hdate x e (Hin x Hx)) [] w)
    as (new & w' & E & D & C & L & N & P).
  exists new, w'. cbn [app] in E.
  split; [exact E|]. split; [exact D|]. split; [exact C|]. split; [exact L|].
  split; [lia|]. split; [lia|].
  intros ep Hep. destruct (P ep Hep) as (T & x & link & Hx & H).
  split; [exact T|]. exists x, link. split; [apply Hin, Hx|exact H].
Qed.

Lemma parse_entries_episodes_witness :
  exists episodes w',
    parse_entries env_all_ok sample_entries 10 (world_of Database.empty)
    = (Ok episodes, w')
    /\ (List.length episodes <= 2)%nat.
Proof.
  destruct (parse_entries_episodes env_all_ok sample_entries 10
              (world_of Database.empty))
    as (episodes & w' & E & _ & _ & _ & L & _).
  - intros entry e [<-|[<-|[]]]; discriminate.
  - exists episodes, w'. split; [exact E|exact L].
Defined.

(** ** db.py: the processed table *)

(** X18. What [mark_processed] inserts is what the table then holds for
    the identity: one row with a new id, whatever was there before, so the
    outcome written last is the one that counts. After it [is_processed]
    answers whether the status written is success: a failure written after
    a success takes the success back. Rows of other identities, the answers
    for them, and the pending table are as before. *)
Theorem processed_insert_lookup (d : Database.t)
  (e c title path status : string) (now : datetime) :
  let d' := Database.mark_processed d e c title path status now in
  filter (Database.processed_key e c) (Database.processed_episodes d')
  = [ProcessedEpisode.mk (Database.processed_seq d + 1) e c title now status
       path]
  /\ Database.is_processed d' e c = String.eqb status "success"
  /\ (forall e' c', (e, c) <> (e', c') ->
        filter (Database.processed_key e' c') (Database.processed_episodes d')
        = filter (Database.processed_key e' c') (Database.processed_episodes d)
        /\ Database.is_processed d' e' c' = Database.is_processed d e' c')
  /\ Database.pending_episodes d' = Database.pending_episodes d
  /\ Database.pending_seq d' = Database.pending_seq d
  /\ Database.get_failed_episodes d' None
     = (filter (fun r => negb (Database.processed_key e c r))
               (Database.get_failed_episodes d None)
        ++ (if String.eqb status "failed"
            then [ProcessedEpisode.mk (Database.processed_seq d + 1) e c title
                    now status path]
            else []))%list.
Proof.
  cbv zeta. split; [|split; [|split; [|split; [|split]]]].
  - unfold Database.mark_processed. cbn [Database.processed_episodes].
    rewrite filter_app. cbn [filter]. rewrite processed_key_row, key_refl.
    rewrite filter_filter_same by auto. reflexivity.
  - apply is_processed_mark_processed_same.
  - intros e' c' Hne. split.
    + unfold Database.mark_processed. cbn [Database.processed_episodes].
      rewrite filter_app. cbn [filter].
      rewrite processed_key_row, (key_other _ _ _ _ Hne), app_nil_r.
      apply filter_filter_other. intros r K.
      destruct (Database.processed_key e c r) eqn:K'; [|reflexivity].
      exfalso. apply Hne. unfold Database.processed_key in K, K'.
      apply andb_true_iff in K as [K1 K2].
      apply andb_true_iff in K' as [K3 K4].
      apply String.eqb_eq in K1, K2, K3, K4. congruence.
    + now apply is_processed_mark_processed_other.
  - reflexivity.
  - reflexivity.
  - unfold Database.get_failed_episodes, Database.mark_processed.
    cbn [Database.processed_episodes].
    rewrite filter_app. cbn [filter ProcessedEpisode.status]. f_equal.
    rewrite !filter_filter_and. apply filter_ext. intros r.
    apply andb_comm.
Qed.

Lemma processed_insert_lookup_witness :
  Database.is_processed
    (Database.mark_processed db_success "ep2" "chan" "Title Two" "" "failed"
       1001%Z)
    "ep1" "chan"
  = Database.is_processed db_success "ep1" "chan".
Proof.
  apply (proj2 (proj2 (processed_insert_lookup db_success "ep2" "chan"
                         "Title Two" "" "failed" 1001%Z))).
  discriminate.
Defined.

(** ** transcriber.py: time stamps *)

Lemma Qfloor_sub_Z (x : Q) (m : Z) :
  Qfloor (x - inject_Z m) = (Qfloor x - m)%Z.
Proof.
  destruct x as [n d]. unfold Qminus, Qplus, Qopp, inject_Z, Qfloor.
  cbn [Qnum Qden]. rewrite Pos.mul_1_r, Z.mul_1_r.
  rewrite Z.div_add by discriminate. lia.
Qed.

Lemma Qfloor_div_pos (x : Q) (j : positive) :
  Qfloor (x / (Zpos j # 1)) = (Qfloor x / Zpos j)%Z.
Proof.
  destruct x as [n d]. unfold Qdiv, Qinv, Qmult, Qfloor.
  cbn [Qnum Qden]. rewrite Z.mul_1_r, Pos2Z.inj_mul.
  symmetry. apply Z.div_div; [discriminate|reflexivity].
Qed.

Lemma int_inject_Z (k : Z) : Py.int (inject_Z k) = k.
Proof.
  unfold Py.int. destruct (Qle_bool 0 (inject_Z k));
    [apply Qfloor_Z|apply Qceiling_Z].
Qed.

Lemma int_mod (x : Q) (j : positive) :
  Py.int (Py.mod_ x (Zpos j # 1)) = (Qfloor x mod Zpos j)%Z.
Proof.
  unfold Py.mod_. rewrite Qfloor_div_pos.
  change (Zpos j # 1) with (inject_Z (Zpos j)). rewrite <- inject_Z_mult.
  unfold Py.int.
  assert (P : Qle_bool 0 (x - inject_Z (Zpos j * (Qfloor x / Zpos j))) = true).
  { apply Qle_bool_iff. unfold Qminus. rewrite <- Qle_minus_iff.
    eapply Qle_trans; [|apply Qfloor_le]. rewrite <- Zle_Qle.
    apply Z.mul_div_le. reflexivity. }
  rewrite P, Qfloor_sub_Z, Z.mod_eq by discriminate. reflexivity.
Qed.

(** X19. On the seconds of a time stamp that are not negative and below
    2^53, given by the exact value of the float, where the floor division
    and the remainder of floats are exact, [format_time] drops the fraction
    of a second and prints the whole seconds as hours, minutes and seconds:
    the minutes and the seconds are below 60, the hours take what is left,
    so they have more than two digits from a hundred hours on. On a whole
    number of seconds of an hour or more in this range, written in digits
    within the limit of [int], [format_duration] of [utils.py] prints the
    same text. *)
Theorem format_time_fields (seconds : Q) :
  0 <= seconds -> seconds < inject_Z (2 ^ 53) ->
  let z := Qfloor seconds in
  let h := (z / 3600)%Z in
  let m := ((z mod 3600) / 60)%Z in
  let s := (z mod 60)%Z in
  format_time seconds
  = Py.format_02d h ++ ":" ++ Py.format_02d m ++ ":" ++ Py.format_02d s
  /\ (0 <= h)%Z /\ (0 <= m < 60)%Z /\ (0 <= s < 60)%Z
  /\ z = (3600 * h + 60 * m + s)%Z
  /\ format_time seconds = format_time (inject_Z z)
  /\ (forall text,
        Py.truthy text = true ->
        forallb Py.decimal_char (Py.chars text) = true ->
        (Z.of_nat (Py.len text) <= Py.int_max_str_digits)%Z ->
        (3600 <= Py.digits_value (Py.chars text) < 2 ^ 53)%Z ->
        format_duration text
        = Ok (format_time (inject_Z (Py.digits_value (Py.chars text))))).
Proof.
  intros Hpos Hbound. cbv zeta.
  assert (F : forall q,
            format_time q
            = Py.format_02d (Qfloor q / 3600)
              ++ ":" ++ Py.format_02d ((Qfloor q mod 3600) / 60)
              ++ ":" ++ Py.format_02d (Qfloor q mod 60)).
  { intros q. unfold format_time.
    change (60 : Q) with (Zpos 60 # 1). change (3600 : Q) with (Zpos 3600 # 1).
    rewrite (int_mod q 60). unfold Py.floordiv.
    rewrite !int_inject_Z, !Qfloor_div_pos.
    replace (Qfloor (Py.mod_ q (3600 # 1))) with (Qfloor q mod 3600)%Z;
      [reflexivity|].
    unfold Py.mod_. rewrite Qfloor_div_pos.
    change (3600 # 1) with (inject_Z 3600). rewrite <- inject_Z_mult.
    rewrite Qfloor_sub_Z, Z.mod_eq by discriminate. reflexivity. }
  split; [apply F|].
  assert (Hz : (0 <= Qfloor seconds)%Z).
  { change 0%Z with (Qfloor 0). apply Qfloor_resp_le, Hpos. }
  assert (Hm : (0 <= Qfloor seconds mod 3600 < 3600)%Z)
    by (apply Z.mod_pos_bound; reflexivity).
  assert (Hs : (0 <= Qfloor seconds mod 60 < 60)%Z)
    by (apply Z.mod_pos_bound; reflexivity).
  split; [apply Z.div_pos; lia|].
  split.
  { split; [apply Z.div_pos; lia|apply Z.div_lt_upper_bound; lia]. }
  split; [exact Hs|]. split.
  { pose proof (Z.div_mod (Qfloor seconds) 3600).
    pose proof (Z.div_mod (Qfloor seconds mod 3600) 60).
    assert ((Qfloor seconds mod 3600) mod 60 = Qfloor seconds mod 60)%Z.
    { replace (Qfloor seconds mod 3600)%Z
        with (Qfloor seconds + (-60 * (Qfloor seconds / 3600)) * 60)%Z
        by (rewrite Z.mod_eq by discriminate; lia).
      apply Z_mod_plus_full. }
    lia. }
  split; [rewrite !F, Qfloor_Z; reflexivity|].
  intros text T D L V. unfold format_duration, Py.int_of_str, Py.isdigit.
  apply Z.leb_le in L.
  rewrite T, D, L, (decimal_is_digit _ D). cbn [negb andb bindR].
  rewrite F, Qfloor_Z.
  assert (G : (Py.digits_value (Py.chars text) / 3600 >? 0)%Z = true).
  { apply Z.gtb_lt.
    apply Z.div_str_pos. lia. }
  rewrite G. reflexivity.
Qed.

Lemma format_time_fields_witness :
  format_time (7447 # 2) = "01:02:03"
  /\ format_duration "3725" = Ok (format_time (inject_Z 3725)).
Proof.
  assert (A : 0 <= 7447 # 2) by (vm_compute; discriminate).
  assert (B : 7447 # 2 < inject_Z (2 ^ 53)) by reflexivity.
  destruct (format_time_fields (7447 # 2) A B) as (E & _ & _ & _ & _ & _ & D).
  split; [exact E|].
  apply (D "3725");
    [reflexivity|reflexivity|vm_compute; discriminate
    |split; [vm_compute; discriminate|reflexivity]].
Defined.

(** ** query.py: durations *)

Lemma chars_app (a b : string) :
  Py.chars (a ++ b) = (Py.chars a ++ Py.chars b)%list.
Proof. induction a as [|c a IH]; simpl; [reflexivity|now rewrite <- IH]. Qed.

Lemma contains_app (u : ascii) (a b : string) :
  Py.contains u (a ++ b) = Py.contains u a || Py.contains u b.
Proof. unfold Py.contains. now rewrite chars_app, existsb_app. Qed.

Lemma split_chars_none (u : ascii) (l : list ascii) :
  existsb (Ascii.eqb u) l = false -> Py.split_chars u l = [l].
Proof.
  induction l as [|x l IH]; simpl; [reflexivity|].
  intros H. apply orb_false_iff in H as [Hx Hl]. rewrite (IH Hl).
  rewrite Ascii.eqb_sym, Hx. reflexivity.
Qed.

Lemma split_chars_at (u : ascii) (a b : list ascii) :
  existsb (Ascii.eqb u) a = false -> existsb (Ascii.eqb u) b = false ->
  Py.split_chars u (a ++ u :: b) = [a; b].
Proof.
  intros Ha Hb. induction a as [|x a IH]; simpl.
  - rewrite (split_chars_none u b Hb), Ascii.eqb_refl. reflexivity.
  - simpl in Ha. apply orb_false_iff in Ha as [Hx Ha]. rewrite (IH Ha).
    rewrite Ascii.eqb_sym, Hx. reflexivity.
Qed.

Lemma split_at (u : ascii) (text rest : string) :
  Py.contains u text = false -> Py.contains u rest = false ->
  Py.split u (text ++ String u rest) = [text; rest].
Proof.
  intros Ht Hr. unfold Py.split. rewrite chars_app.
  change (Py.chars (String u rest)) with (u :: Py.chars rest).
  rewrite split_chars_at by assumption. cbn [map].
  now rewrite !str_chars.
Qed.

Lemma part_stage (u : ascii) (text rest : string) :
  Py.contains u text = false -> Py.contains u rest = false ->
  Py.contains u ((text ++ String u "") ++ rest) = true
  /\ Py.split u ((text ++ String u "") ++ rest) = [text; rest].
Proof.
  intros Ht Hr.
  assert (E : (text ++ String u "") ++ rest = text ++ String u rest).
  { clear. induction text as [|c t IH]; simpl; [reflexivity|now rewrite IH]. }
  rewrite E. split; [|now apply split_at].
  rewrite contains_app. unfold Py.contains at 2.
  change (Py.chars (String u rest)) with (u :: Py.chars rest).
  cbn [existsb]. rewrite Ascii.eqb_refl. apply orb_true_r.
Qed.

Lemma remove_char_end (u : ascii) (text : string) :
  Py.contains u text = false ->
  Py.remove_char u (text ++ String u "") = text.
Proof.
  intros Ht. unfold Py.remove_char. rewrite chars_app, filter_app.
  cbn [Py.chars filter]. change (Py.chars (String u "")) with [u].
  cbn [filter]. rewrite Ascii.eqb_refl. cbn [negb]. rewrite app_nil_r.
  rewrite filter_all; [apply str_chars|].
  unfold Py.contains in Ht. rewrite forallb_forall. intros x Hx.
  destruct (Ascii.eqb x u) eqn:E; [|reflexivity].
  apply Ascii.eqb_eq in E. subst x.
  assert (existsb (Ascii.eqb u) (Py.chars text) = true)
    by (apply existsb_exists; exists u; split; [exact Hx|apply Ascii.eqb_refl]).
  congruence.
Qed.

Lemma unit_free_contains (text : string) (u : ascii) :
  unit_free text = true -> Py.char_in "HMS" u = true ->
  Py.contains u text = false.
Proof.
  unfold unit_free, Py.contains. intros F U.
  destruct (existsb (Ascii.eqb u) (Py.chars text)) eqn:E; [|reflexivity].
  apply existsb_exists in E as [x [Hx E]]. apply Ascii.eqb_eq in E. subst x.
  rewrite forallb_forall in F. specialize (F u Hx). rewrite U in F.
  discriminate.
Qed.

Section DurationDecoding.
Context {float : Type} `{FloatOps float}.

(** X20. [parse_duration] decodes a duration written from its parts: for
    the hours, minutes and seconds that are there, each a text without unit
    letter that [float] reads, it returns the sum, taken from 0.0 in this
    order, of the hours times 3600, the minutes times 60 and the seconds. A
    text that is empty or does not start with PT gives 0.0. *)
Theorem parse_duration_decodes (hours minutes seconds : option string)
  (h m s : option float) :
  part_ok hours h -> part_ok minutes m -> part_ok seconds s ->
  parse_duration (iso_duration hours minutes seconds)
  = Ok (add_part
          (add_part
             (add_part float_zero h
                (fun v => float_mul v (float_of_int 3600)))
             m (fun v => float_mul v (float_of_int 60)))
          s (fun v => v))
  /\ (forall text, Py.startswith "PT" text = false ->
                   parse_duration text = Ok float_zero).
Proof.
  intros Hh Hm Hs. split.
  2:{ intros text P. unfold parse_duration. rewrite P.
      rewrite orb_true_r. reflexivity. }
  unfold parse_duration, iso_duration.
  set (rest_s := iso_part seconds "S").
  set (rest_m := iso_part minutes "M" ++ rest_s).
  set (rest_h := iso_part hours "H" ++ rest_m).
  change (Py.truthy ("PT" ++ rest_h)) with true.
  replace (Py.startswith "PT" ("PT" ++ rest_h)) with true
    by (destruct rest_h; reflexivity).
  cbn [negb orb].
  change (Py.slice_from 2 ("PT" ++ rest_h)) with (Py.str (Py.chars rest_h)).
  rewrite str_chars.
  assert (Cs : forall u, Py.char_in "HMS" u = true -> u <> "S"%char ->
                 Py.contains u rest_s = false).
  { intros u U Hu. unfold rest_s.
    destruct seconds as [ts|], s as [fs|]; try contradiction; [|reflexivity].
    destruct Hs as [Fs _]. cbn [iso_part]. rewrite contains_app.
    rewrite (unit_free_contains ts u Fs U). cbn.
    destruct (Ascii.eqb u "S") eqn:E; [|reflexivity].
    apply Ascii.eqb_eq in E. contradiction. }
  assert (Cm : forall u, Py.char_in "HMS" u = true -> u <> "S"%char ->
                 u <> "M"%char -> Py.contains u rest_m = false).
  { intros u U Hu Hu'. unfold rest_m. rewrite contains_app, (Cs u U Hu).
    destruct minutes as [tm|], m as [fm|]; try contradiction; [|reflexivity].
    destruct Hm as [Fm _]. cbn [iso_part]. rewrite contains_app.
    rewrite (unit_free_contains tm u Fm U). cbn.
    destruct (Ascii.eqb u "M") eqn:E; [|reflexivity].
    apply Ascii.eqb_eq in E. contradiction. }
  assert (Sh :
    (if Py.contains "H" rest_h
     then (' (hours0, duration_str) <- unpack2 (Py.split "H" rest_h) ;;
           h0 <- float_of_str hours0 ;;
           Ok (float_add float_zero (float_mul h0 (float_of_int 3600)),
               duration_str))%result
     else Ok (float_zero, rest_h))
    = Ok (add_part float_zero h (fun v => float_mul v (float_of_int 3600)),
          rest_m)).
  { unfold rest_h.
    destruct hours as [th|], h as [fh|]; try contradiction; cbn [iso_part].
    - destruct Hh as [Fh Vh].
      assert (Ct : Py.contains "H" th = false)
        by (apply unit_free_contains; [exact Fh|reflexivity]).
      assert (Cr : Py.contains "H" rest_m = false)
        by (apply Cm; [reflexivity|discriminate|discriminate]).
      destruct (part_stage "H" th rest_m Ct Cr) as [-> ->].
      cbn [unpack2 bindR]. rewrite Vh. reflexivity.
    - cbn [append].
      rewrite (Cm "H"%char eq_refl); [reflexivity|discriminate|discriminate]. }
  rewrite Sh. cbn [bindR].
  set (total_h := add_part float_zero h
                    (fun v => float_mul v (float_of_int 3600))).
  assert (Sm :
    (if Py.contains "M" rest_m
     then (' (minutes0, duration_str) <- unpack2 (Py.split "M" rest_m) ;;
           m0 <- float_of_str minutes0 ;;
           Ok (float_add total_h (float_mul m0 (float_of_int 60)),
               duration_str))%result
     else Ok (total_h, rest_m))
    = Ok (add_part total_h m (fun v => float_mul v (float_of_int 60)),
          rest_s)).
  { unfold rest_m.
    destruct minutes as [tm|], m as [fm|]; try contradiction; cbn [iso_part].
    - destruct Hm as [Fm Vm].
      assert (Ct : Py.contains "M" tm = false)
        by (apply unit_free_contains; [exact Fm|reflexivity]).
      assert (Cr : Py.contains "M" rest_s = false)
        by (apply Cs; [reflexivity|discriminate]).
      destruct (part_stage "M" tm rest_s Ct Cr) as [-> ->].
      cbn [unpack2 bindR]. rewrite Vm. reflexivity.
    - cbn [append]. rewrite (Cs "M"%char eq_refl); [reflexivity|discriminate]. }
  rewrite Sm. cbn [bindR].
  unfold rest_s.
  destruct seconds as [ts|], s as [fs|]; try contradiction; cbn [iso_part].
  - destruct Hs as [Fs Vs]. rewrite contains_app.
    change (Py.contains "S" "S") with true. rewrite orb_true_r.
    rewrite remove_char_end
      by (apply unit_free_contains; [exact Fs|reflexivity]).
    rewrite Vs. reflexivity.
  - reflexivity.
Qed.

End DurationDecoding.

Lemma parse_duration_decodes_witness :
  parse_duration (iso_duration (Some "1") (Some "2") (Some "3.5"))
  = Ok (7447 # 2).
Proof.
  assert (A : part_ok (Some "1") (Some 1)) by (split; reflexivity).
  assert (B : part_ok (Some "2") (Some 2)) by (split; reflexivity).
  assert (C : part_ok (Some "3.5") (Some (7 # 2))) by (split; reflexivity).
  exact (proj1 (parse_duration_decodes (Some "1") (Some "2") (Some "3.5")
                  (Some 1) (Some 2) (Some (7 # 2)) A B C)).
Defined.
